(** * Everlyn-AR: conditional sequence assembly, sampling and the image/video loader

    A shallow embedding of
      - [OmniTokenizer/lm_transformer.py]   (class [Net2NetTransformer]),
      - [videoAR/data/dataset_image_video.py] (classes [ImageVideoSampler]
        and [ImageVideoDataset]),
    followed by the properties proved about them.

    Conventions.
    - Python integers are [Z]; Python floats that are only compared,
      subtracted or multiplied by an integer before [int()] are exact
      rationals [Q] (the configuration values 0.1, 0.9, 1.0 and the draws of
      [random.random()], which are multiples of 2^-53).
    - A tensor of shape (B, L) is handled one row at a time: every tensor
      operation of [forward] and [sample] ([torch.cat(..., dim=1)],
      [t[:, a:b]], [t.shape[1]]) acts on dimension 1 uniformly in the batch
      index, so a row is a [list Z] and [shape[1]] is its length.
    - Exceptions are values of [Py.exn]; a fallible function returns a
      [Py.result].
    - Random draws are realizations passed in as arguments (or read from a
      stream of raw draws), so that a statement "for every realization" is a
      universal quantification. *)

From Stdlib Require Import ZArith QArith Qround List Bool Ascii Lia Lqa Permutation.
From Stdlib Require Import Sorted.
From Stdlib Require String.
Import ListNotations String.StringSyntax.
Close Scope Q_scope.
Open Scope string_scope.
Open Scope list_scope.
Open Scope Z_scope.

Abbreviation string := String.string.

(* ===================================================================== *)
(** * Python values, exceptions and built-ins used by both files          *)
(* ===================================================================== *)

Module Py.

Inductive exn : Type :=
| AssertionError
| ValueError (msg : string)
| KeyError (key : string)
| IndexError (msg : string)
| ZeroDivisionError
| UnboundLocalError (name : string)
| AttributeError (name : string)
| OSError (msg : string).

Inductive result (A : Type) : Type :=
| Ok (a : A)
| Raise (e : exn).

Arguments Ok {A} a.
Arguments Raise {A} e.

(** [len(l)] as a Python integer. *)
Definition len {A : Type} (l : list A) : Z := Z.of_nat (List.length l).

(** The bound of a slice: a negative bound counts from the end, and every
    bound is clipped to [0, n]. *)
Definition clamp_index (n k : Z) : Z :=
  if k <? 0 then Z.max 0 (k + n) else Z.min k n.

(** [l[start:stop]]; [None] is an omitted bound. *)
Definition slice {A : Type} (l : list A) (start stop : option Z) : list A :=
  let n := len l in
  let lo := match start with Some k => clamp_index n k | None => 0 end in
  let hi := match stop with Some k => clamp_index n k | None => n end in
  firstn (Z.to_nat (hi - lo)) (skipn (Z.to_nat lo) l).

(** [l[-1]], which raises IndexError on an empty sequence. *)
Definition last_item {A : Type} (l : list A) : result A :=
  match rev l with
  | [] => Raise (IndexError "index -1 is out of bounds")
  | a :: _ => Ok a
  end.

(** [range(n)]: empty when [n <= 0]. *)
Definition range (n : Z) : list Z := map Z.of_nat (seq 0 (Z.to_nat n)).

(** [x < y] and [x <= y] on floats. *)
Definition Qltb (x y : Q) : bool := negb (Qle_bool y x).
Definition Qleb (x y : Q) : bool := Qle_bool x y.

(** [int(q)] on a float: truncation toward zero. *)
Definition int_of_float (q : Q) : Z := Z.quot (Qnum q) (Z.pos (Qden q)).

(** [random.random()]: 53 random bits scaled into [0, 1). *)
Definition random_of_raw (raw : nat) : Q :=
  Qmake (Z.of_nat raw mod 2 ^ 53) (2 ^ 53).

(** [random.randint(a, b)]: a value of [a, b], both ends included; an empty
    range raises ValueError. *)
Definition randint_of_raw (a b : Z) (raw : nat) : result Z :=
  if b <? a then Raise (ValueError "empty range for randrange()")
  else Ok (a + Z.of_nat raw mod (b - a + 1)).

End Py.

(* ===================================================================== *)
(** * OmniTokenizer/lm_transformer.py                                     *)
(* ===================================================================== *)

Module lm_transformer.
Import Py.

(** The errors of the methods of this file: those of [Py.exn], and
    RuntimeError. *)
Inductive error : Type :=
| Exn (e : exn)
| RuntimeError (msg : string).

Inductive outcome (A : Type) : Type :=
| Fine (a : A)
| Failed (e : error).

Arguments Fine {A} a.
Arguments Failed {A} e.

(** ** [top_k_logits] (lines 197-201) *)

(** A float of a logits tensor: a rational or minus infinity. *)
Inductive score : Type :=
| NegInf
| Fin (q : Q).

(** [a <= b] and [a < b] on such floats. *)
Definition score_leb (a b : score) : bool :=
  match a, b with
  | NegInf, _ => true
  | Fin _, NegInf => false
  | Fin x, Fin y => Qle_bool x y
  end.

Definition score_ltb (a b : score) : bool := negb (score_leb b a).

(** The values of a row in descending order. *)
Fixpoint insert_desc (a : score) (l : list score) : list score :=
  match l with
  | [] => [a]
  | b :: t => if score_leb b a then a :: l else b :: insert_desc a t
  end.

Fixpoint sort_desc (l : list score) : list score :=
  match l with
  | [] => []
  | a :: t => insert_desc a (sort_desc t)
  end.

(** The values [v] of [torch.topk(logits, k)] on one row: the [k] largest,
    in descending order; [k] must lie in [0, len(logits)]. *)
Definition topk_values (logits : list score) (k : Z) : outcome (list score) :=
  if (k <? 0) || (len logits <? k)
  then Failed (RuntimeError "selected index k out of range")
  else Fine (firstn (Z.to_nat k) (sort_desc logits)).

(** [top_k_logits] on one row: every score below the [k]-th largest,
    [v[..., [-1]]], becomes minus infinity. *)
Definition top_k_logits (logits : list score) (k : Z) : outcome (list score) :=
  match topk_values logits k with
  | Failed e => Failed e
  | Fine v =>
      match last_item v with
      | Raise e => Failed (Exn e)
      | Ok kth =>
          Fine (map (fun s => if score_ltb s kth then NegInf else s) logits)
      end
  end.

(** The conditioning encoders of [modules/encoders.py]. *)
Inductive cond_stage : Type :=
| Labelator (n_classes : Z)
| VQGAN (n_codes : Z)
| Identity
| SOSProvider (sos_token : Z).

(** The attributes of [args] read by [Net2NetTransformer].  An attribute
    that [__init__] tests with [hasattr] is an [option]; [p_drop_cond] is
    [None] both when absent and when given as [None].  [vqvae_n_codes] and
    [stft_n_codes] are the codebook sizes of the tokenizers that
    [load_vqgan] returns for [args.vqvae] and [args.stft_vqvae]. *)
Record Args : Type := {
  unconditional : bool;
  class_cond_dim : Z;
  vtokens : bool;
  args_starts_with_sos : option bool;
  args_p_drop_cond : option Q;
  args_class_first : option bool;
  args_block_size : Z;
  vqvae_n_codes : Z;
  stft_n_codes : Z
}.

(** The tokenizers, external collaborators: the first-stage encoder
    ([first_stage_model.encode], flattened, with the
    [sample_every_n_latent_frames] stride applied) and the encoders of the
    conditioning other than [SOSProvider]; the [bool] is [is_image]. *)
Record Encoders : Type := {
  first_stage_encode : bool -> list Z -> list Z;
  cond_encode : cond_stage -> bool -> list Z -> list Z
}.

Section Net2Net.

(** One position of the transformer output: its vector of vocabulary
    scores.  The arithmetic on it (temperature, top-k, softmax) is floating
    point and stays abstract. *)
Context {Logits : Type}.

(** The GPT of [modules/gpt.py], an external collaborator: its
    configuration and its forward pass on one row of token ids. *)
Record GPT : Type := {
  vocab_size : Z;
  block_size : Z;
  gpt_training : bool;
  run : list Z -> list Logits
}.

Record Net2NetTransformer : Type := {
  be_unconditional : bool;
  sos_token : Z;
  first_stage_key : string;
  cond_stage_key : string;
  self_vtokens : bool;
  first_stage_vocab_size : Z;
  cond_stage_model : cond_stage;
  cond_stage_vocab_size : Z;
  starts_with_sos : bool;
  sos_provider : cond_stage;
  p_drop_cond : option Q;
  class_first : bool;
  transformer : GPT;
  pkeep : Q;
  training : bool;
  encoders : Encoders
}.

(** [init_first_stage_from_ckpt]: the first-stage vocabulary size. *)
Definition init_first_stage_from_ckpt (args : Args) : Z :=
  if negb (vtokens args) then vqvae_n_codes args else 16384.

(** [init_cond_stage_from_ckpt]: the attributes it sets, in the order
    [(cond_stage_model, cond_stage_vocab_size, cond_stage_key,
    be_unconditional)].  The final [else] builds a ValueError without
    raising it and sets nothing: [None]. *)
Definition init_cond_stage_from_ckpt (args : Args) (sos_token : Z)
    (first_stage_key cond_stage_key : string) (be_unconditional : bool)
  : option (cond_stage * Z * string * bool) :=
  if String.eqb cond_stage_key "label" && negb be_unconditional then
    Some (Labelator (class_cond_dim args), class_cond_dim args,
          cond_stage_key, be_unconditional)
  else if String.eqb cond_stage_key "stft" then
    Some (VQGAN (stft_n_codes args), stft_n_codes args,
          cond_stage_key, be_unconditional)
  else if String.eqb cond_stage_key "text" then
    Some (Identity, 49408, cond_stage_key, be_unconditional)
  else if be_unconditional then
    Some (SOSProvider sos_token, 0, first_stage_key, true)
  else None.

(** [Net2NetTransformer.__init__].  Checkpoint loading is left out; the GPT
    is built around the given forward pass [gpt_run].  A module is in
    training mode when constructed. *)
Definition __init__ (enc : Encoders) (gpt_run : list Z -> list Logits)
    (args : Args) (first_stage_key cond_stage_key : string)
    (pkeep : Q) (sos_token : Z) : result Net2NetTransformer :=
  let be_unconditional := unconditional args in
  let first_stage_vocab_size := init_first_stage_from_ckpt args in
  match init_cond_stage_from_ckpt args sos_token first_stage_key
          cond_stage_key be_unconditional with
  | None => Raise (AttributeError "cond_stage_vocab_size")
  | Some (model, cond_stage_vocab_size, cond_stage_key, be_unconditional) =>
      let starts_with_sos :=
        match args_starts_with_sos args with Some b => b | None => false end in
      let p_drop_cond := args_p_drop_cond args in
      let class_first :=
        match args_class_first args with Some b => b | None => false end in
      let starts_with_sos :=
        if be_unconditional then false else starts_with_sos in
      let gpt_vocab_size := first_stage_vocab_size + cond_stage_vocab_size in
      let gpt_vocab_size :=
        if starts_with_sos then gpt_vocab_size + 1 else gpt_vocab_size in
      Ok {| be_unconditional := be_unconditional;
            sos_token := sos_token;
            first_stage_key := first_stage_key;
            cond_stage_key := cond_stage_key;
            self_vtokens := vtokens args;
            first_stage_vocab_size := first_stage_vocab_size;
            cond_stage_model := model;
            cond_stage_vocab_size := cond_stage_vocab_size;
            starts_with_sos := starts_with_sos;
            sos_provider := SOSProvider sos_token;
            p_drop_cond := p_drop_cond;
            class_first := class_first;
            transformer := {| vocab_size := gpt_vocab_size;
                              block_size := args_block_size args;
                              gpt_training := true;
                              run := gpt_run |};
            pkeep := pkeep;
            training := true;
            encoders := enc |}
  end.

(** [nn.Module.train(mode)] and [eval()]: the mode of the module and of
    its transformer. *)
Definition train (mode : bool) (self : Net2NetTransformer)
  : Net2NetTransformer :=
  {| be_unconditional := be_unconditional self;
     sos_token := sos_token self;
     first_stage_key := first_stage_key self;
     cond_stage_key := cond_stage_key self;
     self_vtokens := self_vtokens self;
     first_stage_vocab_size := first_stage_vocab_size self;
     cond_stage_model := cond_stage_model self;
     cond_stage_vocab_size := cond_stage_vocab_size self;
     starts_with_sos := starts_with_sos self;
     sos_provider := sos_provider self;
     p_drop_cond := p_drop_cond self;
     class_first := class_first self;
     transformer := {| vocab_size := vocab_size (transformer self);
                       block_size := block_size (transformer self);
                       gpt_training := mode;
                       run := run (transformer self) |};
     pkeep := pkeep self;
     training := mode;
     encoders := encoders self |}.

(** Modelled from the spec: [SOSProvider.encode] of [modules/encoders.py],
    which is not among the sources; it provides the "unconditional
    start-of-sequence token", one per batch row. *)
Definition SOSProvider_encode (sos_token : Z) (c : list Z) : list Z :=
  [sos_token].

(** [encode_to_z]: with [vtokens] the input already holds token ids and is
    only reshaped to one row per sample. *)
Definition encode_to_z (self : Net2NetTransformer) (x : list Z)
    (is_image : bool) : list Z :=
  if self_vtokens self then x
  else first_stage_encode (encoders self) is_image x.

(** [encode_to_c]. *)
Definition encode_to_c (self : Net2NetTransformer) (c : list Z)
    (is_image : bool) : list Z :=
  match cond_stage_model self with
  | SOSProvider sos => SOSProvider_encode sos c
  | m => cond_encode (encoders self) m is_image c
  end.

(** The realizations of the random draws of one call of [forward] on one
    row: the value of [random.random()], the mask drawn by
    [torch.bernoulli] (for [pkeep] in [0, 1]) and the tokens drawn by
    [torch.randint_like], by position. *)
Record Draws : Type := {
  u_drop : Q;
  mask : nat -> bool;
  r_indices : nat -> Z
}.

(** [torch.randint_like(z_indices, high)] at one position, for [high > 0]:
    a value of [0, high), here a raw draw reduced modulo [high]. *)
Definition randint_like_of_raw (high : Z) (raw : nat) : Z :=
  Z.of_nat raw mod high.

(** The realizations that the draws of one call of [forward] take from a
    value [u] of [random.random()], a Bernoulli mask [m] and raw draws:
    line 154 draws the random tokens below
    [self.transformer.config.vocab_size]. *)
Definition draws (self : Net2NetTransformer) (u : Q) (m : nat -> bool)
    (raw : nat -> nat) : Draws :=
  {| u_drop := u;
     mask := m;
     r_indices :=
       fun j => randint_like_of_raw (vocab_size (transformer self)) (raw j) |}.

(** Lines 152-159: [a_indices] from the shifted [z_indices]; position [j]
    keeps its token when the mask is 1 there and takes the random token
    otherwise. *)
Definition corrupt (self : Net2NetTransformer) (d : Draws)
    (z_indices : list Z) : list Z :=
  if training self && Qltb (pkeep self) 1 then
    map (fun jz : nat * Z =>
           let m := Z.b2z (mask d (fst jz)) in
           m * snd jz + (1 - m) * r_indices d (fst jz))
        (combine (seq 0 (length z_indices)) z_indices)
  else z_indices.

(** Lines 145-150: the shifts of [c_indices] and of [z_indices]. *)
Definition shift_c (self : Net2NetTransformer) (c_indices : list Z)
  : list Z :=
  if starts_with_sos self then map (fun c => c + 1) c_indices
  else c_indices.

Definition shift_z (self : Net2NetTransformer) (z_indices : list Z)
  : list Z :=
  if starts_with_sos self
  then map (fun z => z + cond_stage_vocab_size self + 1) z_indices
  else map (fun z => z + cond_stage_vocab_size self) z_indices.

(** Lines 145-188 of [forward]: from the encoded [c_indices] and
    [z_indices] to [(cz_indices, prefix_len, target)]. *)
Definition splice (self : Net2NetTransformer) (d : Draws)
    (c_indices z_indices : list Z) : list Z * Z * list Z :=
  let sos := SOSProvider_encode (sos_token self) c_indices in
  let c_indices := shift_c self c_indices in
  let z_indices := shift_z self z_indices in
  let a_indices := corrupt self d z_indices in
  let '(cz_indices, prefix_len) :=
    if starts_with_sos self then
      match p_drop_cond self with
      | Some p =>
          if Qltb p (u_drop d) then
            (if class_first self then c_indices ++ sos ++ a_indices
             else sos ++ c_indices ++ a_indices,
             1 + len c_indices - 1)
          else (c_indices ++ a_indices, len c_indices - 1)
      | None =>
          (if class_first self then c_indices ++ sos ++ a_indices
           else sos ++ c_indices ++ a_indices,
           1 + len c_indices - 1)
      end
    else (c_indices ++ a_indices, len c_indices - 1) in
  (cz_indices, prefix_len, z_indices).

(** [forward] on one row; [is_image] is [x.ndim == 4], and [cbox] only
    goes through to the transformer. *)
Definition forward (self : Net2NetTransformer) (d : Draws)
    (x c : list Z) (is_image : bool) : result (list Logits * list Z) :=
  let z_indices := encode_to_z self x is_image in
  let c_indices := encode_to_c self c is_image in
  let '(cz_indices, prefix_len, target) :=
    splice self d c_indices z_indices in
  let logits := run (transformer self) (slice cz_indices None (Some (-1))) in
  let logits := slice logits (Some prefix_len) None in
  if len logits =? len target then Ok (logits, target)
  else Raise AssertionError.

(** The arguments of [sample] that only steer the choice of a token. *)
Record Sampling : Type := {
  temperature : Q;
  sample_flag : bool;
  top_k : option Z
}.

(** [logits / temperature] at one position: the scores of the vocabulary
    there, as floats.  The division is floating point and stays
    abstract. *)
Variable scores : Q -> Logits -> list score.

(** [F.softmax], then [torch.multinomial] or [torch.topk] with [k = 1], on
    the scores of one position: floating point and random, kept abstract;
    the [nat] numbers the draw. *)
Variable pick : Sampling -> nat -> list score -> Z.

(** Lines 243-253, and lines 218-232 position by position: the choice of
    one token from the logits of one position.  [top_k_logits] raises when
    [top_k] does not fit the row of scores. *)
Definition choose (cfg : Sampling) (k : nat) (lg : Logits) : outcome Z :=
  let logits := scores (temperature cfg) lg in
  match top_k cfg with
  | Some tk =>
      match top_k_logits logits tk with
      | Failed e => Failed e
      | Fine logits => Fine (pick cfg k logits)
      end
  | None => Fine (pick cfg k logits)
  end.

(** The choice at every position of a sequence of logits, the draws
    numbered from [k]. *)
Fixpoint choose_each (cfg : Sampling) (k : nat) (logits : list Logits)
  : outcome (list Z) :=
  match logits with
  | [] => Fine []
  | lg :: rest =>
      match choose cfg k lg with
      | Failed e => Failed e
      | Fine ix =>
          match choose_each cfg (S k) rest with
          | Failed e => Failed e
          | Fine ixs => Fine (ix :: ixs)
          end
      end
  end.

(** The loop of [sample] (lines 236-255): [k] counts the iterations done,
    [calls] records the arguments passed to [callback]. *)
Fixpoint sample_loop (gpt : GPT) (cfg : Sampling) (callback : bool)
    (todo : nat) (k : nat) (x : list Z) (calls : list Z)
  : outcome (list Z * list Z) :=
  match todo with
  | O => Fine (x, calls)
  | S todo' =>
      let calls := if callback then calls ++ [Z.of_nat k] else calls in
      if len x <=? block_size gpt then
        let x_cond :=
          if len x <=? block_size gpt then x
          else slice x (Some (- block_size gpt)) None in
        match last_item (run gpt x_cond) with
        | Raise e => Failed (Exn e)
        | Ok lg =>
            match choose cfg k lg with
            | Failed e => Failed e
            | Fine ix =>
                sample_loop gpt cfg callback todo' (S k) (x ++ [ix]) calls
            end
        end
      else Failed (Exn AssertionError)
  end.

(** [sample] on one row; besides the tokens it returns the record of the
    [callback] calls. *)
Definition sample (self : Net2NetTransformer) (x c : list Z) (steps : Z)
    (cfg : Sampling) (callback : bool) : outcome (list Z * list Z) :=
  let x := c ++ x in
  let gpt := transformer self in
  if gpt_training gpt then Failed (Exn AssertionError)
  else if Qleb (pkeep self) 0 then
    let noise := slice c (Some (len x - len c)) (Some (-1)) in
    let x := x ++ noise in
    let logits := run gpt x in
    match choose_each cfg 0 logits with
    | Failed e => Failed e
    | Fine ix => Fine (slice ix (Some (len c - 1)) None, [])
    end
  else
    match sample_loop gpt cfg callback (Z.to_nat steps) 0 x [] with
    | Failed e => Failed e
    | Fine (x, calls) => Fine (slice x (Some (len c)) None, calls)
    end.

End Net2Net.

End lm_transformer.

(* ===================================================================== *)
(** * videoAR/data/dataset_image_video.py                                 *)
(* ===================================================================== *)

Module dataset_image_video.
Import Py.

(** ** Strings, lists and dicts of the Python code *)

Definition str_add (a b : string) : string := String.append a b.
Infix "+s+" := str_add (at level 60, right associativity).

(** [s.split(sep)] for a one-character separator. *)
Fixpoint str_split (sep : Ascii.ascii) (s : string) : list string :=
  match s with
  | String.EmptyString => [String.EmptyString]
  | String.String ch s' =>
      if Ascii.eqb ch sep then String.EmptyString :: str_split sep s'
      else match str_split sep s' with
           | [] => [String.String ch String.EmptyString]
           | h :: t => String.String ch h :: t
           end
  end.

(** [sep.join(parts)]. *)
Definition str_join (sep : string) (parts : list string) : string :=
  String.concat sep parts.

(** [s[:stop]]. *)
Definition str_slice_to (s : string) (stop : Z) : string :=
  String.string_of_list_ascii
    (slice (String.list_ascii_of_string s) None (Some stop)).

Definition slash : Ascii.ascii := "/"%char.

(** [os.path.join(a, b)] of posixpath. *)
Definition os_path_join (a b : string) : string :=
  if String.prefix "/" b then b
  else if String.eqb a "" then b
  else match last_item (String.list_ascii_of_string a) with
       | Ok ch => if Ascii.eqb ch slash then a +s+ b else a +s+ "/" +s+ b
       | Raise _ => b
       end.

(** [os.path.dirname(p)] of posixpath: the part before the last slash,
    without its trailing slashes unless it consists of slashes only. *)
Fixpoint strip_trailing_empty (parts : list string) : list string :=
  match parts with
  | [] => []
  | h :: t =>
      match strip_trailing_empty t with
      | [] => if String.eqb h "" then [] else [h]
      | t' => h :: t'
      end
  end.

Definition os_path_dirname (p : string) : string :=
  let head := removelast (str_split slash p) in
  if forallb (fun s => String.eqb s "") head
  then String.concat "" (map (fun _ => "/") head)
  else str_join "/" (strip_trailing_empty head).

(** [l[i]] on a list: a negative index counts from the end. *)
Definition list_getitem {A : Type} (l : list A) (i : Z) : result A :=
  let j := if i <? 0 then i + len l else i in
  if (j <? 0) || (len l <=? j)
  then Raise (IndexError "list index out of range")
  else match nth_error l (Z.to_nat j) with
       | Some a => Ok a
       | None => Raise (IndexError "list index out of range")
       end.

(** [l[i] = v] on a list. *)
Fixpoint list_update {A : Type} (l : list A) (n : nat) (v : A) : list A :=
  match l, n with
  | [], _ => []
  | _ :: t, O => v :: t
  | h :: t, S n' => h :: list_update t n' v
  end.

Definition list_setitem {A : Type} (l : list A) (i : Z) (v : A)
  : result (list A) :=
  let j := if i <? 0 then i + len l else i in
  if (j <? 0) || (len l <=? j)
  then Raise (IndexError "list assignment index out of range")
  else Ok (list_update l (Z.to_nat j) v).

(** [a % b]. *)
Definition py_mod (a b : Z) : result Z :=
  if b =? 0 then Raise ZeroDivisionError else Ok (a mod b).

(** A dict with string keys, in insertion order. *)
Definition dict (V : Type) : Type := list (string * V).

Fixpoint dict_lookup {V : Type} (d : dict V) (k : string) : option V :=
  match d with
  | [] => None
  | (k', v) :: d' => if String.eqb k' k then Some v else dict_lookup d' k
  end.

(** [d[k]]. *)
Definition dict_getitem {V : Type} (d : dict V) (k : string) : result V :=
  match dict_lookup d k with
  | Some v => Ok v
  | None => Raise (KeyError k)
  end.

(** [d.get(k, default)]. *)
Definition dict_get {V : Type} (d : dict V) (k : string) (default : V) : V :=
  match dict_lookup d k with
  | Some v => v
  | None => default
  end.

(** [d[k] = v]. *)
Fixpoint dict_setitem {V : Type} (d : dict V) (k : string) (v : V) : dict V :=
  match d with
  | [] => [(k, v)]
  | (k', v') :: d' =>
      if String.eqb k' k then (k, v) :: d' else (k', v') :: dict_setitem d' k v
  end.

(** One annotation: a row of [csv.DictReader] or an object of the JSON
    file, with the values as text. *)
Definition entry : Type := dict string.

(** [data.get('type', 'image')]. *)
Definition content_type_of (data : entry) : string :=
  dict_get data "type" "image".

(** ** ImageVideoSampler *)

Module ImageVideoSampler.

(** The attributes of [self]; [dataset] is [self.dataset.dataset], the
    entry list of the wrapped dataset, and [bucket] the dict created with
    the keys 'image' and 'video'. *)
Record t : Type := {
  dataset : list entry;
  batch_size : Z;
  image_batch_size : Z;
  drop_last : bool;
  bucket : dict (list Z)
}.

Definition set_bucket (self : t) (b : dict (list Z)) : t :=
  {| dataset := dataset self;
     batch_size := batch_size self;
     image_batch_size := image_batch_size self;
     drop_last := drop_last self;
     bucket := b |}.

(** [__init__]; the sampler and the batch size are of the right types, the
    sign of [batch_size] is checked. *)
Definition __init__ (dataset : list entry) (batch_size image_batch_size : Z)
    (drop_last : bool) : result t :=
  if batch_size <=? 0
  then Raise (ValueError "batch_size should be a positive integer value")
  else Ok {| dataset := dataset;
             batch_size := batch_size;
             image_batch_size := image_batch_size;
             drop_last := drop_last;
             bucket := [("image", []); ("video", [])] |}.

(** The body of the [for] loop of [__iter__] for one [idx]: the batch it
    yields, if any, and the sampler afterwards. *)
Definition iter_step (self : t) (idx : Z) : result (option (list Z) * t) :=
  match list_getitem (dataset self) idx with
  | Raise e => Raise e
  | Ok data =>
      let content_type := content_type_of data in
      match dict_getitem (bucket self) content_type with
      | Raise e => Raise e
      | Ok b =>
          let self := set_bucket self
                        (dict_setitem (bucket self) content_type (b ++ [idx])) in
          match dict_getitem (bucket self) "video" with
          | Raise e => Raise e
          | Ok video =>
              if len video =? batch_size self then
                Ok (Some video, set_bucket self
                                  (dict_setitem (bucket self) "video" []))
              else
                match dict_getitem (bucket self) "image" with
                | Raise e => Raise e
                | Ok image =>
                    if len image =? image_batch_size self then
                      Ok (Some image, set_bucket self
                                        (dict_setitem (bucket self) "image" []))
                    else Ok (None, self)
                end
          end
      end
  end.

(** One run of the generator [__iter__], consumed to the end of the base
    sampler (the list [sampler] of the indices it produces): the batches
    yielded in order, the sampler object afterwards, and the exception
    that ended the run, if any.  The buckets live in [self], not in the
    generator. *)
Fixpoint __iter__ (self : t) (sampler : list Z)
  : list (list Z) * t * option exn :=
  match sampler with
  | [] => ([], self, None)
  | idx :: rest =>
      match iter_step self idx with
      | Raise e => ([], self, Some e)
      | Ok (y, self') =>
          let '(ys, self'', e) := __iter__ self' rest in
          (match y with Some b => b :: ys | None => ys end, self'', e)
      end
  end.

(** Successive runs of [__iter__] on the same sampler object, one per
    epoch: the batches of every run. *)
Fixpoint epochs (self : t) (samplers : list (list Z))
  : list (list (list Z)) * t :=
  match samplers with
  | [] => ([], self)
  | s :: rest =>
      let '(ys, self', _) := __iter__ self s in
      let '(yss, self'') := epochs self' rest in
      (ys :: yss, self'')
  end.

End ImageVideoSampler.

(** ** ImageVideoDataset *)

Module ImageVideoDataset.

(** Pixel data, kept symbolic: which frames or which image were read and
    what was applied to them. *)
Inductive array : Type :=
| Frames (video_dir : string) (batch_index : list Z)
| FromNumpyScaled (a : array)
| VideoTransforms (a : array)
| ImageRGB (image_path : string)
| ImageTransforms (a : array)
| ExpandDims (a : array).

(** [a.shape[0]]: the number of frames; an image array has the one
    leading position added by [unsqueeze(0)] or [expand_dims(..., 0)]. *)
Fixpoint shape0 (a : array) : Z :=
  match a with
  | Frames _ batch_index => len batch_index
  | FromNumpyScaled a' => shape0 a'
  | VideoTransforms a' => shape0 a'
  | ImageRGB _ => 1
  | ImageTransforms _ => 1
  | ExpandDims _ => 1
  end.

Inductive pyval : Type :=
| VNone
| VStr (s : string)
| VInt (z : Z)
| VArray (a : array)
| VObj (name : string).

(** What [func_timeout(VIDEO_READER_TIMEOUT, get_video_reader_batch, ...)]
    does. *)
Inductive read_outcome : Type :=
| ReadOk
| FunctionTimedOut
| ReadError (e : exn).

(** The file system and the decoders, external to the loader. *)
Record World : Type := {
  makedirs : string -> option exn;
  isfile : string -> bool;
  pickle_load : string -> result (dict pyval);
  video_reader_len : string -> result nat;
  read_frames : string -> list Z -> read_outcome;
  image_open : string -> option exn;
  int_of_str : string -> result Z
}.

Inductive event : Type :=
| Print (e : exn)
| PrintEntry (e : exn) (data : entry).

(** The state threaded through the loader: the generator of the [random]
    module, as a stream of raw draws read at [cursor], and what was
    printed. *)
Record state : Type := {
  rng : nat -> nat;
  cursor : nat;
  printed : list event
}.

Definition M (A : Type) : Type := state -> result A * state.

Definition ret {A : Type} (a : A) : M A := fun st => (Ok a, st).

Definition raise {A : Type} (e : exn) : M A := fun st => (Raise e, st).

Definition bind {A B : Type} (m : M A) (k : A -> M B) : M B :=
  fun st =>
    match m st with
    | (Ok a, st') => k a st'
    | (Raise e, st') => (Raise e, st')
    end.

Definition lift {A : Type} (r : result A) : M A := fun st => (r, st).

Notation "x <- m ;; k" := (bind m (fun x => k))
  (at level 61, m at next level, right associativity).
Notation "' pat <- m ;; k" :=
  (bind m (fun x => match x with pat => k end))
  (at level 61, pat pattern, m at next level, right associativity).
Notation "m ;;; k" := (bind m (fun _ => k))
  (at level 61, right associativity).

Definition print (ev : event) : M unit :=
  fun st => (Ok tt, {| rng := rng st; cursor := cursor st;
                       printed := printed st ++ [ev] |}).

Definition next_raw : M nat :=
  fun st => (Ok (rng st (cursor st)),
             {| rng := rng st; cursor := S (cursor st);
                printed := printed st |}).

(** [random.random()]. *)
Definition random : M Q := raw <- next_raw ;; ret (random_of_raw raw).

(** [random.randint(a, b)]. *)
Definition randint (a b : Z) : M Z :=
  raw <- next_raw ;; lift (randint_of_raw a b raw).

(** [np.linspace(start, stop, num, dtype=int)]: [num] evenly spaced values
    from [start] to [stop], both included, rounded down.  The values are
    computed exactly here; numpy computes them in double precision, where
    the rounding of a product can lower an inner entry by one, never below
    [start]. *)
Definition linspace (start stop num : Z) : result (list Z) :=
  if num <? 0
  then Raise (ValueError "Number of samples must be non-negative.")
  else Ok (map (fun i : Z =>
                  Qfloor (inject_Z start
                          + inject_Z i
                            * (inject_Z (stop - start) / inject_Z (num - 1)))%Q)
               (range num)).

(** The attributes of [self]. *)
Record t : Type := {
  data_root : option string;
  cache_dir : option string;
  dataset : list entry;
  length : Z;
  enable_bucket : bool;
  text_drop_ratio : Q;
  video_length_drop_start : Q;
  video_length_drop_end : Q;
  video_sample_stride : Z;
  video_sample_n_frames : Z
}.

(** The arguments of [__init__] besides the annotations, which are read
    from [ann_path] before line 117.  The sample sizes only parametrize the
    transforms. *)
Record Config : Type := {
  cfg_data_root : option string;
  cfg_video_sample_stride : Z;
  cfg_video_sample_n_frames : Z;
  cfg_video_repeat : Z;
  cfg_text_drop_ratio : Q;
  cfg_enable_bucket : bool;
  cfg_video_length_drop_start : Q;
  cfg_video_length_drop_end : Q;
  cfg_cache_dir : option string
}.

(** The defaults of the signature of [__init__]. *)
Definition default_config : Config :=
  {| cfg_data_root := None;
     cfg_video_sample_stride := 4;
     cfg_video_sample_n_frames := 16;
     cfg_video_repeat := 0;
     cfg_text_drop_ratio := 0;
     cfg_enable_bucket := false;
     cfg_video_length_drop_start := 1 # 10;
     cfg_video_length_drop_end := 9 # 10;
     cfg_cache_dir := None |}.

(** Lines 120-128: the two loops that fill [self.dataset]. *)
Definition build_dataset (video_repeat : Z) (annotations : list entry)
  : list entry :=
  let dataset :=
    fold_left
      (fun acc data =>
         if negb (String.eqb (content_type_of data) "video")
         then acc ++ [data] else acc)
      annotations [] in
  if 0 <? video_repeat then
    fold_left
      (fun acc (_ : Z) =>
         fold_left
           (fun acc data =>
              if String.eqb (content_type_of data) "video"
              then acc ++ [data] else acc)
           annotations acc)
      (range video_repeat) dataset
  else dataset.

Definition __init__ (cfg : Config) (annotations : list entry) : t :=
  let dataset := build_dataset (cfg_video_repeat cfg) annotations in
  {| data_root := cfg_data_root cfg;
     cache_dir := cfg_cache_dir cfg;
     dataset := dataset;
     length := len dataset;
     enable_bucket := cfg_enable_bucket cfg;
     text_drop_ratio := cfg_text_drop_ratio cfg;
     video_length_drop_start := cfg_video_length_drop_start cfg;
     video_length_drop_end := cfg_video_length_drop_end cfg;
     video_sample_stride := cfg_video_sample_stride cfg;
     video_sample_n_frames := cfg_video_sample_n_frames cfg |}.

(** [__len__]. *)
Definition __len__ (self : t) : Z := length self.

(** Lines 171-180 of [get_batch]: the paths of the two cache files. *)
Definition cache_paths (w : World) (self : t) (cache_dir : string)
    (video_id video_dir : string) : M (string * string) :=
  cache_path <-
    match data_root self with
    | Some root =>
        ret (root +s+ "/" +s+ cache_dir +s+ "/"
             +s+ str_join "/" (slice (str_split slash video_id) (Some 1) None))
    | None =>
        parts <- lift (list_setitem (str_split slash video_dir) (-3) cache_dir) ;;
        ret (str_join "/" parts)
    end ;;
  match makedirs w (os_path_dirname cache_path) with
  | Some e => raise e
  | None =>
      ret (str_slice_to cache_path (-4) +s+ "_vid.pkl",
           str_slice_to cache_path (-4) +s+ "_txt.pkl")
  end.

(** Lines 193-201 of [get_batch], for a video of [n] frames
    ([len(video_reader)]): [min_sample_n_frames], [video_length] and
    [clip_length]. *)
Definition min_sample_n_frames_of (self : t) (n : nat) : Z :=
  Z.min (video_sample_n_frames self)
        (int_of_float
           (inject_Z (Z.of_nat n)
            * (video_length_drop_end self - video_length_drop_start self))%Q).

Definition video_length_of (self : t) (n : nat) : Z :=
  int_of_float (video_length_drop_end self * inject_Z (Z.of_nat n))%Q.

Definition clip_length_of (self : t) (n : nat) : Z :=
  Z.min (video_length_of self n)
        ((min_sample_n_frames_of self n - 1) * video_sample_stride self + 1).

(** Lines 193-207 of [get_batch]: the two checks and the draw of
    [start_idx]; the result is
    [(start_idx, clip_length, min_sample_n_frames)]. *)
Definition clip_window (self : t) (n : nat) : M (Z * Z * Z) :=
  let min_sample_n_frames := min_sample_n_frames_of self n in
  if min_sample_n_frames =? 0 then raise (ValueError "No Frames in video.")
  else
    let video_length := video_length_of self n in
    let clip_length := clip_length_of self n in
    if (video_length <? clip_length)
       || (video_length <? video_sample_n_frames self)
    then raise (ValueError "No Enough Frames for the sample stride.")
    else
      let start_idx_end :=
        Z.max (int_of_float
                 (video_length_drop_start self * inject_Z video_length)%Q)
              (video_length - clip_length) in
      start_idx <-
        randint (int_of_float
                   (video_length_drop_start self * inject_Z video_length)%Q)
                start_idx_end ;;
      ret (start_idx, clip_length, min_sample_n_frames).

(** Lines 193-208: the frame indices handed to [video_reader.get_batch]. *)
Definition batch_index_of (self : t) (n : nat) : M (list Z) :=
  '(start_idx, clip_length, min_sample_n_frames) <- clip_window self n ;;
  lift (linspace start_idx (start_idx + clip_length - 1) min_sample_n_frames).

(** Lines 192-237: the [with VideoReader_contextmanager(...)] block and the
    [return] after it.  [vid_cache_path] and [text_cache_path] are bound
    only when [cache_dir] is set, and the [return] reads both. *)
Definition read_video (w : World) (self : t) (idx : Z)
    (video_dir text : string) (vid_cache_path text_cache_path : option string)
  : M (list pyval) :=
  n <- lift (video_reader_len w video_dir) ;;
  batch_index <- batch_index_of self n ;;
  pixel_values <-
    match read_frames w video_dir batch_index with
    | ReadOk => ret (Frames video_dir batch_index)
    | FunctionTimedOut => raise (ValueError "Read {idx} timeout.")
    | ReadError e =>
        print (Print e) ;;;
        raise (ValueError "Failed to extract frames from video. Error is {e}.")
    end ;;
  let pixel_values :=
    if negb (enable_bucket self) then FromNumpyScaled pixel_values
    else pixel_values in
  let pixel_values :=
    if negb (enable_bucket self) then VideoTransforms pixel_values
    else pixel_values in
  if shape0 pixel_values <? video_sample_n_frames self
  then raise (ValueError "No enough frames from video.")
  else
    u <- random ;;
    let text := if Qltb u (text_drop_ratio self) then "" else text in
    match vid_cache_path with
    | None => raise (UnboundLocalError "vid_cache_path")
    | Some vid =>
        match text_cache_path with
        | None => raise (UnboundLocalError "text_cache_path")
        | Some txt =>
            ret [VArray pixel_values; VStr text; VStr "video";
                 VStr vid; VStr txt; VNone; VNone; VNone]
        end
    end.

(** [get_batch]: the tuple it returns, as the list of its components. *)
Definition get_batch (w : World) (self : t) (idx : Z) (data_info : entry)
  : M (list pyval) :=
  if String.eqb (content_type_of data_info) "video" then
    video_id <- lift (dict_getitem data_info "file_path") ;;
    text <- lift (dict_getitem data_info "text") ;;
    let video_dir :=
      match data_root self with
      | None => video_id
      | Some root => os_path_join root video_id
      end in
    match cache_dir self with
    | Some cd =>
        '(vid_cache_path, text_cache_path) <-
          cache_paths w self cd video_id video_dir ;;
        if isfile w vid_cache_path && isfile w text_cache_path then
          data_item <- lift (pickle_load w vid_cache_path) ;;
          latent_idx <- lift (dict_getitem data_item "latent_idx") ;;
          data_item <- lift (pickle_load w text_cache_path) ;;
          text_embedding <- lift (dict_getitem data_item "text_embedding") ;;
          text_emb_masks <- lift (dict_getitem data_item "text_emb_masks") ;;
          ret [VNone; VStr text; VStr "video"; VStr vid_cache_path;
               VStr text_cache_path; latent_idx; text_embedding;
               text_emb_masks]
        else
          read_video w self idx video_dir text
                     (Some vid_cache_path) (Some text_cache_path)
    | None => read_video w self idx video_dir text None None
    end
  else
    image_path <- lift (dict_getitem data_info "file_path") ;;
    text <- lift (dict_getitem data_info "text") ;;
    let image_path :=
      match data_root self with
      | Some root => os_path_join root image_path
      | None => image_path
      end in
    match image_open w image_path with
    | Some e => raise e
    | None =>
        let image := ImageRGB image_path in
        let image :=
          if negb (enable_bucket self) then ImageTransforms image
          else ExpandDims image in
        u <- random ;;
        let text := if Qltb u (text_drop_ratio self) then "" else text in
        ret [VArray image; VStr text; VStr "image"]
    end.

(** The assignment of a tuple to the eight names of line 265. *)
Definition unpack8 (tuple : list pyval)
  : result (pyval * pyval * pyval * pyval * pyval * pyval * pyval * pyval) :=
  match tuple with
  | [a; b; c; d; e; f; g; h] => Ok (a, b, c, d, e, f, g, h)
  | _ =>
      if len tuple <? 8
      then Raise (ValueError "not enough values to unpack (expected 8)")
      else Raise (ValueError "too many values to unpack (expected 8)")
  end.

(** The body of the [try] of [__getitem__] (lines 260-276), for the
    current [idx] and the [data_type] fixed before the loop: the sample
    dict and the value last assigned to [data_type]. *)
Definition attempt (w : World) (self : t) (data_type : string) (idx : Z)
  : M (dict pyval * pyval) :=
  i <- lift (py_mod idx (len (dataset self))) ;;
  data_info_local <- lift (list_getitem (dataset self) i) ;;
  let data_type_local := content_type_of data_info_local in
  if negb (String.eqb data_type_local data_type)
  then raise (ValueError "data_type_local != data_type")
  else
    tuple <- get_batch w self idx data_info_local ;;
    '(pixel_values, name, data_type, vid_cache_path, text_cache_path,
      latent_idx, text_embedding, text_emb_masks) <- lift (unpack8 tuple) ;;
    let sample : dict pyval := [] in
    let sample := dict_setitem sample "pixel_values" pixel_values in
    let sample := dict_setitem sample "text" name in
    let sample := dict_setitem sample "data_type" data_type in
    let sample := dict_setitem sample "idx" (VInt idx) in
    let sample := dict_setitem sample "vid_cache_path" vid_cache_path in
    let sample := dict_setitem sample "text_cache_path" text_cache_path in
    let sample := dict_setitem sample "latent_idx" latent_idx in
    let sample := dict_setitem sample "text_embedding" text_embedding in
    let sample := dict_setitem sample "text_emb_masks" text_emb_masks in
    match dict_lookup data_info_local "label" with
    | Some label =>
        z <- lift (int_of_str w label) ;;
        ret (dict_setitem sample "label" (VInt z), data_type)
    | None => ret (sample, data_type)
    end.

(** How a call can end within a given number of loop iterations. *)
Inductive outcome (A : Type) : Type :=
| Returned (a : A)
| Propagated (e : exn)
| Running.

Arguments Returned {A} a.
Arguments Propagated {A} e.
Arguments Running {A}.

(** The [while True] loop of [__getitem__] (lines 257-283); [fuel] bounds
    the number of iterations looked at.  The comparison of line 262 is
    between strings, so the loop goes on with the text of [data_type]. *)
Fixpoint getitem_loop (w : World) (self : t) (fuel : nat)
    (data_type : string) (idx : Z) (st : state)
  : outcome (dict pyval) * state :=
  match fuel with
  | O => (Running, st)
  | S fuel' =>
      match attempt w self data_type idx st with
      | (Ok (sample, data_type'), st') =>
          if 0 <? len sample then (Returned sample, st')
          else
            getitem_loop w self fuel'
              (match data_type' with VStr s => s | _ => data_type end)
              idx st'
      | (Raise e, st') =>
          match (i <- lift (py_mod idx (len (dataset self))) ;;
                 data <- lift (list_getitem (dataset self) i) ;;
                 print (PrintEntry e data) ;;;
                 randint 0 (length self - 1)) st' with
          | (Ok idx', st'') => getitem_loop w self fuel' data_type idx' st''
          | (Raise e', st'') => (Propagated e', st'')
          end
      end
  end.

(** [__getitem__]. *)
Definition __getitem__ (w : World) (self : t) (fuel : nat) (idx : Z)
    (st : state) : outcome (dict pyval) * state :=
  match (i <- lift (py_mod idx (len (dataset self))) ;;
         lift (list_getitem (dataset self) i)) st with
  | (Raise e, st') => (Propagated e, st')
  | (Ok data_info, st') =>
      getitem_loop w self fuel (content_type_of data_info) idx st'
  end.

End ImageVideoDataset.

End dataset_image_video.

(* ===================================================================== *)
(** * Definitions used to state the properties                            *)
(* ===================================================================== *)

Import Py.

Module Net2NetSpec.
Import lm_transformer.

(** The test of line 165, [random.random() > self.p_drop_cond], fails:
    the start-of-sequence token is left out of the input. *)
Definition cond_dropped {Logits : Type}
    (self : @Net2NetTransformer Logits) (d : Draws) : bool :=
  match p_drop_cond self with
  | Some p => negb (Qltb p (u_drop d))
  | None => false
  end.

(** The test of line 152, [self.training and self.pkeep < 1.0]. *)
Definition corrupts {Logits : Type} (self : @Net2NetTransformer Logits)
  : bool :=
  training self && Qltb (pkeep self) 1.

(** A transformer returns one output position per input position. *)
Definition positionwise {Logits : Type} (gpt : @GPT Logits) : Prop :=
  forall xs : list Z, List.length (run gpt xs) = List.length xs.

(** Concrete collaborators for the examples: tokenizers that hand their
    input through, and a transformer whose score at a position is the
    token there, the chosen token being that score. *)
Definition demo_encoders : Encoders :=
  {| first_stage_encode := fun _ x => x;
     cond_encode := fun _ _ c => c |}.

Definition demo_run (xs : list Z) : list Z := xs.

(** The scores at a position of [demo_run], over a vocabulary of two
    tokens: the token there and minus infinity; the token picked is the
    one read off the first score. *)
Definition demo_scores (_ : Q) (lg : Z) : list score :=
  [Fin (inject_Z lg); NegInf].

Definition demo_pick (_ : Sampling) (_ : nat) (s : list score) : Z :=
  match s with
  | Fin q :: _ => Qfloor q
  | _ => 0
  end.

Definition demo_sampling (tk : option Z) : Sampling :=
  {| temperature := 1; sample_flag := false; top_k := tk |}.

(** [top_k] is [None], or lies between 1 and the number of scores of
    every position. *)
Definition top_k_fits {Logits : Type} (scores : Q -> Logits -> list score)
    (cfg : Sampling) : Prop :=
  forall tk, top_k cfg = Some tk ->
             forall lg, 1 <= tk <= len (scores (temperature cfg) lg).

Definition demo_args (uncond : bool) (sws : option bool)
    (p_drop : option Q) : Args :=
  {| unconditional := uncond;
     class_cond_dim := 10;
     vtokens := true;
     args_starts_with_sos := sws;
     args_p_drop_cond := p_drop;
     args_class_first := None;
     args_block_size := 64;
     vqvae_n_codes := 16384;
     stft_n_codes := 1024 |}.

End Net2NetSpec.

Module DatasetSpec.
Import dataset_image_video.

(** [idx] refers to an entry of content type [ty]. *)
Definition refers_to (ds : list entry) (ty : string) (idx : Z) : Prop :=
  exists data, list_getitem ds idx = Ok data /\ content_type_of data = ty.

(** A bucketed batch: [batch_size] indices of 'video' entries, or
    [image_batch_size] indices of 'image' entries. *)
Definition bucketed (self : ImageVideoSampler.t) (b : list Z) : Prop :=
  (len b = ImageVideoSampler.batch_size self
   /\ Forall (refers_to (ImageVideoSampler.dataset self) "video") b)
  \/ (len b = ImageVideoSampler.image_batch_size self
      /\ Forall (refers_to (ImageVideoSampler.dataset self) "image") b).

(** The indices sitting in the two buckets. *)
Definition leftover (self : ImageVideoSampler.t) : list Z :=
  dict_get (ImageVideoSampler.bucket self) "image" []
  ++ dict_get (ImageVideoSampler.bucket self) "video" [].

(** The same sampler with another value of [drop_last]. *)
Definition with_drop_last (b : bool) (self : ImageVideoSampler.t)
  : ImageVideoSampler.t :=
  {| ImageVideoSampler.dataset := ImageVideoSampler.dataset self;
     ImageVideoSampler.batch_size := ImageVideoSampler.batch_size self;
     ImageVideoSampler.image_batch_size := ImageVideoSampler.image_batch_size self;
     ImageVideoSampler.drop_last := b;
     ImageVideoSampler.bucket := ImageVideoSampler.bucket self |}.

(** What holds of a sampler object between two steps: its two buckets,
    each with indices of its own content type. *)
Definition sampler_inv (self : ImageVideoSampler.t) : Prop :=
  exists image video,
    ImageVideoSampler.bucket self = [("image", image); ("video", video)]
    /\ Forall (refers_to (ImageVideoSampler.dataset self) "image") image
    /\ Forall (refers_to (ImageVideoSampler.dataset self) "video") video.

(** The attributes that [__iter__] never writes are the same in two
    sampler objects. *)
Definition same_settings (self self' : ImageVideoSampler.t) : Prop :=
  ImageVideoSampler.dataset self' = ImageVideoSampler.dataset self
  /\ ImageVideoSampler.batch_size self' = ImageVideoSampler.batch_size self
  /\ ImageVideoSampler.image_batch_size self'
     = ImageVideoSampler.image_batch_size self
  /\ ImageVideoSampler.drop_last self' = ImageVideoSampler.drop_last self.

(** The entries that are not videos, and the videos, in annotation
    order. *)
Definition non_video (annotations : list entry) : list entry :=
  filter (fun data => negb (String.eqb (content_type_of data) "video"))
         annotations.

Definition videos (annotations : list entry) : list entry :=
  filter (fun data => String.eqb (content_type_of data) "video") annotations.

Import ImageVideoDataset.

(** The fault tolerance of [__getitem__] in the words of the
    specification: an attempt that completes ends the call with its
    sample; an attempt that raises is followed by the print of the error
    and of the entry, by the draw of a new index in [0, length - 1], and
    by another attempt. *)
Inductive fault_tolerant_run (w : World) (self : t) (data_type : string)
  : Z -> state -> dict pyval -> state -> Prop :=
| ft_done (idx : Z) (st : state) (sample : dict pyval) (ty : pyval)
    (st' : state) :
    attempt w self data_type idx st = (Ok (sample, ty), st') ->
    fault_tolerant_run w self data_type idx st sample st'
| ft_retry (idx : Z) (st : state) (e : exn) (st1 : state) (data : entry)
    (idx' : Z) (sample : dict pyval) (st' : state) :
    attempt w self data_type idx st = (Raise e, st1) ->
    list_getitem (dataset self) (idx mod len (dataset self)) = Ok data ->
    randint_of_raw 0 (length self - 1) (rng st1 (cursor st1)) = Ok idx' ->
    0 <= idx' <= length self - 1 ->
    fault_tolerant_run w self data_type idx'
      {| rng := rng st1; cursor := S (cursor st1);
         printed := printed st1 ++ [PrintEntry e data] |}
      sample st' ->
    fault_tolerant_run w self data_type idx st sample st'.

(** A file system for the examples: every directory can be made, the two
    cache files of a video exist and hold the three cached values, every
    image opens and every video has 100 frames that can be read. *)
Definition demo_world : World :=
  {| makedirs := fun _ => None;
     isfile := fun _ => true;
     pickle_load := fun _ =>
       Ok [("latent_idx", VObj "latent_idx");
           ("text_embedding", VObj "text_embedding");
           ("text_emb_masks", VObj "text_emb_masks")];
     video_reader_len := fun _ => Ok 100%nat;
     read_frames := fun _ _ => ReadOk;
     image_open := fun _ => None;
     int_of_str := fun _ => Ok 0 |}.

(** A file system with one bad video: [demo_world], except that the
    video 'root/set/bad.mp4' has no cache files and cannot be opened. *)
Definition faulty_world : World :=
  {| makedirs := fun _ => None;
     isfile := fun p => negb (String.prefix "root/cache/bad" p);
     pickle_load := pickle_load demo_world;
     video_reader_len := fun p =>
       if String.eqb p "root/set/bad.mp4"
       then Raise (OSError "cannot open")
       else Ok 100%nat;
     read_frames := fun _ _ => ReadOk;
     image_open := fun _ => None;
     int_of_str := fun _ => Ok 0 |}.

Definition demo_state (raw : nat -> nat) : state :=
  {| rng := raw; cursor := 0; printed := [] |}.

Definition an_image (path text : string) : entry :=
  [("file_path", path); ("text", text)].

Definition a_video (path text : string) : entry :=
  [("file_path", path); ("text", text); ("type", "video")].

End DatasetSpec.

(* ===================================================================== *)
(** * OmniTokenizer/lm_transformer.py: the other methods                  *)
(* ===================================================================== *)

Module lm_transformer_rest.
Import lm_transformer dataset_image_video.

(** ** [init_from_ckpt] (lines 84-92) *)

Section Checkpoint.

Context {V : Type}.

(** [del d[k]]. *)
Fixpoint dict_remove (d : dict V) (k : string) : dict V :=
  match d with
  | [] => []
  | (k', v) :: d' =>
      if String.eqb k' k then d' else (k', v) :: dict_remove d' k
  end.

Definition dict_delitem (d : dict V) (k : string) : result (dict V) :=
  match dict_lookup d k with
  | Some _ => Ok (dict_remove d k)
  | None => Raise (KeyError k)
  end.

(** The inner loop, for one key [k]: the state dict and the keys printed
    by [self.print] afterwards.  [self.print] is the method of
    [LightningModule], which reads [self.trainer] and raises when the
    module is attached to no trainer; [attached] tells whether it is. *)
Fixpoint delete_matching (attached : bool) (k : string)
    (ignore_keys : list string) (sd : dict V) (log : list string)
  : outcome (dict V) * list string :=
  match ignore_keys with
  | [] => (Fine sd, log)
  | ik :: rest =>
      if String.prefix ik k then
        if attached then
          match dict_delitem sd k with
          | Ok sd' => delete_matching attached k rest sd' (log ++ [k])
          | Raise e => (Failed (Exn e), log ++ [k])
          end
        else
          (Failed (RuntimeError
                     "Net2NetTransformer is not attached to a `Trainer`."),
           log)
      else delete_matching attached k rest sd log
  end.

(** The outer loop over [sd.keys()].  The loop body deletes from the dict
    it iterates over, and the iterator notices: the iterator of a plain
    dict raises RuntimeError at its next step once the size has changed;
    that of an OrderedDict ([ordered]) does so unless the iteration is
    over.  [keys] are the keys still to come, [changed] tells whether a
    key was deleted. *)
Fixpoint iterate_keys (attached ordered : bool)
    (keys ignore_keys : list string) (sd : dict V) (changed : bool)
    (log : list string) : outcome (dict V) * list string :=
  match keys with
  | [] =>
      if negb ordered && changed
      then (Failed (RuntimeError "dictionary changed size during iteration"),
            log)
      else (Fine sd, log)
  | k :: rest =>
      if changed
      then (Failed (RuntimeError
                      (if ordered then "OrderedDict mutated during iteration"
                       else "dictionary changed size during iteration")),
            log)
      else
        match delete_matching attached k ignore_keys sd log with
        | (Failed e, log') => (Failed e, log')
        | (Fine sd', log') =>
            iterate_keys attached ordered rest ignore_keys sd'
              (negb (Nat.eqb (List.length sd') (List.length sd))) log'
        end
  end.

(** [init_from_ckpt], lines 85-90: [sd] is
    [torch.load(path)["state_dict"]], an OrderedDict when [ordered]; the
    result is the state dict passed to [self.load_state_dict], with the
    keys printed. *)
Definition init_from_ckpt (attached ordered : bool) (sd : dict V)
    (ignore_keys : list string) : outcome (dict V) * list string :=
  iterate_keys attached ordered (map fst sd) ignore_keys sd false [].

(** [__init__] with its arguments [ckpt_path] and [ignore_keys] (lines
    20-82).  [ckpt] is [None] when [ckpt_path] is, and otherwise the state
    dict that [torch.load] reads there, with whether it is an OrderedDict;
    [load_state_dict] says what [self.load_state_dict(sd, strict=False)]
    raises, if anything.  Lines 75-76 run once the transformer is built,
    on a module that is attached to no trainer. *)
Definition init_with_ckpt {Logits : Type} (enc : Encoders)
    (gpt_run : list Z -> list Logits) (args : Args)
    (ckpt : option (bool * dict V))
    (load_state_dict : dict V -> option error) (ignore_keys : list string)
    (first_stage_key cond_stage_key : string) (pkeep : Q) (sos_token : Z)
  : outcome (@Net2NetTransformer Logits) :=
  match __init__ enc gpt_run args first_stage_key cond_stage_key pkeep
                 sos_token with
  | Raise e => Failed (Exn e)
  | Ok self =>
      match ckpt with
      | None => Fine self
      | Some (ordered, sd) =>
          match init_from_ckpt false ordered sd ignore_keys with
          | (Failed e, _) => Failed e
          | (Fine sd', _) =>
              match load_state_dict sd' with
              | Some e => Failed e
              | None => Fine self
              end
          end
      end
  end.

End Checkpoint.

(** ** [get_xc] (lines 290-309) *)

Section Batches.

(** A tensor of the batch, as the list of its rows along dimension 0. *)
Context {Row : Type}.

(** What a data loader hands over: a dict of tensors, a list of such
    dicts, or something else. *)
Inductive batch : Type :=
| BDict (d : dict (list Row))
| BList (l : list (dict (list Row)))
| BOther.

(** [get_xc]; [N] is [None] or the number of rows to keep. *)
Definition get_xc {Logits : Type} (self : @Net2NetTransformer Logits)
    (b : batch) (N : option Z) : result (list Row * list Row) :=
  let xc :=
    match b with
    | BDict d =>
        match dict_getitem d (first_stage_key self) with
        | Raise e => Raise e
        | Ok x =>
            match dict_getitem d (cond_stage_key self) with
            | Raise e => Raise e
            | Ok c => Ok (x, c)
            end
        end
    | BList [d] =>
        match dict_getitem d (first_stage_key self) with
        | Raise e => Raise e
        | Ok x =>
            match dict_getitem d (cond_stage_key self) with
            | Raise e => Raise e
            | Ok c => Ok (x, c)
            end
        end
    | _ => Raise AssertionError
    end in
  match xc with
  | Raise e => Raise e
  | Ok (x, c) =>
      match N with
      | Some n => Ok (slice x None (Some n), slice c None (Some n))
      | None => Ok (x, c)
      end
  end.

End Batches.

(** ** The code indices decoded by [log_images] and [log_videos] *)

(** [torch.clamp(x, min=lo, max=hi)] on one element. *)
Definition clamp (lo hi x : Z) : Z := Z.min (Z.max x lo) hi.

(** Line 436 of [log_images]: the code indices decoded from the tokens
    [ix] of one row. *)
Definition log_images_index {Logits : Type}
    (self : @Net2NetTransformer Logits) (ix : list Z) : list Z :=
  map (fun t => clamp 0 (first_stage_vocab_size self - 1)
                      (t - cond_stage_vocab_size self)) ix.

(** Lines 489-490 of [log_videos]. *)
Definition log_videos_index {Logits : Type}
    (self : @Net2NetTransformer Logits) (ix : list Z) : list Z :=
  let n_cond :=
    if negb (starts_with_sos self) then cond_stage_vocab_size self
    else cond_stage_vocab_size self + 1 in
  map (fun t => clamp 0 (first_stage_vocab_size self - 1) (t - n_cond)) ix.

End lm_transformer_rest.

(* ===================================================================== *)
(** * Definitions used to state the further properties                    *)
(* ===================================================================== *)

Module MoreSpec.
Import lm_transformer dataset_image_video lm_transformer_rest DatasetSpec.

(** [b] may come before [a] in descending order. *)
Definition score_ge (b a : score) : Prop := score_leb a b = true.

(** The number of scores of a row that pass a test. *)
Definition count (p : score -> bool) (l : list score) : Z :=
  len (filter p l).

(** Neither bucket of a sampler is full. *)
Definition buckets_below_size (self : ImageVideoSampler.t) : Prop :=
  len (dict_get (ImageVideoSampler.bucket self) "image" [])
  < ImageVideoSampler.image_batch_size self
  /\ len (dict_get (ImageVideoSampler.bucket self) "video" [])
     < ImageVideoSampler.batch_size self.

(** The indices of a list that refer to an entry of content type [ty],
    in the order of the list. *)
Definition of_type (ds : list entry) (ty : string) (l : list Z) : list Z :=
  filter (fun idx =>
            match list_getitem ds idx with
            | Ok data => String.eqb (content_type_of data) ty
            | Raise _ => false
            end) l.

(** A path component: a string without a slash. *)
Fixpoint no_slash (s : string) : bool :=
  match s with
  | String.EmptyString => true
  | String.String ch s' => negb (Ascii.eqb ch slash) && no_slash s'
  end.

(** A loader configuration for the examples: the defaults, with a data
    root, a cache directory and the videos taken once. *)
Definition cached_config : ImageVideoDataset.Config :=
  {| ImageVideoDataset.cfg_data_root := Some "root";
     ImageVideoDataset.cfg_video_sample_stride := 4;
     ImageVideoDataset.cfg_video_sample_n_frames := 16;
     ImageVideoDataset.cfg_video_repeat := 1;
     ImageVideoDataset.cfg_text_drop_ratio := 0;
     ImageVideoDataset.cfg_enable_bucket := false;
     ImageVideoDataset.cfg_video_length_drop_start := 1 # 10;
     ImageVideoDataset.cfg_video_length_drop_end := 9 # 10;
     ImageVideoDataset.cfg_cache_dir := Some "cache" |}.

(** An annotation of a content type that is neither 'image' nor
    'video'. *)
Definition an_audio (path text : string) : entry :=
  [("file_path", path); ("text", text); ("type", "audio")].

End MoreSpec.

(* ===================================================================== *)
(** * Tactics                                                             *)
(* ===================================================================== *)

(** Case analysis on the first [match] met in a hypothesis. *)
Ltac break_match H :=
  match type of H with
  | context [match ?x with _ => _ end] => destruct x eqn:?
  end.

(** Unfolding of the loader monad in a hypothesis. *)
Ltac unfold_monad_in H :=
  cbv beta iota zeta delta
    [dataset_image_video.ImageVideoDataset.bind
     dataset_image_video.ImageVideoDataset.lift
     dataset_image_video.ImageVideoDataset.ret
     dataset_image_video.ImageVideoDataset.raise
     dataset_image_video.ImageVideoDataset.print
     dataset_image_video.ImageVideoDataset.random
     dataset_image_video.ImageVideoDataset.randint
     dataset_image_video.ImageVideoDataset.next_raw] in H.

(* ===================================================================== *)
(** * Facts about the Python built-ins                                    *)
(* ===================================================================== *)

Section PyFacts.

Context {A : Type}.

Lemma len_nonneg (l : list A) : 0 <= len l.
Proof. unfold len. lia. Qed.

Lemma len_app (l1 l2 : list A) : len (l1 ++ l2) = len l1 + len l2.
Proof. unfold len. rewrite length_app. lia. Qed.

Lemma len_nil_iff (l : list A) : len l = 0 <-> l = [].
Proof.
  unfold len. destruct l as [|a l]; simpl; split; intro H;
    try reflexivity; try discriminate; lia.
Qed.

Lemma clamp_index_range (n k : Z) :
  0 <= n -> 0 <= clamp_index n k <= n.
Proof. intro Hn. unfold clamp_index. destruct (k <? 0) eqn:E; lia. Qed.

(** The length of a slice, from its two clipped bounds. *)
Lemma slice_len (l : list A) (start stop : option Z) :
  len (slice l start stop) =
  Z.max 0
    ((match stop with Some k => clamp_index (len l) k | None => len l end)
     - (match start with Some k => clamp_index (len l) k | None => 0 end)).
Proof.
  unfold slice.
  set (hi := match stop with Some k => clamp_index (len l) k | None => len l end).
  set (lo := match start with Some k => clamp_index (len l) k | None => 0 end).
  assert (Hhi : 0 <= hi <= len l).
  { subst hi. destruct stop; [apply clamp_index_range|]; pose proof (len_nonneg l); lia. }
  assert (Hlo : 0 <= lo <= len l).
  { subst lo. destruct start; [apply clamp_index_range|]; pose proof (len_nonneg l); lia. }
  unfold len in *. rewrite length_firstn, length_skipn. lia.
Qed.

Lemma slice_drop_last_len (l : list A) :
  len (slice l None (Some (-1))) = Z.max 0 (len l - 1).
Proof.
  rewrite slice_len. unfold clamp_index.
  change (-1 <? 0) with true. cbv iota.
  pose proof (len_nonneg l). lia.
Qed.

Lemma slice_from_len (l : list A) (k : Z) :
  0 <= k <= len l -> len (slice l (Some k) None) = len l - k.
Proof.
  intro Hk. rewrite slice_len. unfold clamp_index.
  destruct (k <? 0) eqn:E; lia.
Qed.

(** Cutting a prefix off a concatenation. *)
Lemma slice_from_app (l1 l2 : list A) :
  slice (l1 ++ l2) (Some (len l1)) None = l2.
Proof.
  unfold slice, clamp_index.
  pose proof (len_nonneg l1) as H1. pose proof (len_nonneg l2) as H2.
  rewrite len_app.
  destruct (len l1 <? 0) eqn:E; [lia|].
  replace (Z.min (len l1) (len l1 + len l2)) with (len l1) by lia.
  replace (len l1 + len l2 - len l1) with (len l2) by lia.
  unfold len. rewrite !Nat2Z.id.
  rewrite skipn_app, skipn_all, Nat.sub_diag. simpl.
  apply firstn_all.
Qed.

Lemma last_item_app (l : list A) (a : A) : last_item (l ++ [a]) = Ok a.
Proof. unfold last_item. rewrite rev_app_distr. reflexivity. Qed.

(** Enumerating a list: position [j] is paired with its index. *)
Lemma nth_error_combine_seq (l : list A) (s j : nat) (a : A) :
  nth_error l j = Some a ->
  nth_error (combine (seq s (List.length l)) l) j = Some ((s + j)%nat, a).
Proof.
  revert s j. induction l as [|h t IH]; intros s j Hj.
  - destruct j; discriminate.
  - destruct j as [|j]; simpl in *.
    + injection Hj as ->. now rewrite Nat.add_0_r.
    + rewrite (IH (S s) j Hj). f_equal. f_equal. lia.
Qed.

End PyFacts.

(* ===================================================================== *)
(** * Properties of [Net2NetTransformer]                                  *)
(* ===================================================================== *)

Section Net2NetFacts.
Import lm_transformer Net2NetSpec.

Context {Logits : Type}.
Implicit Types (self : @Net2NetTransformer Logits) (d : Draws).

Lemma corrupt_length self d (zs : list Z) :
  List.length (corrupt self d zs) = List.length zs.
Proof.
  unfold corrupt. destruct (training self && Qltb (pkeep self) 1); auto.
  rewrite length_map, length_combine, length_seq. apply Nat.min_id.
Qed.

Lemma corrupt_off self d (zs : list Z) :
  corrupts self = false -> corrupt self d zs = zs.
Proof. unfold corrupts, corrupt. intros ->. reflexivity. Qed.

(** With the corruption on, position [j] holds the token of [zs] where the
    mask is 1 and the random token where it is 0. *)
Lemma corrupt_on_nth self d (zs : list Z) (j : nat) (z : Z) :
  corrupts self = true ->
  nth_error zs j = Some z ->
  nth_error (corrupt self d zs) j
  = Some (if mask d j then z else r_indices d j).
Proof.
  unfold corrupts, corrupt. intros -> Hz.
  rewrite nth_error_map, (nth_error_combine_seq zs 0 j z Hz).
  cbn [option_map fst snd Nat.add].
  destruct (mask d j); cbn [Z.b2z]; f_equal; lia.
Qed.

Lemma shift_c_length self (c : list Z) :
  List.length (shift_c self c) = List.length c.
Proof. unfold shift_c. destruct (starts_with_sos self); auto using length_map. Qed.

Lemma shift_z_length self (z : list Z) :
  List.length (shift_z self z) = List.length z.
Proof. unfold shift_z. destruct (starts_with_sos self); auto using length_map. Qed.

(** The shape of what [splice] assembles: the spliced row is one position
    longer than the prefix and the target together. *)
Lemma splice_shape self d (c z : list Z) :
  let '(cz, prefix_len, target) := splice self d c z in
  len cz = prefix_len + 1 + len target
  /\ len target = len z
  /\ (c <> [] -> 0 <= prefix_len).
Proof.
  unfold splice, SOSProvider_encode.
  assert (Hc : len (shift_c self c) = len c)
    by (unfold len; now rewrite shift_c_length).
  assert (Hz : len (shift_z self z) = len z)
    by (unfold len; now rewrite shift_z_length).
  assert (Ha : len (corrupt self d (shift_z self z)) = len z)
    by (unfold len in *; now rewrite corrupt_length).
  assert (Hne : c <> [] -> 1 <= len c).
  { intro H. pose proof (len_nonneg c).
    destruct (Z.eq_dec (len c) 0) as [E|E]; [apply len_nil_iff in E; easy|lia]. }
  pose proof (len_nonneg c) as Hc0.
  destruct (starts_with_sos self);
    [destruct (p_drop_cond self) as [p|];
     [destruct (Qltb p (u_drop d))|]; destruct (class_first self)|];
    rewrite ?len_app, ?Hc, ?Ha, ?Hz; change (len [sos_token self]) with 1;
    repeat split; try lia; intro H; specialize (Hne H); lia.
Qed.

Lemma Qltb_lt (x y : Q) : Qltb x y = true <-> (x < y)%Q.
Proof.
  unfold Qltb. rewrite negb_true_iff. split; intro H.
  - apply Qnot_le_lt. intro Hle. apply Qle_bool_iff in Hle. congruence.
  - destruct (Qle_bool y x) eqn:E; [|reflexivity].
    apply Qle_bool_iff in E. exfalso. apply (Qlt_not_le _ _ H E).
Qed.

Lemma cond_dropped_iff self d :
  cond_dropped self d = true <->
  exists p, p_drop_cond self = Some p /\ (u_drop d <= p)%Q.
Proof.
  unfold cond_dropped. destruct (p_drop_cond self) as [p|].
  - rewrite negb_true_iff. split.
    + intro H. exists p. split; [reflexivity|].
      apply Qnot_lt_le. intro Hlt. apply Qltb_lt in Hlt. congruence.
    + intros (q & [= <-] & Hle).
      destruct (Qltb p (u_drop d)) eqn:E; [|reflexivity].
      apply Qltb_lt in E. exfalso. apply (Qlt_not_le _ _ E Hle).
  - split; [discriminate|]. intros (q & Hq & _). discriminate.
Qed.

Lemma splice_target self d (c z : list Z) :
  snd (splice self d c z) = shift_z self z.
Proof.
  unfold splice.
  destruct (starts_with_sos self);
    [destruct (p_drop_cond self) as [p|];
     [destruct (Qltb p (u_drop d))|]|]; reflexivity.
Qed.

(** [forward] returns, and what it returns: as many output positions as
    target tokens, the target being the shifted [z_indices]. *)
Lemma forward_returns self d (x c : list Z) (is_image : bool) :
  positionwise (transformer self) ->
  encode_to_c self c is_image <> [] ->
  exists logits,
    forward self d x c is_image
    = Ok (logits, shift_z self (encode_to_z self x is_image))
    /\ len logits = len (shift_z self (encode_to_z self x is_image))
    /\ len logits = len (encode_to_z self x is_image).
Proof.
  intros Hrun Hc. unfold forward.
  pose proof (splice_shape self d (encode_to_c self c is_image)
                (encode_to_z self x is_image)) as Hs.
  pose proof (splice_target self d (encode_to_c self c is_image)
                (encode_to_z self x is_image)) as Ht.
  destruct (splice self d (encode_to_c self c is_image)
              (encode_to_z self x is_image)) as [[cz prefix_len] target].
  simpl in Ht. subst target. destruct Hs as (Hcz & Hz & Hp).
  specialize (Hp Hc).
  set (out := run (transformer self) (slice cz None (Some (-1)))).
  assert (Hout : len out = prefix_len + len (shift_z self (encode_to_z self x is_image))).
  { unfold out, len at 1. rewrite Hrun. fold (len (slice cz None (Some (-1)))).
    rewrite slice_drop_last_len.
    pose proof (len_nonneg (shift_z self (encode_to_z self x is_image))). lia. }
  assert (Hcut : len (slice out (Some prefix_len) None)
                 = len (shift_z self (encode_to_z self x is_image))).
  { rewrite slice_from_len; [lia|].
    pose proof (len_nonneg (shift_z self (encode_to_z self x is_image))). lia. }
  exists (slice out (Some prefix_len) None).
  split; [|split; [exact Hcut | lia]].
  apply Z.eqb_eq in Hcut. now rewrite Hcut.
Qed.

(** C1 (as amended).  [forward] assembles the transformer input
    [cz_indices] from the conditioning and the visual block [a_indices].
    Without [starts_with_sos] the row is [c_indices ++ a_indices], the
    visual tokens being shifted by [cond_stage_vocab_size], and
    [prefix_len = len(c_indices) - 1].  With [starts_with_sos],
    [c_indices] is shifted by 1 and the visual tokens by
    [cond_stage_vocab_size + 1]; when the condition is kept the row is
    [c_indices ++ sos ++ a_indices] if [class_first] and
    [sos ++ c_indices ++ a_indices] otherwise, with
    [prefix_len = len(c_indices)]; when [p_drop_cond] is set and the
    condition is dropped the row is [c_indices ++ a_indices] with
    [prefix_len = len(c_indices) - 1].  The visual block [a_indices] is the
    shifted [z_indices] whenever the module is not training or
    [pkeep >= 1.0]; when training with [pkeep < 1.0] it holds, at the
    positions whose mask is 0, the random replacement tokens. *)
Theorem C1_splice_layout self d (c z : list Z) :
  let c' := shift_c self c in
  let z' := shift_z self z in
  let a := corrupt self d z' in
  (starts_with_sos self = false ->
     c' = c
     /\ z' = map (fun t => t + cond_stage_vocab_size self) z
     /\ splice self d c z = (c ++ a, len c - 1, z'))
  /\ (starts_with_sos self = true ->
      c' = map (fun t => t + 1) c
      /\ z' = map (fun t => t + cond_stage_vocab_size self + 1) z
      /\ (cond_dropped self d = false ->
          splice self d c z
          = (if class_first self then c' ++ [sos_token self] ++ a
             else [sos_token self] ++ c' ++ a,
             len c, z'))
      /\ (cond_dropped self d = true ->
          splice self d c z = (c' ++ a, len c - 1, z')))
  /\ (corrupts self = false -> a = z')
  /\ (corrupts self = true ->
      forall j t, nth_error z' j = Some t ->
                  nth_error a j = Some (if mask d j then t else r_indices d j)).
Proof.
  intros c' z' a.
  assert (Hlen : len c' = len c)
    by (unfold len, c'; now rewrite shift_c_length).
  split; [|split; [|split]].
  - intro Hs. subst a z' c'. unfold splice, shift_c, shift_z.
    rewrite Hs. repeat split.
  - intro Hs. subst a z'. unfold splice, cond_dropped.
    unfold c', shift_c, shift_z, SOSProvider_encode in *. rewrite Hs in *.
    repeat split.
    + intro Hd. destruct (p_drop_cond self) as [p|].
      * apply negb_false_iff in Hd. rewrite Hd, Hlen.
        destruct (class_first self); do 2 f_equal; lia.
      * rewrite Hlen. destruct (class_first self); do 2 f_equal; lia.
    + intro Hd. destruct (p_drop_cond self) as [p|]; [|discriminate].
      apply negb_true_iff in Hd. now rewrite Hd, Hlen.
  - intro Hoff. apply corrupt_off, Hoff.
  - intros Hon j t Hj. now apply corrupt_on_nth.
Qed.

(** C2.  For every batch row with a non-empty conditioning sequence and
    every combination of [starts_with_sos], [class_first] and condition
    dropping, the assertion at the end of [forward] holds: [forward]
    returns, and the logits left after the first [prefix_len] positions
    are cut off are as many as the target tokens. *)
Theorem C2_forward_assert_holds self d (x c : list Z) (is_image : bool) :
  positionwise (transformer self) ->
  encode_to_c self c is_image <> [] ->
  exists logits target,
    forward self d x c is_image = Ok (logits, target)
    /\ len logits = len target
    /\ len target = len (encode_to_z self x is_image).
Proof.
  intros Hrun Hc.
  destruct (forward_returns self d x c is_image Hrun Hc) as (lg & Hf & H1 & H2).
  exists lg, (shift_z self (encode_to_z self x is_image)).
  repeat split; [exact Hf | exact H1 | lia].
Qed.

(** The random tokens of line 154 lie in the vocabulary of the
    transformer. *)
Lemma randint_like_of_raw_range (high : Z) (raw : nat) :
  0 < high -> 0 <= randint_like_of_raw high raw < high.
Proof. intro H. unfold randint_like_of_raw. now apply Z.mod_pos_bound. Qed.

(** C7.  When training with [pkeep < 1.0] (on a transformer that gives one
    output per input position, with a vocabulary and a conditioning row
    that are not empty), for every realization of the Bernoulli mask and
    of the [randint_like] draws: [forward] runs the transformer on the
    prefix followed by the tokens [a_indices], last token left out, where
    [a_indices] holds at every position the shifted token of [z_indices]
    where the mask is 1 and the random token, a token of
    [0, vocab_size), where it is 0; and the target that [forward] returns
    is the shifted [z_indices], the same for every realization. *)
Theorem C7_pkeep_corrupts_input_not_target self (u : Q) (m : nat -> bool)
    (raw : nat -> nat) (x c : list Z) (is_image : bool) :
  training self = true ->
  (pkeep self < 1)%Q ->
  0 < vocab_size (transformer self) ->
  positionwise (transformer self) ->
  encode_to_c self c is_image <> [] ->
  let d := draws self u m raw in
  let z' := shift_z self (encode_to_z self x is_image) in
  let a := corrupt self d z' in
  (exists pre prefix_len,
      splice self d (encode_to_c self c is_image)
             (encode_to_z self x is_image) = (pre ++ a, prefix_len, z')
      /\ forward self d x c is_image
         = Ok (slice (run (transformer self)
                          (slice (pre ++ a) None (Some (-1))))
                     (Some prefix_len) None,
               z'))
  /\ List.length a = List.length z'
  /\ (forall j t, nth_error z' j = Some t ->
        nth_error a j
        = Some (if m j then t
                else randint_like_of_raw (vocab_size (transformer self))
                                         (raw j))
        /\ 0 <= randint_like_of_raw (vocab_size (transformer self)) (raw j)
           < vocab_size (transformer self))
  /\ (forall (u' : Q) (m' : nat -> bool) (raw' : nat -> nat),
         exists logits',
           forward self (draws self u' m' raw') x c is_image
           = Ok (logits', z')).
Proof.
  intros Htr Hp Hv Hrun Hc d z' a.
  assert (Hon : corrupts self = true).
  { unfold corrupts. rewrite Htr. simpl. now apply Qltb_lt. }
  split; [|split; [|split]].
  - assert (Hsp : exists pre prefix_len,
               splice self d (encode_to_c self c is_image)
                      (encode_to_z self x is_image)
               = (pre ++ a, prefix_len, z')).
    { unfold splice. fold z'. fold a.
      destruct (starts_with_sos self);
        [destruct (p_drop_cond self) as [p|];
         [destruct (Qltb p (u_drop d))|]; destruct (class_first self)|];
        rewrite ?app_assoc; eauto. }
    destruct Hsp as (pre & prefix_len & Hsp).
    exists pre, prefix_len. split; [exact Hsp|].
    destruct (forward_returns self d x c is_image Hrun Hc)
      as (logits & Hf & _).
    unfold forward in Hf |- *. rewrite Hsp in Hf |- *.
    destruct (len (slice (run (transformer self)
                              (slice (pre ++ a) None (Some (-1))))
                         (Some prefix_len) None) =? len z');
      [reflexivity | discriminate].
  - apply corrupt_length.
  - intros j t Hj. split.
    + unfold a. now rewrite (corrupt_on_nth self d z' j t Hon Hj).
    + now apply randint_like_of_raw_range.
  - intros u' m' raw'.
    destruct (forward_returns self (draws self u' m' raw') x c is_image
                Hrun Hc) as (logits' & Hf & _).
    exists logits'. exact Hf.
Qed.

Lemma map_add_0 (l : list Z) : map (fun t => t + 0) l = l.
Proof.
  induction l as [|h t IH]; simpl; [reflexivity|].
  now rewrite IH, Z.add_0_r.
Qed.

(** C8 (as amended).  When [args.unconditional] is true and
    [cond_stage_key] is neither 'stft' nor 'text', the conditioning stage
    is [SOSProvider(sos_token)] with [cond_stage_vocab_size = 0] and
    [starts_with_sos] is forced to False; in either mode [forward] then
    splices every row as the start-of-sequence token followed by the
    visual block, with the visual tokens unshifted and [prefix_len = 0].
    The visual block is [z_indices] itself unless the module is training
    with [pkeep < 1.0]. *)
Theorem C8_unconditional_splice (enc : Encoders)
    (gpt_run : list Z -> list Logits) (args : Args)
    (fkey ckey : string) (keep : Q) (sos : Z) :
  unconditional args = true ->
  ckey <> "stft" ->
  ckey <> "text" ->
  exists self0,
    __init__ enc gpt_run args fkey ckey keep sos = Ok self0
    /\ forall mode : bool,
        let self := train mode self0 in
        cond_stage_model self = SOSProvider sos
        /\ cond_stage_vocab_size self = 0
        /\ starts_with_sos self = false
        /\ forall d (x c : list Z) (is_image : bool),
            let z := encode_to_z self x is_image in
            splice self d (encode_to_c self c is_image) z
            = ([sos] ++ corrupt self d z, 0, z)
            /\ (corrupts self = false -> corrupt self d z = z).
Proof.
  intros Hu Hstft Htext.
  unfold __init__, init_cond_stage_from_ckpt. rewrite Hu.
  rewrite andb_false_r.
  destruct (String.eqb_spec ckey "stft") as [E|_]; [contradiction|].
  destruct (String.eqb_spec ckey "text") as [E|_]; [contradiction|].
  eexists. split; [reflexivity|].
  intro mode. cbn -[splice encode_to_c encode_to_z corrupt corrupts].
  repeat split.
  - unfold splice, shift_c, shift_z, encode_to_c, SOSProvider_encode.
    cbn [starts_with_sos cond_stage_vocab_size cond_stage_model train].
    now rewrite map_add_0.
  - apply corrupt_off.
Qed.

End Net2NetFacts.

Section SampleFacts.
Import lm_transformer Net2NetSpec.

Context {Logits : Type}.
Variable scores : Q -> Logits -> list score.
Variable pick : Sampling -> nat -> list score -> Z.

Lemma last_item_nonempty {A : Type} (l : list A) :
  l <> [] -> exists a, last_item l = Ok a.
Proof.
  intro H. destruct (exists_last H) as (l' & a & ->).
  exists a. apply last_item_app.
Qed.

Lemma insert_desc_length (a : score) (l : list score) :
  List.length (insert_desc a l) = S (List.length l).
Proof.
  induction l as [|b t IH]; cbn [insert_desc]; [reflexivity|].
  destruct (score_leb b a); cbn [List.length]; [reflexivity | now rewrite IH].
Qed.

Lemma sort_desc_length (l : list score) :
  List.length (sort_desc l) = List.length l.
Proof.
  induction l as [|a t IH]; cbn [sort_desc]; [reflexivity|].
  rewrite insert_desc_length. now rewrite IH.
Qed.

(** [top_k_logits] does not raise when [k] fits the row. *)
Lemma top_k_logits_fits (logits : list score) (k : Z) :
  1 <= k <= len logits -> exists out, top_k_logits logits k = Fine out.
Proof.
  intro Hk. unfold top_k_logits, topk_values.
  destruct ((k <? 0) || (len logits <? k)) eqn:E.
  { apply orb_true_iff in E. destruct E as [E|E]; apply Z.ltb_lt in E; lia. }
  destruct (last_item_nonempty (firstn (Z.to_nat k) (sort_desc logits)))
    as (kth & ->); [|eauto].
  intro E0. apply (f_equal (@List.length score)) in E0.
  rewrite length_firstn, sort_desc_length in E0. unfold len in Hk.
  cbn [List.length] in E0. lia.
Qed.

(** With a [top_k] that fits, a token is chosen at every position. *)
Lemma choose_fits (cfg : Sampling) (k : nat) (lg : Logits) :
  top_k_fits scores cfg -> exists ix, choose scores pick cfg k lg = Fine ix.
Proof.
  intro Hfit. unfold choose. destruct (top_k cfg) as [tk|] eqn:E; [|eauto].
  destruct (top_k_logits_fits (scores (temperature cfg) lg) tk (Hfit tk E lg))
    as (out & ->).
  eauto.
Qed.

Lemma choose_each_fits (cfg : Sampling) :
  top_k_fits scores cfg ->
  forall (logits : list Logits) (k : nat),
  exists ixs,
    choose_each scores pick cfg k logits = Fine ixs
    /\ List.length ixs = List.length logits.
Proof.
  intro Hfit. induction logits as [|lg rest IH]; intro k; cbn [choose_each].
  - exists []. now split.
  - destruct (choose_fits cfg k lg Hfit) as (ix & ->).
    destruct (IH (S k)) as (ixs & -> & Hlen).
    exists (ix :: ixs). split; [reflexivity|]. cbn [List.length]. now rewrite Hlen.
Qed.

(** One iteration of the loop of [sample]: within the block size, on a
    non-empty sequence, it calls the callback and appends exactly one
    token, chosen from the scores at the last position. *)
Lemma sample_loop_iteration (gpt : GPT) (cfg : Sampling) (callback : bool)
    (todo k : nat) (x calls : list Z) :
  positionwise gpt ->
  top_k_fits scores cfg ->
  x <> [] ->
  len x <= block_size gpt ->
  exists lg ix,
    last_item (run gpt x) = Ok lg
    /\ choose scores pick cfg k lg = Fine ix
    /\ sample_loop scores pick gpt cfg callback (S todo) k x calls
       = sample_loop scores pick gpt cfg callback todo (S k)
           (x ++ [ix])
           (if callback then calls ++ [Z.of_nat k] else calls).
Proof.
  intros Hrun Hfit Hx Hb.
  assert (Hne : run gpt x <> []).
  { intro E. apply Hx. apply length_zero_iff_nil.
    rewrite <- Hrun, E. reflexivity. }
  destruct (last_item_nonempty _ Hne) as (lg & Hlg).
  destruct (choose_fits cfg k lg Hfit) as (ix & Hix).
  exists lg, ix. split; [exact Hlg|]. split; [exact Hix|].
  cbn [sample_loop]. apply Z.leb_le in Hb. now rewrite Hb, Hlg, Hix.
Qed.

Lemma sample_loop_runs (gpt : GPT) (cfg : Sampling) (callback : bool) :
  positionwise gpt ->
  top_k_fits scores cfg ->
  forall (todo k : nat) (x calls : list Z),
    x <> [] ->
    len x + Z.of_nat todo - 1 <= block_size gpt ->
    exists toks,
      sample_loop scores pick gpt cfg callback todo k x calls
      = Fine (x ++ toks,
              calls ++ (if callback then map Z.of_nat (seq k todo) else []))
      /\ List.length toks = todo
      /\ forall (j : nat) (lg : Logits),
          (j < todo)%nat ->
          last_item (run gpt (x ++ firstn j toks)) = Ok lg ->
          exists ix,
            choose scores pick cfg (k + j) lg = Fine ix
            /\ nth_error toks j = Some ix.
Proof.
  intros Hrun Hfit. induction todo as [|todo IH]; intros k x calls Hx Hb.
  - exists []. cbn [sample_loop seq map].
    rewrite !app_nil_r. destruct callback; rewrite ?app_nil_r.
    all: split; [reflexivity|]; split; [reflexivity|]; intros; lia.
  - destruct (sample_loop_iteration gpt cfg callback todo k x calls
                Hrun Hfit Hx)
      as (lg & ix & Hlast & Hix & Hstep); [lia|].
    rewrite Hstep.
    destruct (IH (S k) (x ++ [ix])
                (if callback then calls ++ [Z.of_nat k] else calls))
      as (toks & Hloop & Hlen & Htoks).
    + intro E. apply app_eq_nil in E. destruct E; discriminate.
    + rewrite len_app. change (len [ix]) with 1. lia.
    + exists (ix :: toks). rewrite Hloop. split; [|split].
      * rewrite <- app_assoc. cbn [app seq map].
        destruct callback; rewrite <- ?app_assoc; reflexivity.
      * simpl. now rewrite Hlen.
      * intros j lg' Hj Hlg'. destruct j as [|j].
        -- cbn [firstn nth_error] in *. rewrite app_nil_r in Hlg'.
           rewrite Nat.add_0_r. exists ix. split; [congruence | reflexivity].
        -- cbn [firstn nth_error] in *.
           replace (x ++ ix :: firstn j toks)
             with ((x ++ [ix]) ++ firstn j toks) in Hlg'
             by (now rewrite <- app_assoc).
           destruct (Htoks j lg' ltac:(lia) Hlg') as (ix' & Hc & Hn).
           exists ix'. split; [|exact Hn].
           replace (k + S j)%nat with (S k + j)%nat by lia. exact Hc.
Qed.

(** The assertion of line 239 stops the loop when the sequence would
    outgrow the block size. *)
Lemma sample_loop_block_size (gpt : GPT) (cfg : Sampling) (callback : bool) :
  positionwise gpt ->
  top_k_fits scores cfg ->
  forall (todo k : nat) (x calls : list Z),
    x <> [] ->
    (0 < todo)%nat ->
    block_size gpt < len x + Z.of_nat todo - 1 ->
    sample_loop scores pick gpt cfg callback todo k x calls
    = Failed (Exn AssertionError).
Proof.
  intros Hrun Hfit.
  induction todo as [|todo IH]; intros k x calls Hx Ht Hb; [lia|].
  destruct (Z.le_gt_cases (len x) (block_size gpt)) as [Hle|Hgt].
  - destruct (sample_loop_iteration gpt cfg callback todo k x calls
                Hrun Hfit Hx Hle)
      as (lg & ix & _ & _ & ->).
    apply IH.
    + intro E. apply app_eq_nil in E. destruct E; discriminate.
    + destruct todo; [simpl in Hb; lia | lia].
    + rewrite len_app. change (len [ix]) with 1. lia.
  - cbn [sample_loop]. apply Z.leb_gt in Hgt. now rewrite Hgt.
Qed.

(** C3 (as amended).  [sample], called in eval mode with conditioning [c]
    of length Lc, initial tokens [x] of length Lx, [steps >= 1] and a
    [top_k] that is [None] or lies between 1 and the size of the
    vocabulary (otherwise [top_k_logits] raises).  When [pkeep > 0], [c]
    and [x] are not both empty (else there is no last position to read)
    and the final sequence fits the block size
    ([Lc + Lx + steps - 1 <= block_size], else the assertion of line 239
    raises), the loop runs exactly [steps] iterations, each appending
    exactly one chosen token, and the method returns the sequence with the
    conditioning prefix cut off: [x] followed by the [steps] new tokens,
    [Lx + steps] positions, the token of iteration [k] being chosen from
    the scores at the last position of the sequence built so far.  When
    [pkeep <= 0] one pass is made on [c ++ x ++ c[Lx:-1]] and the returned
    [ix[:, Lc-1:]] has [Lx + 1 + max(0, Lc - 1 - Lx)] positions, whatever
    [steps] is (and [min(1, Lx)] positions for an empty [c]). *)
Theorem C3_sample_lengths (self : Net2NetTransformer) (x c : list Z)
    (steps : Z) (cfg : Sampling) (callback : bool) :
  gpt_training (transformer self) = false ->
  positionwise (transformer self) ->
  top_k_fits scores cfg ->
  1 <= steps ->
  ((0 < pkeep self)%Q ->
   c ++ x <> [] ->
   len c + len x + steps - 1 <= block_size (transformer self) ->
   exists toks,
     sample scores pick self x c steps cfg callback
     = Fine (x ++ toks, if callback then range steps else [])
     /\ len toks = steps
     /\ len (x ++ toks) = len x + steps
     /\ forall (k : nat) (lg : Logits),
         Z.of_nat k < steps ->
         last_item (run (transformer self) (c ++ x ++ firstn k toks)) = Ok lg ->
         exists ix,
           choose scores pick cfg k lg = Fine ix
           /\ nth_error toks k = Some ix)
  /\ ((pkeep self <= 0)%Q ->
      exists out,
        sample scores pick self x c steps cfg callback = Fine (out, [])
        /\ (c <> [] -> len out = len x + 1 + Z.max 0 (len c - 1 - len x))
        /\ (c = [] -> len out = Z.min 1 (len x))).
Proof.
  intros Hmode Hrun Hfit Hsteps.
  pose proof (len_nonneg x) as Hx0. pose proof (len_nonneg c) as Hc0.
  split.
  - intros Hp Hcx Hb. unfold sample. rewrite Hmode.
    assert (Hq : Qleb (pkeep self) 0 = false).
    { unfold Qleb. destruct (Qle_bool (pkeep self) 0) eqn:E; [|reflexivity].
      apply Qle_bool_iff in E. exfalso. apply (Qlt_not_le _ _ Hp E). }
    rewrite Hq.
    destruct (sample_loop_runs (transformer self) cfg callback Hrun Hfit
                (Z.to_nat steps) 0 (c ++ x) [])
      as (toks & Hloop & Hlen & Htoks).
    + exact Hcx.
    + rewrite len_app, Z2Nat.id; lia.
    + exists toks. rewrite Hloop, <- app_assoc, slice_from_app.
      assert (Hl : len toks = steps) by (unfold len; rewrite Hlen; lia).
      split; [|split; [exact Hl | split; [rewrite len_app; lia|]]].
      * unfold range. now destruct callback.
      * intros k lg Hk Hlg. rewrite app_assoc in Hlg.
        apply (Htoks k lg); [lia | exact Hlg].
  - intro Hp. unfold sample. rewrite Hmode.
    assert (Hq : Qleb (pkeep self) 0 = true) by (now apply Qle_bool_iff).
    rewrite Hq.
    set (noise := slice c (Some (len (c ++ x) - len c)) (Some (-1))).
    destruct (choose_each_fits cfg Hfit
                (run (transformer self) ((c ++ x) ++ noise)) 0)
      as (ix & -> & Hixl).
    eexists. split; [reflexivity|].
    assert (Hnoise : len noise = Z.max 0 (len c - 1 - len x)).
    { unfold noise. rewrite slice_len, len_app. unfold clamp_index.
      change (-1 <? 0) with true. cbv iota.
      destruct (len c + len x - len c <? 0) eqn:E; lia. }
    assert (Hix : len ix = len c + len x + len noise).
    { unfold len at 1. rewrite Hixl, Hrun.
      fold (len ((c ++ x) ++ noise)). rewrite !len_app. lia. }
    split.
    + intro Hc.
      assert (Hc1 : 1 <= len c).
      { destruct (Z.eq_dec (len c) 0) as [E|E];
          [apply len_nil_iff in E; easy | lia]. }
      rewrite slice_from_len; lia.
    + intros ->. change (len (@nil Z)) with 0 in *.
      rewrite slice_len. unfold clamp_index.
      change (0 - 1 <? 0) with true. cbv iota. lia.
Qed.

(** Past the block size the loop does not complete: [sample] raises the
    AssertionError of line 239. *)
Lemma sample_block_size_exceeded (self : Net2NetTransformer) (x c : list Z)
    (steps : Z) (cfg : Sampling) (callback : bool) :
  gpt_training (transformer self) = false ->
  positionwise (transformer self) ->
  top_k_fits scores cfg ->
  c ++ x <> [] ->
  1 <= steps ->
  (0 < pkeep self)%Q ->
  block_size (transformer self) < len c + len x + steps - 1 ->
  sample scores pick self x c steps cfg callback
  = Failed (Exn AssertionError).
Proof.
  intros Hmode Hrun Hfit Hcx Hsteps Hp Hb. unfold sample. rewrite Hmode.
  assert (Hq : Qleb (pkeep self) 0 = false).
  { unfold Qleb. destruct (Qle_bool (pkeep self) 0) eqn:E; [|reflexivity].
    apply Qle_bool_iff in E. exfalso. apply (Qlt_not_le _ _ Hp E). }
  rewrite Hq, sample_loop_block_size; auto.
  - lia.
  - rewrite len_app, Z2Nat.id; lia.
Qed.

End SampleFacts.

(** ** Concrete runs of [forward] and [sample] *)

Section Net2NetExamples.
Import lm_transformer Net2NetSpec.

(** C1 as stated does not hold for every batch: a label-conditioned model
    in training mode with [pkeep = 0.5], [c_indices = [2]],
    [z_indices = [3, 4]], a mask of zeros and random tokens 7.  The row
    spliced is [2, 7, 7], not [2, 13, 14], and what the transformer reads
    of it, [cz_indices[:, :-1]], differs as well. *)
Lemma C1_counterexample :
  exists self : @Net2NetTransformer Z,
    __init__ demo_encoders demo_run (demo_args false None None)
             "video" "label" (1 # 2)%Q 0 = Ok self
    /\ starts_with_sos self = false
    /\ let d := {| u_drop := 0; mask := fun _ => false;
                   r_indices := fun _ => 7 |} in
       let claimed := [2] ++ map (fun z => z + cond_stage_vocab_size self) [3; 4] in
       let cz_indices := fst (fst (splice self d [2] [3; 4])) in
       cz_indices = [2; 7; 7]
       /\ cz_indices <> claimed
       /\ slice cz_indices None (Some (-1)) <> slice claimed None (Some (-1)).
Proof.
  eexists. split; [reflexivity|]. split; [reflexivity|].
  vm_compute. repeat split; discriminate.
Qed.

(** A label-conditioned model with [starts_with_sos] and
    [p_drop_cond = 0.1], in eval mode, on a draw of 0.5: the condition is
    kept and the row is [sos, c + 1, z + 11]. *)
Lemma C1_splice_layout_witness :
  exists self0 : @Net2NetTransformer Z,
    __init__ demo_encoders demo_run (demo_args false (Some true) (Some (1 # 10)%Q))
             "video" "label" 1 0 = Ok self0
    /\ splice (train false self0)
              {| u_drop := (1 # 2)%Q; mask := fun _ => true;
                 r_indices := fun _ => 0 |} [2] [3; 4]
       = ([0; 3; 14; 15], 1, [14; 15]).
Proof.
  eexists. split; [reflexivity|].
  match goal with
  | |- splice ?s ?d ?c ?z = _ =>
      destruct (C1_splice_layout s d c z) as (_ & H & _)
  end.
  destruct (H eq_refl) as (_ & _ & Hkept & _).
  rewrite (Hkept eq_refl). reflexivity.
Defined.

(** The same model in training mode with [pkeep = 1.0]. *)
Lemma C2_forward_assert_holds_witness :
  exists self0 : @Net2NetTransformer Z,
    __init__ demo_encoders demo_run (demo_args false (Some true) (Some (1 # 10)%Q))
             "video" "label" 1 0 = Ok self0
    /\ exists logits target,
         forward self0
                 {| u_drop := 0; mask := fun _ => true;
                    r_indices := fun _ => 0 |} [3; 4] [2] false
         = Ok (logits, target)
         /\ len logits = len target
         /\ len target = len (encode_to_z self0 [3; 4] false).
Proof.
  eexists. split; [reflexivity|].
  apply C2_forward_assert_holds; [intro xs; reflexivity | discriminate].
Defined.

(** C3 as stated fails in the [pkeep <= 0] branch: with a one-token
    conditioning, no initial tokens and [steps = 5] the method returns one
    position, not five.  It fails in the [pkeep > 0] branch too: when the
    sequence outgrows the block size (with a block size of 64 and
    [steps = 70] the assertion of line 239 raises); when [top_k] does not
    fit the vocabulary, here of two tokens ([top_k = 0] raises IndexError
    and [top_k = 3] RuntimeError in [top_k_logits]); when [c] and [x] are
    both empty (there is no last position to read); and when the
    transformer is in training mode, as it is after [__init__] (the
    assertion of line 208). *)
Lemma C3_counterexample :
  (exists self0 : @Net2NetTransformer Z,
      __init__ demo_encoders demo_run (demo_args false None None)
               "video" "label" 0 0 = Ok self0
      /\ (pkeep (train false self0) <= 0)%Q
      /\ exists out,
           sample demo_scores demo_pick (train false self0) [] [7] 5
                  (demo_sampling None) true
           = Fine (out, [])
           /\ len out = 1
           /\ len out <> len (@nil Z) + 5)
  /\ (exists self0 : @Net2NetTransformer Z,
        __init__ demo_encoders demo_run (demo_args false None None)
                 "video" "label" 1 0 = Ok self0
        /\ (0 < pkeep (train false self0))%Q
        /\ block_size (transformer (train false self0)) = 64
        /\ sample demo_scores demo_pick (train false self0) [] [7] 70
                  (demo_sampling None) true
           = Failed (Exn AssertionError)
        /\ sample demo_scores demo_pick (train false self0) [1; 2] [7] 3
                  (demo_sampling (Some 0)) true
           = Failed (Exn (IndexError "index -1 is out of bounds"))
        /\ sample demo_scores demo_pick (train false self0) [1; 2] [7] 3
                  (demo_sampling (Some 3)) true
           = Failed (RuntimeError "selected index k out of range")
        /\ sample demo_scores demo_pick (train false self0) [] [] 3
                  (demo_sampling None) true
           = Failed (Exn (IndexError "index -1 is out of bounds"))
        /\ gpt_training (transformer self0) = true
        /\ sample demo_scores demo_pick self0 [1; 2] [7] 3
                  (demo_sampling None) true
           = Failed (Exn AssertionError)).
Proof.
  split.
  - eexists. split; [reflexivity|]. split; [vm_compute; discriminate|].
    eexists. split; [reflexivity|]. vm_compute.
    split; [reflexivity|discriminate].
  - eexists. split; [reflexivity|]. split; [reflexivity|].
    split; [reflexivity|]. repeat split; vm_compute; reflexivity.
Qed.

(** Three steps from two initial tokens with [pkeep = 1.0] and
    [top_k = 1]. *)
Lemma C3_sample_lengths_witness :
  exists self0 : @Net2NetTransformer Z,
    __init__ demo_encoders demo_run (demo_args false None None)
             "video" "label" 1 0 = Ok self0
    /\ top_k_fits demo_scores (demo_sampling (Some 1))
    /\ exists toks,
         sample demo_scores demo_pick (train false self0) [1; 2] [7] 3
                (demo_sampling (Some 1)) true
         = Fine ([1; 2] ++ toks, range 3)
         /\ len toks = 3
         /\ len ([1; 2] ++ toks) = len [1; 2] + 3
         /\ forall (k : nat) (lg : Z),
             Z.of_nat k < 3 ->
             last_item (run (transformer (train false self0))
                            ([7] ++ [1; 2] ++ firstn k toks)) = Ok lg ->
             exists ix,
               choose demo_scores demo_pick (demo_sampling (Some 1)) k lg
               = Fine ix
               /\ nth_error toks k = Some ix.
Proof.
  assert (Hfit : top_k_fits demo_scores (demo_sampling (Some 1))).
  { intros tk E lg. injection E as <-. vm_compute.
    split; discriminate. }
  eexists. split; [reflexivity|]. split; [exact Hfit|].
  match goal with
  | |- exists toks, sample _ _ ?s ?x ?c ?n ?cfg ?cb = _ /\ _ =>
      destruct (C3_sample_lengths demo_scores demo_pick s x c n cfg cb)
        as [H _];
        [reflexivity | intro xs; reflexivity | exact Hfit | lia |]
  end.
  apply H; [reflexivity | discriminate | vm_compute; discriminate].
Defined.

(** Training with [pkeep = 0.5], a mask that replaces the first visual
    token and raw draws 7: the transformer is run on [2; 7; 14] without
    its last token, and the target is still [z + 10]. *)
Lemma C7_pkeep_corrupts_input_not_target_witness :
  exists self : @Net2NetTransformer Z,
    __init__ demo_encoders demo_run (demo_args false None None)
             "video" "label" (1 # 2)%Q 0 = Ok self
    /\ corrupt self (draws self 0 (fun j => Nat.odd j) (fun _ => 7%nat))
               (shift_z self [3; 4]) = [7; 14]
    /\ forward self (draws self 0 (fun j => Nat.odd j) (fun _ => 7%nat))
               [3; 4] [2] false
       = Ok ([2; 7], [13; 14])
    /\ exists pre prefix_len,
         forward self (draws self 0 (fun j => Nat.odd j) (fun _ => 7%nat))
                 [3; 4] [2] false
         = Ok (slice (run (transformer self)
                          (slice (pre ++ [7; 14]) None (Some (-1))))
                     (Some prefix_len) None,
               [13; 14]).
Proof.
  eexists. split; [reflexivity|]. split; [reflexivity|].
  split; [reflexivity|].
  match goal with
  | |- exists pre prefix_len, forward ?s (draws ?s ?u ?m ?raw) ?x ?c ?i = _ =>
      destruct (C7_pkeep_corrupts_input_not_target s u m raw x c i)
        as ((pre & prefix_len & _ & H) & _);
        [reflexivity | reflexivity | reflexivity | intro xs; reflexivity
        | discriminate |]
  end.
  exists pre, prefix_len. exact H.
Defined.

(** C8 as stated fails when the conditioning key is 'text': the branch for
    'text' comes before the unconditional one, so the conditioning stage
    is the identity with a vocabulary of 49408 and the visual tokens are
    shifted by as much.  And with the default key, an unconditional model
    that trains with [pkeep = 0.5] splices the random token 7 after the
    start-of-sequence token where the mask is 0, not [z_indices]. *)
Lemma C8_counterexample :
  (exists self : @Net2NetTransformer Z,
      unconditional (demo_args true None None) = true
      /\ __init__ demo_encoders demo_run (demo_args true None None)
                  "video" "text" 1 0 = Ok self
      /\ cond_stage_model self = Identity
      /\ cond_stage_vocab_size self = 49408
      /\ splice self {| u_drop := 0; mask := fun _ => true;
                        r_indices := fun _ => 0 |}
                (encode_to_c self [11; 12] false) [5]
         = ([11; 12; 49413], 1, [49413]))
  /\ (exists self : @Net2NetTransformer Z,
        __init__ demo_encoders demo_run (demo_args true None None)
                 "video" "label" (1 # 2)%Q 0 = Ok self
        /\ cond_stage_model self = SOSProvider 0
        /\ splice self {| u_drop := 0; mask := fun _ => false;
                          r_indices := fun _ => 7 |}
                  (encode_to_c self [] false) [5]
           = ([0; 7], 0, [5])).
Proof.
  split.
  - eexists. split; [reflexivity|]. split; [reflexivity|]. repeat split.
  - eexists. split; [reflexivity|]. repeat split.
Qed.

(** An unconditional model with the default key 'label' and
    [sos_token = 5], although [args.starts_with_sos] is set. *)
Lemma C8_unconditional_splice_witness :
  exists self0 : @Net2NetTransformer Z,
    __init__ demo_encoders demo_run (demo_args true (Some true) None)
             "video" "label" 1 5 = Ok self0
    /\ forall mode : bool,
        let self := train mode self0 in
        cond_stage_model self = SOSProvider 5
        /\ cond_stage_vocab_size self = 0
        /\ starts_with_sos self = false
        /\ forall d (x c : list Z) (is_image : bool),
            let z := encode_to_z self x is_image in
            splice self d (encode_to_c self c is_image) z
            = ([5] ++ corrupt self d z, 0, z)
            /\ (corrupts self = false -> corrupt self d z = z).
Proof.
  apply C8_unconditional_splice; [reflexivity | discriminate | discriminate].
Defined.

End Net2NetExamples.

(* ===================================================================== *)
(** * Properties of [ImageVideoDataset.__init__]                          *)
(* ===================================================================== *)

Section DatasetInitFacts.
Import dataset_image_video DatasetSpec ImageVideoDataset.

(** A loop that appends the elements passing a test is a filter. *)
Lemma fold_left_append_filter {A : Type} (p : A -> bool) (l acc : list A) :
  fold_left (fun acc a => if p a then acc ++ [a] else acc) l acc
  = acc ++ filter p l.
Proof.
  revert acc. induction l as [|a l IH]; intro acc; simpl.
  - now rewrite app_nil_r.
  - rewrite IH. destruct (p a); [now rewrite <- app_assoc | reflexivity].
Qed.

(** A loop that appends the same list at every turn. *)
Lemma fold_left_append_repeat {A B : Type} (step : list A) (turns : list B)
    (acc : list A) :
  fold_left (fun acc _ => acc ++ step) turns acc
  = acc ++ concat (repeat step (List.length turns)).
Proof.
  revert acc. induction turns as [|b turns IH]; intro acc; simpl.
  - now rewrite app_nil_r.
  - now rewrite IH, <- app_assoc.
Qed.

Lemma fold_left_same {A B : Type} (f g : A -> B -> A) (l : list B) (a : A) :
  (forall a b, f a b = g a b) -> fold_left f l a = fold_left g l a.
Proof.
  intro H. revert a. induction l as [|b l IH]; intro a; simpl;
    [reflexivity | now rewrite H, IH].
Qed.

Lemma length_concat_repeat {A : Type} (l : list A) (k : nat) :
  List.length (concat (repeat l k)) = (k * List.length l)%nat.
Proof.
  induction k as [|k IH]; simpl; [reflexivity|].
  now rewrite length_app, IH.
Qed.

Lemma range_length (n : Z) : List.length (range n) = Z.to_nat n.
Proof. unfold range. now rewrite length_map, length_seq. Qed.

(** The entry list built by the two loops of lines 120-128. *)
Lemma build_dataset_eq (video_repeat : Z) (annotations : list entry) :
  build_dataset video_repeat annotations
  = non_video annotations
    ++ concat (repeat (videos annotations) (Z.to_nat video_repeat)).
Proof.
  unfold build_dataset. rewrite fold_left_append_filter. simpl.
  fold (non_video annotations).
  destruct (0 <? video_repeat) eqn:E.
  - rewrite (fold_left_same _ (fun acc _ => acc ++ videos annotations)).
    + now rewrite fold_left_append_repeat, range_length.
    + intros acc _. now rewrite fold_left_append_filter.
  - apply Z.ltb_ge in E.
    replace (Z.to_nat video_repeat) with 0%nat by lia.
    simpl. now rewrite app_nil_r.
Qed.

(** C9.  [__init__] builds its entry list as all the annotation entries
    that are not videos, once, followed by [video_repeat] full passes over
    the video entries, so that
    [len(self.dataset) = n_non_video + video_repeat * n_video]; with
    [video_repeat = 0], the default, every video entry is discarded and
    the dataset holds the non-video entries only. *)
Theorem C9_dataset_entries (cfg : Config) (annotations : list entry) :
  0 <= cfg_video_repeat cfg ->
  let self := __init__ cfg annotations in
  dataset self
  = non_video annotations
    ++ concat (repeat (videos annotations) (Z.to_nat (cfg_video_repeat cfg)))
  /\ len (dataset self)
     = len (non_video annotations)
       + cfg_video_repeat cfg * len (videos annotations)
  /\ length self = len (dataset self)
  /\ cfg_video_repeat default_config = 0
  /\ (cfg_video_repeat cfg = 0 ->
      dataset self = non_video annotations
      /\ Forall (fun data => content_type_of data <> "video") (dataset self)).
Proof.
  intros Hk self. unfold self, __init__. cbn [dataset length].
  rewrite build_dataset_eq.
  split; [reflexivity|]. split; [|split; [reflexivity|split; [reflexivity|]]].
  - unfold len. rewrite length_app, length_concat_repeat. lia.
  - intro H0. rewrite H0. simpl. rewrite app_nil_r. split; [reflexivity|].
    unfold non_video. apply Forall_forall. intros data Hin.
    apply filter_In in Hin. destruct Hin as [_ Hty].
    apply negb_true_iff in Hty. now apply String.eqb_neq in Hty.
Qed.

End DatasetInitFacts.

(* ===================================================================== *)
(** * Properties of the frame indices of [get_batch]                      *)
(* ===================================================================== *)

Section FrameIndexFacts.
Import dataset_image_video DatasetSpec ImageVideoDataset.

Lemma randint_of_raw_range (a b : Z) (raw : nat) :
  a <= b ->
  exists v, randint_of_raw a b raw = Ok v /\ a <= v <= b.
Proof.
  intro Hab. unfold randint_of_raw.
  destruct (b <? a) eqn:E; [apply Z.ltb_lt in E; lia|].
  eexists. split; [reflexivity|].
  pose proof (Z.mod_pos_bound (Z.of_nat raw) (b - a + 1)). lia.
Qed.

(** Every value of [np.linspace(start, stop, num, dtype=int)] lies between
    its two ends. *)
Lemma linspace_bounds (start stop num : Z) (l : list Z) :
  start <= stop ->
  linspace start stop num = Ok l ->
  List.length l = Z.to_nat num
  /\ Forall (fun v => start <= v <= stop) l.
Proof.
  intros Hle Hl. unfold linspace in Hl.
  destruct (num <? 0); [discriminate|]. injection Hl as <-.
  split; [now rewrite length_map, range_length|].
  apply Forall_forall. intros v Hv.
  apply in_map_iff in Hv. destruct Hv as (i & <- & Hi).
  unfold range in Hi. apply in_map_iff in Hi. destruct Hi as (j & <- & Hj).
  apply in_seq in Hj.
  set (k := num - 1). set (delta := stop - start).
  set (t := (inject_Z (Z.of_nat j) * (inject_Z delta / inject_Z k))%Q).
  assert (Ht : (0 <= t /\ t <= inject_Z delta)%Q).
  { destruct (Z.eq_dec k 0) as [Hk|Hk].
    - assert (Hj0 : j = 0%nat) by lia. subst j. unfold t.
      change (inject_Z (Z.of_nat 0)) with 0%Q. rewrite Qmult_0_l.
      split; [apply Qle_refl|].
      change 0%Q with (inject_Z 0). rewrite <- Zle_Qle. lia.
    - assert (Hkpos : (0 < inject_Z k)%Q).
      { change 0%Q with (inject_Z 0). rewrite <- Zlt_Qlt. lia. }
      assert (Hr : (0 <= inject_Z delta / inject_Z k)%Q).
      { apply Qle_shift_div_l; [exact Hkpos|]. rewrite Qmult_0_l.
        change 0%Q with (inject_Z 0). rewrite <- Zle_Qle. lia. }
      split.
      + apply Qmult_le_0_compat; [|exact Hr].
        change 0%Q with (inject_Z 0). rewrite <- Zle_Qle. lia.
      + apply Qle_trans with (inject_Z k * (inject_Z delta / inject_Z k))%Q.
        * apply Qmult_le_compat_r; [|exact Hr]. rewrite <- Zle_Qle. lia.
        * rewrite Qmult_div_r; [apply Qle_refl|].
          intro E. rewrite E in Hkpos. now apply Qlt_irrefl in Hkpos. }
  destruct Ht as [Ht0 Ht1].
  assert (Hlo : Qfloor (inject_Z start) <= Qfloor (inject_Z start + t))
    by (apply Qfloor_resp_le; lra).
  assert (Hhi : Qfloor (inject_Z start + t) <= Qfloor (inject_Z (start + delta)))
    by (apply Qfloor_resp_le; rewrite inject_Z_plus; lra).
  rewrite Qfloor_Z in Hlo, Hhi.
  replace (start + delta) with stop in Hhi by (unfold delta; lia).
  split; [exact Hlo | exact Hhi].
Qed.

(** [int()] of the three products of lines 195, 200 and 206 with the
    default drop ratios. *)
Lemma int_drop_span (n : Z) :
  int_of_float (inject_Z n * ((9 # 10) - (1 # 10)))%Q = (n * 80) ÷ 100.
Proof. reflexivity. Qed.

Lemma int_drop_end (n : Z) :
  int_of_float ((9 # 10) * inject_Z n)%Q = (9 * n) ÷ 10.
Proof. reflexivity. Qed.

Lemma int_drop_start (n : Z) :
  int_of_float ((1 # 10) * inject_Z n)%Q = n ÷ 10.
Proof.
  unfold int_of_float. cbn [Qmult Qnum Qden inject_Z].
  now destruct n.
Qed.

(** C10.  With the default drop ratios 0.1 and 0.9 and a non-negative
    sample stride, for a video of [n] frames that passes the length checks
    of [get_batch] ([min_sample_n_frames > 0],
    [video_length >= clip_length] and
    [video_length >= video_sample_n_frames]), the frame indices
    [batch_index] are computed, and every one of them lies in
    [0, n - 1]: [video_reader.get_batch] is never asked for a frame past
    the end of the video. *)
Theorem C10_frame_indices_in_range (self : t) (n : nat) (st : state) :
  video_length_drop_start self = (1 # 10)%Q ->
  video_length_drop_end self = (9 # 10)%Q ->
  0 <= video_sample_stride self ->
  0 < min_sample_n_frames_of self n ->
  clip_length_of self n <= video_length_of self n ->
  video_sample_n_frames self <= video_length_of self n ->
  exists (batch_index : list Z) (st' : state),
    batch_index_of self n st = (Ok batch_index, st')
    /\ len batch_index = min_sample_n_frames_of self n
    /\ Forall (fun i => 0 <= i <= Z.of_nat n - 1) batch_index.
Proof.
  intros Hstart Hend Hstride Hm Hclip Hlen.
  cbv beta iota zeta delta [batch_index_of clip_window bind randint next_raw
                              lift ret raise].
  unfold clip_length_of, video_length_of, min_sample_n_frames_of in *.
  rewrite Hstart, Hend, int_drop_span, int_drop_end, int_drop_start in *.
  set (N := video_sample_n_frames self) in *.
  set (frames := Z.of_nat n) in *.
  set (m := Z.min N ((frames * 80) ÷ 100)) in *.
  set (VL := (9 * frames) ÷ 10) in *.
  set (CL := Z.min VL ((m - 1) * video_sample_stride self + 1)) in *.
  assert (Hf : 0 <= frames) by (unfold frames; lia).
  destruct (m =? 0) eqn:Em; [apply Z.eqb_eq in Em; lia|].
  destruct ((VL <? CL) || (VL <? N)) eqn:Echk.
  { apply orb_true_iff in Echk. destruct Echk as [E|E];
      apply Z.ltb_lt in E; lia. }
  destruct (randint_of_raw_range (VL ÷ 10) (Z.max (VL ÷ 10) (VL - CL))
              (rng st (cursor st))) as (start_idx & Hri & Hrange); [lia|].
  rewrite Hri. cbv beta iota.
  assert (HCL : 1 <= CL).
  { unfold CL. assert (0 <= (m - 1) * video_sample_stride self)
      by (apply Z.mul_nonneg_nonneg; lia).
    lia. }
  destruct (linspace start_idx (start_idx + CL - 1) m) as [l|e] eqn:El.
  2:{ unfold linspace in El. destruct (m <? 0) eqn:E; [|discriminate].
      apply Z.ltb_lt in E. lia. }
  assert (Hends : start_idx <= start_idx + CL - 1) by lia.
  destruct (linspace_bounds _ _ _ _ Hends El) as [Hlen' Hall].
  exists l. eexists. split; [reflexivity|]. split.
  - unfold len. rewrite Hlen'. lia.
  - eapply Forall_impl; [|exact Hall]. cbv beta. intros i Hi.
    assert (HVL : 0 <= VL /\ 10 * VL <= 9 * frames).
    { unfold VL. rewrite Z.quot_div_nonneg by lia.
      Z.to_euclidean_division_equations. lia. }
    assert (Hten : 0 <= VL ÷ 10 /\ 10 * (VL ÷ 10) <= VL).
    { rewrite Z.quot_div_nonneg by lia.
      Z.to_euclidean_division_equations. lia. }
    lia.
Qed.

End FrameIndexFacts.

(* ===================================================================== *)
(** * Properties of [ImageVideoSampler]                                   *)
(* ===================================================================== *)

Section SamplerFacts.
Import dataset_image_video DatasetSpec ImageVideoSampler.

Implicit Types (self : ImageVideoSampler.t) (idx : Z).

Lemma same_settings_refl self : same_settings self self.
Proof. repeat split. Qed.

Lemma same_settings_trans self1 self2 self3 :
  same_settings self1 self2 -> same_settings self2 self3 ->
  same_settings self1 self3.
Proof.
  intros (A1 & A2 & A3 & A4) (B1 & B2 & B3 & B4).
  repeat split; congruence.
Qed.

Lemma bucketed_same_settings self self' (b : list Z) :
  same_settings self self' -> bucketed self b -> bucketed self' b.
Proof.
  intros (H1 & H2 & H3 & _). unfold bucketed. rewrite H1, H2, H3. tauto.
Qed.

(** One step of the loop: the batch it yields is bucketed, the buckets
    stay sorted by content type, and no index is lost or made up. *)
Lemma iter_step_spec self idx (y : option (list Z)) self' :
  sampler_inv self ->
  iter_step self idx = Ok (y, self') ->
  sampler_inv self'
  /\ same_settings self self'
  /\ (forall b, y = Some b -> bucketed self b)
  /\ Permutation (match y with Some b => b | None => [] end ++ leftover self')
                 (leftover self ++ [idx]).
Proof.
  intros (image & video & Hb & Himg & Hvid) Hstep.
  unfold iter_step in Hstep.
  destruct (list_getitem (dataset self) idx) as [data|e] eqn:Hdata;
    [|discriminate].
  assert (Hidx : refers_to (dataset self) (content_type_of data) idx)
    by (exists data; split; [exact Hdata | reflexivity]).
  rewrite Hb in Hstep. unfold dict_getitem, leftover, dict_get in *.
  rewrite Hb. cbn [dict_lookup] in Hstep.
  destruct (String.eqb_spec "image" (content_type_of data)) as [Ei|Ei].
  - (* an image index *)
    rewrite <- Ei in *. cbn in Hstep.
    destruct (len video =? batch_size self) eqn:Ev.
    + injection Hstep as <- <-. cbn. repeat split.
      * exists (image ++ [idx]), []. repeat split; auto.
        apply Forall_app. split; [exact Himg | now constructor].
      * intros b [= <-]. left. split; [now apply Z.eqb_eq | exact Hvid].
      * rewrite !app_nil_r, <- app_assoc. apply Permutation_app_swap_app.
    + destruct (len (image ++ [idx]) =? image_batch_size self) eqn:Em.
      * injection Hstep as <- <-. cbn. repeat split.
        -- exists [], video. repeat split; auto.
        -- intros b [= <-]. right. split; [now apply Z.eqb_eq|].
           apply Forall_app. split; [exact Himg | now constructor].
        -- rewrite <- !app_assoc. apply Permutation_app_head.
           apply Permutation_app_comm.
      * injection Hstep as <- <-. cbn. repeat split.
        -- exists (image ++ [idx]), video. repeat split; auto.
           apply Forall_app. split; [exact Himg | now constructor].
        -- discriminate.
        -- rewrite <- !app_assoc. apply Permutation_app_head.
           apply Permutation_app_comm.
  - destruct (String.eqb_spec "video" (content_type_of data)) as [Ev|Ev];
      [|discriminate].
    (* a video index *)
    rewrite <- Ev in *. cbn in Hstep.
    destruct (len (video ++ [idx]) =? batch_size self) eqn:Eb.
    + injection Hstep as <- <-. cbn. repeat split.
      * exists image, []. repeat split; auto.
      * intros b [= <-]. left. split; [now apply Z.eqb_eq|].
        apply Forall_app. split; [exact Hvid | now constructor].
      * rewrite app_nil_r.
        rewrite (Permutation_app_comm (video ++ [idx]) image).
        now rewrite app_assoc.
    + destruct (len image =? image_batch_size self) eqn:Em.
      * injection Hstep as <- <-. cbn. repeat split.
        -- exists [], (video ++ [idx]). repeat split; auto.
           apply Forall_app. split; [exact Hvid | now constructor].
        -- intros b [= <-]. right. split; [now apply Z.eqb_eq | exact Himg].
        -- now rewrite app_assoc.
      * injection Hstep as <- <-. cbn. repeat split.
        -- exists image, (video ++ [idx]). repeat split; auto.
           apply Forall_app. split; [exact Hvid | now constructor].
        -- discriminate.
        -- now rewrite app_assoc.
Qed.

(** A whole run of [__iter__]. *)
Lemma iter_spec (sampler : list Z) :
  forall self (ys : list (list Z)) self' (e : option exn),
    sampler_inv self ->
    __iter__ self sampler = (ys, self', e) ->
    sampler_inv self'
    /\ same_settings self self'
    /\ Forall (bucketed self) ys
    /\ (e = None ->
        Permutation (concat ys ++ leftover self') (leftover self ++ sampler)).
Proof.
  induction sampler as [|idx rest IH]; intros self ys self' e Hinv Hrun.
  - injection Hrun as <- <- <-. repeat split; auto.
    intros _. cbn. now rewrite app_nil_r.
  - cbn [__iter__] in Hrun.
    destruct (iter_step self idx) as [[y self1]|e1] eqn:Hstep.
    + destruct (__iter__ self1 rest) as [[ys1 self2] e2] eqn:Hrest.
      injection Hrun as <- <- <-.
      destruct (iter_step_spec self idx y self1 Hinv Hstep)
        as (Hinv1 & Hset1 & Hy & Hperm1).
      destruct (IH self1 ys1 self2 e2 Hinv1 Hrest)
        as (Hinv2 & Hset2 & Hys & Hperm2).
      split; [exact Hinv2|].
      split; [exact (same_settings_trans _ _ _ Hset1 Hset2)|].
      assert (Hys' : Forall (bucketed self) ys1).
      { eapply Forall_impl; [|exact Hys]. intros b Hb.
        destruct Hset1 as (H1 & H2 & H3 & _).
        unfold bucketed in *. now rewrite H1, H2, H3 in Hb. }
      split.
      * destruct y as [b|]; [constructor; auto | exact Hys'].
      * intros He. specialize (Hperm2 He).
        transitivity (match y with Some b => b | None => [] end
                      ++ concat ys1 ++ leftover self2).
        { destruct y as [b|]; cbn; [now rewrite <- app_assoc | reflexivity]. }
        rewrite Hperm2, app_assoc, Hperm1, <- app_assoc. reflexivity.
    + injection Hrun as <- <- <-. repeat split; auto. discriminate.
Qed.

(** [drop_last] is never read: changing it changes no batch. *)
Lemma iter_step_drop_last self idx (b : bool) :
  iter_step (with_drop_last b self) idx
  = match iter_step self idx with
    | Ok (y, self') => Ok (y, with_drop_last b self')
    | Raise e => Raise e
    end.
Proof.
  unfold iter_step. cbn [with_drop_last dataset bucket set_bucket
                         batch_size image_batch_size].
  destruct (list_getitem (dataset self) idx) as [data|e]; [|reflexivity].
  destruct (dict_getitem (bucket self) (content_type_of data)) as [l|e];
    [|reflexivity].
  destruct (dict_getitem _ "video") as [video|e]; [|reflexivity].
  destruct (len video =? batch_size self); [reflexivity|].
  destruct (dict_getitem _ "image") as [image|e]; [|reflexivity].
  destruct (len image =? image_batch_size self); reflexivity.
Qed.

Lemma iter_drop_last (b : bool) (sampler : list Z) :
  forall self,
    __iter__ (with_drop_last b self) sampler
    = let '(ys, self', e) := __iter__ self sampler in
      (ys, with_drop_last b self', e).
Proof.
  induction sampler as [|idx rest IH]; intro self; cbn [__iter__];
    [reflexivity|].
  rewrite iter_step_drop_last.
  destruct (iter_step self idx) as [[y self1]|e1]; [|reflexivity].
  rewrite IH. now destruct (__iter__ self1 rest) as [[ys1 self2] e2].
Qed.

Lemma epochs_drop_last (b : bool) (samplers : list (list Z)) :
  forall self,
    epochs (with_drop_last b self) samplers
    = let '(yss, self') := epochs self samplers in
      (yss, with_drop_last b self').
Proof.
  induction samplers as [|s rest IH]; intro self; cbn [epochs];
    [reflexivity|].
  rewrite iter_drop_last.
  destruct (__iter__ self s) as [[ys self1] e].
  rewrite IH. now destruct (epochs self1 rest) as [yss self2].
Qed.

(** Whatever ran before, the sampler object is in order. *)
Lemma epochs_inv (samplers : list (list Z)) :
  forall self (yss : list (list (list Z))) self',
    sampler_inv self ->
    epochs self samplers = (yss, self') ->
    sampler_inv self' /\ same_settings self self'
    /\ Forall (Forall (bucketed self)) yss.
Proof.
  induction samplers as [|s rest IH]; intros self yss self' Hinv Hrun.
  - injection Hrun as <- <-. repeat split; auto.
  - cbn [epochs] in Hrun.
    destruct (__iter__ self s) as [[ys self1] e] eqn:Hs.
    destruct (epochs self1 rest) as [yss1 self2] eqn:Hrest.
    injection Hrun as <- <-.
    destruct (iter_spec s self ys self1 e Hinv Hs) as (Hinv1 & Hset1 & Hys & _).
    destruct (IH self1 yss1 self2 Hinv1 Hrest) as (Hinv2 & Hset2 & Hyss).
    split; [exact Hinv2|].
    split; [exact (same_settings_trans _ _ _ Hset1 Hset2)|].
    constructor; [exact Hys|].
    eapply Forall_impl; [|exact Hyss]. intros bs Hbs.
    eapply Forall_impl; [|exact Hbs]. intros b Hb.
    destruct Hset1 as (H1 & H2 & H3 & _).
    unfold bucketed in *. now rewrite H1, H2, H3 in Hb.
Qed.

Lemma init_inv (ds : list entry) (bs ibs : Z) (dl : bool) self0 :
  ImageVideoSampler.__init__ ds bs ibs dl = Ok self0 ->
  sampler_inv self0 /\ 0 < bs
  /\ forall dl', ImageVideoSampler.__init__ ds bs ibs dl'
                 = Ok (with_drop_last dl' self0).
Proof.
  unfold ImageVideoSampler.__init__. destruct (bs <=? 0) eqn:E; [discriminate|].
  intros [= <-]. apply Z.leb_gt in E. repeat split; auto.
  exists [], []. repeat split; constructor.
Qed.

(** C6 (as amended).  In every pass over the sampler, the first or a later
    one, every batch that [__iter__] yields is bucketed: its indices refer
    to entries of one content type, a 'video' batch has exactly
    [batch_size] indices and an 'image' batch exactly [image_batch_size].
    An index still sitting in a bucket when the base sampler is exhausted
    is not yielded in that pass, whatever [drop_last] is: the batches of
    the pass and the buckets after it hold, together, the indices that
    were in the buckets before the pass and those the base sampler
    produced.  The index stays in [self.bucket] for the next pass. *)
Theorem C6_batches_bucketed (ds : list entry) (bs ibs : Z) (dl : bool)
    self0 (earlier : list (list Z)) (before : list (list (list Z))) self
    (sampler : list Z) (ys : list (list Z)) self' (e : option exn) :
  ImageVideoSampler.__init__ ds bs ibs dl = Ok self0 ->
  epochs self0 earlier = (before, self) ->
  __iter__ self sampler = (ys, self', e) ->
  Forall (bucketed self0) ys
  /\ (e = None ->
      Permutation (concat ys ++ leftover self') (leftover self ++ sampler))
  /\ (forall dl',
        exists self0',
          ImageVideoSampler.__init__ ds bs ibs dl' = Ok self0'
          /\ fst (epochs self0' (earlier ++ [sampler])) = before ++ [ys]).
Proof.
  intros Hinit Hearlier Hrun.
  destruct (init_inv ds bs ibs dl self0 Hinit) as (Hinv0 & _ & Hdl).
  destruct (epochs_inv earlier self0 before self Hinv0 Hearlier)
    as (Hinv & Hset & _).
  destruct (iter_spec sampler self ys self' e Hinv Hrun)
    as (_ & _ & Hys & Hperm).
  split; [|split; [exact Hperm|]].
  - eapply Forall_impl; [|exact Hys]. intros b Hb.
    destruct Hset as (H1 & H2 & H3 & _).
    unfold bucketed in *. now rewrite <- H1, <- H2, <- H3.
  - intro dl'. exists (with_drop_last dl' self0). split; [apply Hdl|].
    rewrite epochs_drop_last.
    assert (Happ : forall ss1 s0 yss1 s1 ss2,
               epochs s0 ss1 = (yss1, s1) ->
               fst (epochs s0 (ss1 ++ ss2)) = yss1 ++ fst (epochs s1 ss2)).
    { induction ss1 as [|s ss1 IH]; intros s0 yss1 s1 ss2 H.
      - injection H as <- <-. reflexivity.
      - cbn [epochs app] in *.
        destruct (__iter__ s0 s) as [[ys0 s0'] e0].
        destruct (epochs s0' ss1) as [yss0 s0''] eqn:E0.
        injection H as <- <-.
        specialize (IH s0' yss0 s0'' ss2 E0).
        destruct (epochs s0' (ss1 ++ ss2)) as [yy ss]. cbn in *.
        now rewrite IH. }
    specialize (Happ earlier self0 before self [sampler] Hearlier).
    destruct (epochs self0 (earlier ++ [sampler])) as [yy ss].
    cbn [fst] in *. rewrite Happ. cbn [epochs]. rewrite Hrun. reflexivity.
Qed.

End SamplerFacts.

(* ===================================================================== *)
(** * Properties of [ImageVideoDataset.get_batch] and [__getitem__]       *)
(* ===================================================================== *)

Section GetitemFacts.
Import dataset_image_video DatasetSpec ImageVideoDataset.

Implicit Types (w : World) (self : ImageVideoDataset.t) (st : state).

Lemma list_getitem_in_range {A : Type} (l : list A) (i : Z) :
  0 <= i < len l -> exists a, list_getitem l i = Ok a.
Proof.
  intros [H0 H1]. unfold list_getitem.
  destruct (i <? 0) eqn:E; [apply Z.ltb_lt in E; lia|].
  destruct ((i <? 0) || (len l <=? i)) eqn:E2.
  - apply orb_true_iff in E2. destruct E2 as [E2|E2];
      [apply Z.ltb_lt in E2 | apply Z.leb_le in E2]; lia.
  - destruct (nth_error l (Z.to_nat i)) as [a|] eqn:En; [now exists a|].
    apply nth_error_None in En. unfold len in H1. lia.
Qed.

(** The entry that [self.dataset[idx % len(self.dataset)]] reads, for a
    dataset that is not empty. *)
Lemma entry_of_idx self (idx : Z) :
  dataset self <> [] ->
  exists data,
    py_mod idx (len (dataset self)) = Ok (idx mod len (dataset self))
    /\ list_getitem (dataset self) (idx mod len (dataset self)) = Ok data.
Proof.
  intro Hne.
  assert (Hlen : 0 < len (dataset self)).
  { pose proof (len_nonneg (dataset self)).
    destruct (Z.eq_dec (len (dataset self)) 0) as [E|E];
      [apply len_nil_iff in E; contradiction | lia]. }
  destruct (list_getitem_in_range (dataset self) (idx mod len (dataset self)))
    as (data & Hdata); [apply Z.mod_pos_bound; lia|].
  exists data. split; [|exact Hdata].
  unfold py_mod. destruct (len (dataset self) =? 0) eqn:E;
    [apply Z.eqb_eq in E; lia | reflexivity].
Qed.

Lemma dict_setitem_nonempty {V : Type} (d : dict V) (k : string) (v : V) :
  (0 <? len (dict_setitem d k v)) = true.
Proof.
  destruct d as [|[k' v'] d']; cbn [dict_setitem]; [reflexivity|].
  destruct (String.eqb k' k); unfold len; cbn [List.length]; apply Z.ltb_lt; lia.
Qed.

(** A sample that [attempt] hands back is never empty: the test of line
    279 always leaves the loop. *)
Lemma attempt_sample_nonempty w self (data_type : string) (idx : Z) st
    (sample : dict pyval) (ty : pyval) st' :
  attempt w self data_type idx st = (Ok (sample, ty), st') ->
  (0 <? len sample) = true.
Proof.
  intro H. unfold attempt in H. unfold_monad_in H.
  repeat (break_match H; try discriminate).
  all: injection H as <- _ _; first [reflexivity | apply dict_setitem_nonempty].
Qed.

(** On an entry that is not a video, [get_batch] raises or returns the
    three values of line 249. *)
Lemma get_batch_not_video w self (idx : Z) (data : entry) st :
  content_type_of data <> "video" ->
  (exists e st', get_batch w self idx data st = (Raise e, st'))
  \/ (exists a b c st', get_batch w self idx data st = (Ok [a; b; c], st')).
Proof.
  intro Hty. apply String.eqb_neq in Hty. unfold get_batch. rewrite Hty.
  cbv beta iota zeta delta [bind lift ret raise random next_raw].
  destruct (dict_getitem data "file_path") as [file_path|e]; [|left; eauto].
  destruct (dict_getitem data "text") as [text|e]; [|left; eauto].
  destruct (image_open w _) as [e|]; [left; eauto|].
  right. eauto.
Qed.

(** The image branch of [get_batch] when the file opens: the loaded image,
    transformed unless [enable_bucket], the caption, emptied when the draw
    falls under [text_drop_ratio], and 'image'. *)
Lemma get_batch_image_opens w self (idx : Z) (data : entry) st
    (file_path text : string) :
  content_type_of data <> "video" ->
  dict_lookup data "file_path" = Some file_path ->
  dict_lookup data "text" = Some text ->
  image_open w (match data_root self with
                | Some root => os_path_join root file_path
                | None => file_path
                end) = None ->
  get_batch w self idx data st
  = (Ok [VArray (let image :=
                   ImageRGB (match data_root self with
                             | Some root => os_path_join root file_path
                             | None => file_path
                             end) in
                 if negb (enable_bucket self) then ImageTransforms image
                 else ExpandDims image);
         VStr (if Qltb (random_of_raw (rng st (cursor st)))
                       (text_drop_ratio self)
               then "" else text);
         VStr "image"],
     {| rng := rng st; cursor := S (cursor st); printed := printed st |}).
Proof.
  intros Hty Hpath Htext Hopen. apply String.eqb_neq in Hty.
  unfold get_batch, dict_getitem. rewrite Hty, Hpath, Htext.
  cbv beta iota zeta delta [bind lift ret raise random next_raw].
  now rewrite Hopen.
Qed.

(** Without [cache_dir] the video branch of [get_batch] never returns:
    when the frames are read, the [return] of line 237 finds
    [vid_cache_path] unbound. *)
Lemma read_video_without_cache_raises w self (idx : Z)
    (video_dir text : string) st :
  exists e st',
    read_video w self idx video_dir text None None st = (Raise e, st').
Proof.
  unfold read_video.
  cbv beta iota zeta delta [bind lift ret raise print random next_raw].
  destruct (video_reader_len w video_dir) as [n|e]; [|eauto].
  destruct (batch_index_of self n st) as [[batch_index|e] st1]; [|eauto].
  destruct (read_frames w video_dir batch_index) as [| |e]; [|eauto|eauto].
  destruct (shape0 _ <? video_sample_n_frames self); eauto.
Qed.

(** A tuple of three values cannot be assigned to eight names. *)
Lemma unpack8_three (a b c : pyval) :
  unpack8 [a; b; c]
  = Raise (ValueError "not enough values to unpack (expected 8)").
Proof. reflexivity. Qed.

(** An attempt on behalf of a content type other than 'video' raises. *)
Lemma attempt_not_video_raises w self (data_type : string) (idx : Z) st :
  data_type <> "video" ->
  exists e st', attempt w self data_type idx st = (Raise e, st').
Proof.
  intro Hty. unfold attempt.
  cbv beta iota zeta delta [bind lift ret raise].
  destruct (py_mod idx (len (dataset self))) as [i|e]; [|eauto].
  destruct (list_getitem (dataset self) i) as [data|e]; [|eauto].
  destruct (String.eqb_spec (content_type_of data) data_type) as [E|E];
    cbn [negb]; [|eauto].
  destruct (get_batch_not_video w self idx data st) as
    [(e & st1 & ->)|(a & b & c & st1 & ->)]; [congruence | eauto |].
  rewrite unpack8_three. eauto.
Qed.

(** The [except] clause of [__getitem__] on a dataset that is not empty:
    it prints and draws the next index, and does not raise. *)
Lemma handler_runs self (idx : Z) (e : exn) st :
  dataset self <> [] ->
  length self = len (dataset self) ->
  exists data idx',
    list_getitem (dataset self) (idx mod len (dataset self)) = Ok data
    /\ randint_of_raw 0 (length self - 1) (rng st (cursor st)) = Ok idx'
    /\ 0 <= idx' <= length self - 1
    /\ (i <- lift (py_mod idx (len (dataset self))) ;;
        data <- lift (list_getitem (dataset self) i) ;;
        print (PrintEntry e data) ;;;
        randint 0 (length self - 1)) st
       = (Ok idx',
          {| rng := rng st; cursor := S (cursor st);
             printed := printed st ++ [PrintEntry e data] |}).
Proof.
  intros Hne Hlen.
  destruct (entry_of_idx self idx Hne) as (data & Hmod & Hdata).
  assert (Hpos : 0 <= length self - 1).
  { rewrite Hlen. pose proof (len_nonneg (dataset self)).
    destruct (Z.eq_dec (len (dataset self)) 0) as [E|E];
      [apply len_nil_iff in E; contradiction | lia]. }
  destruct (randint_of_raw_range 0 (length self - 1) (rng st (cursor st)) Hpos)
    as (idx' & Hri & Hrange).
  exists data, idx'. repeat split; try assumption; try lia.
  cbv beta iota zeta delta [bind lift ret raise print randint next_raw].
  rewrite Hmod, Hdata. cbn [rng cursor printed]. now rewrite Hri.
Qed.

(** The loop never lets an exception out. *)
Lemma getitem_loop_never_propagates w self (data_type : string) :
  dataset self <> [] ->
  length self = len (dataset self) ->
  forall (fuel : nat) (idx : Z) st (e : exn) st',
    getitem_loop w self fuel data_type idx st <> (Propagated e, st').
Proof.
  intros Hne Hlen. induction fuel as [|fuel IH]; intros idx st e st';
    cbn [getitem_loop]; [discriminate|].
  destruct (attempt w self data_type idx st) as [[[sample ty]|e1] st1] eqn:Ha.
  - rewrite (attempt_sample_nonempty _ _ _ _ _ _ _ _ Ha). discriminate.
  - destruct (handler_runs self idx e1 st1 Hne Hlen)
      as (data & idx' & _ & _ & _ & ->). apply IH.
Qed.

(** The loop returns exactly the fault-tolerant runs. *)
Lemma getitem_loop_sound w self (data_type : string) :
  dataset self <> [] ->
  length self = len (dataset self) ->
  forall (fuel : nat) (idx : Z) st (sample : dict pyval) st',
    getitem_loop w self fuel data_type idx st = (Returned sample, st') ->
    fault_tolerant_run w self data_type idx st sample st'.
Proof.
  intros Hne Hlen. induction fuel as [|fuel IH]; intros idx st sample st' Hrun;
    cbn [getitem_loop] in Hrun; [discriminate|].
  destruct (attempt w self data_type idx st) as [[[s ty]|e1] st1] eqn:Ha.
  - rewrite (attempt_sample_nonempty _ _ _ _ _ _ _ _ Ha) in Hrun.
    injection Hrun as <- <-. eapply ft_done, Ha.
  - destruct (handler_runs self idx e1 st1 Hne Hlen)
      as (data & idx' & Hdata & Hri & Hrange & Hh).
    rewrite Hh in Hrun. eapply ft_retry; eauto.
Qed.

Lemma getitem_loop_complete w self (data_type : string) :
  dataset self <> [] ->
  length self = len (dataset self) ->
  forall (idx : Z) st (sample : dict pyval) st',
    fault_tolerant_run w self data_type idx st sample st' ->
    exists fuel,
      getitem_loop w self fuel data_type idx st = (Returned sample, st').
Proof.
  intros Hne Hlen idx st sample st' Hrun.
  induction Hrun as [idx st sample ty st' Ha
                    |idx st e st1 data idx' sample st' Ha Hdata Hri Hrange _ IH].
  - exists 1%nat. cbn [getitem_loop]. rewrite Ha.
    now rewrite (attempt_sample_nonempty _ _ _ _ _ _ _ _ Ha).
  - destruct IH as (fuel & IH). exists (S fuel). cbn [getitem_loop].
    rewrite Ha.
    destruct (handler_runs self idx e st1 Hne Hlen)
      as (data' & idx'' & Hdata' & Hri' & _ & ->).
    assert (data' = data) by congruence.
    assert (idx'' = idx') by congruence. subst. exact IH.
Qed.

(** On behalf of a content type other than 'video' the loop never
    returns. *)
Lemma getitem_loop_not_video w self (data_type : string) :
  data_type <> "video" ->
  forall (fuel : nat) (idx : Z) st (sample : dict pyval) st',
    getitem_loop w self fuel data_type idx st <> (Returned sample, st').
Proof.
  intro Hty. induction fuel as [|fuel IH]; intros idx st sample st';
    cbn [getitem_loop]; [discriminate|].
  destruct (attempt_not_video_raises w self data_type idx st Hty)
    as (e & st1 & ->).
  match goal with
  | |- context [match ?h with _ => _ end] => destruct h as [[idx'|e'] st2]
  end; [apply IH | discriminate].
Qed.

(** C4.  [__getitem__] on a dataset that is not empty is fault-tolerant:
    it never lets out an exception raised while a sample is loaded;
    whenever [get_batch] or the assembly of the sample raises, it prints
    the error, draws a new index in [0, self.length - 1] and tries again;
    it returns only once an attempt has completed without raising, and
    then with the sample of that attempt.  The call is the loop started
    for the content type of the entry asked for; every attempt of the
    loop that raises, whether the call returns in the end or not, is
    followed by the print of the error and of the entry, by the draw, and
    by the rest of the loop on the index drawn; every attempt that
    completes ends the loop with its sample. *)
Theorem C4_getitem_fault_tolerant w (cfg : Config) (annotations : list entry)
    (idx : Z) st :
  let self := __init__ cfg annotations in
  dataset self <> [] ->
  exists data,
    list_getitem (dataset self) (idx mod len (dataset self)) = Ok data
    /\ (forall (fuel : nat) (e : exn) st',
          __getitem__ w self fuel idx st <> (Propagated e, st'))
    /\ (forall (sample : dict pyval) st',
          (exists fuel, __getitem__ w self fuel idx st = (Returned sample, st'))
          <-> fault_tolerant_run w self (content_type_of data) idx st
                                 sample st')
    /\ (forall fuel : nat,
          __getitem__ w self fuel idx st
          = getitem_loop w self fuel (content_type_of data) idx st)
    /\ (forall (data_type : string) (i : Z) st0 (e : exn) st1,
          attempt w self data_type i st0 = (Raise e, st1) ->
          exists (failed : entry) (idx' : Z),
            list_getitem (dataset self) (i mod len (dataset self)) = Ok failed
            /\ randint_of_raw 0 (length self - 1) (rng st1 (cursor st1))
               = Ok idx'
            /\ 0 <= idx' <= length self - 1
            /\ forall fuel : nat,
                 getitem_loop w self (S fuel) data_type i st0
                 = getitem_loop w self fuel data_type idx'
                     {| rng := rng st1; cursor := S (cursor st1);
                        printed := printed st1 ++ [PrintEntry e failed] |})
    /\ (forall (data_type : string) (i : Z) st0 (sample : dict pyval)
               (ty : pyval) st1,
          attempt w self data_type i st0 = (Ok (sample, ty), st1) ->
          forall fuel : nat,
            getitem_loop w self (S fuel) data_type i st0
            = (Returned sample, st1)).
Proof.
  intros self Hne.
  assert (Hlen : length self = len (dataset self)) by reflexivity.
  destruct (entry_of_idx self idx Hne) as (data & Hmod & Hdata).
  exists data. split; [exact Hdata|].
  assert (Hget : forall fuel,
             __getitem__ w self fuel idx st
             = getitem_loop w self fuel (content_type_of data) idx st).
  { intro fuel. unfold __getitem__.
    cbv beta iota zeta delta [bind lift]. now rewrite Hmod, Hdata. }
  split; [|split; [|split; [exact Hget | split]]].
  - intros fuel e st'. rewrite Hget.
    now apply getitem_loop_never_propagates.
  - intros sample st'. split.
    + intros (fuel & Hrun). rewrite Hget in Hrun.
      eapply getitem_loop_sound; eauto.
    + intro Hrun.
      destruct (getitem_loop_complete w self _ Hne Hlen _ _ _ _ Hrun)
        as (fuel & Hloop).
      exists fuel. now rewrite Hget.
  - intros data_type i st0 e st1 Ha.
    destruct (handler_runs self i e st1 Hne Hlen)
      as (failed & idx' & Hfailed & Hri & Hrange & Hh).
    exists failed, idx'. split; [exact Hfailed|]. split; [exact Hri|].
    split; [exact Hrange|].
    intro fuel. cbn [getitem_loop]. rewrite Ha. now rewrite Hh.
  - intros data_type i st0 sample ty st1 Ha fuel.
    cbn [getitem_loop]. rewrite Ha.
    now rewrite (attempt_sample_nonempty _ _ _ _ _ _ _ _ Ha).
Qed.

(** C5, on the code as it is.  For a dataset entry of type 'image' whose
    file opens, [get_batch] returns the loaded image (transformed unless
    [enable_bucket]), the caption (emptied when the draw falls under
    [text_drop_ratio]) and 'image', three values; [__getitem__] assigns
    them to eight names, which raises ValueError inside the [try], and
    the call never returns a sample. *)
Theorem C5_image_entry_never_returned w (cfg : Config)
    (annotations : list entry) (idx : Z) st (data : entry)
    (file_path text : string) :
  let self := __init__ cfg annotations in
  list_getitem (dataset self) (idx mod len (dataset self)) = Ok data ->
  content_type_of data = "image" ->
  dict_lookup data "file_path" = Some file_path ->
  dict_lookup data "text" = Some text ->
  image_open w (match data_root self with
                | Some root => os_path_join root file_path
                | None => file_path
                end) = None ->
  (exists (image : array) (caption : string) st1,
      get_batch w self idx data st
      = (Ok [VArray image; VStr caption; VStr "image"], st1)
      /\ attempt w self "image" idx st
         = (Raise (ValueError "not enough values to unpack (expected 8)"),
            st1))
  /\ (forall (fuel : nat) (sample : dict pyval) st',
        __getitem__ w self fuel idx st <> (Returned sample, st')).
Proof.
  intros self Hdata Hty Hpath Htext Hopen.
  assert (Hne : dataset self <> []).
  { intro E. rewrite E in Hdata. unfold list_getitem in Hdata.
    destruct (_ || _) in Hdata; [discriminate|].
    destruct (Z.to_nat _) in Hdata; discriminate. }
  destruct (entry_of_idx self idx Hne) as (data' & Hmod & Hdata').
  assert (data' = data) by congruence. subst data'.
  assert (Hnv : content_type_of data <> "video") by (rewrite Hty; discriminate).
  split.
  - do 3 eexists. split.
    + apply (get_batch_image_opens w self idx data st file_path text);
        assumption.
    + unfold attempt. cbv beta iota zeta delta [bind lift ret raise].
      rewrite Hmod, Hdata, Hty, String.eqb_refl. cbn [negb].
      rewrite (get_batch_image_opens w self idx data st file_path text)
        by assumption.
      reflexivity.
  - intros fuel sample st'. unfold __getitem__.
    cbv beta iota zeta delta [bind lift]. rewrite Hmod, Hdata.
    apply getitem_loop_not_video. now rewrite Hty.
Qed.

End GetitemFacts.

(** ** Concrete runs of the sampler and of the dataset *)

Section DatasetExamples.
Import dataset_image_video DatasetSpec.

(** C6 as stated fails from the second pass on.  A dataset of three
    images, batches of two: the first pass over the indices 0, 1, 2 yields
    [0, 1] and leaves 2 in the image bucket; in the second pass, over the
    indices 0 and 1 only, [__iter__] yields [2, 0]. *)
Lemma C6_counterexample :
  exists self0,
    ImageVideoSampler.__init__
      [an_image "a.png" "a"; an_image "b.png" "b"; an_image "c.png" "c"]
      2 2 false = Ok self0
    /\ let '(ys1, self1, e1) := ImageVideoSampler.__iter__ self0 [0; 1; 2] in
       let '(ys2, self2, e2) := ImageVideoSampler.__iter__ self1 [0; 1] in
       ys1 = [[0; 1]] /\ e1 = None
       /\ leftover self1 = [2]
       /\ ~ In 2 [0; 1]
       /\ ys2 = [[2; 0]]
       /\ In 2 (concat ys2).
Proof.
  eexists. split; [reflexivity|]. vm_compute.
  repeat split; auto. intros [H|[H|[]]]; discriminate.
Qed.

(** Two images and a video, video batches of one and image batches of
    two: the first pass yields the video, then the two images. *)
Lemma C6_batches_bucketed_witness :
  exists self0,
    ImageVideoSampler.__init__
      [an_image "a.png" "a"; a_video "b.mp4" "b"; an_image "c.png" "c"]
      1 2 true = Ok self0
    /\ Forall (bucketed self0) [[1]; [0; 2]].
Proof.
  eexists. split; [reflexivity|].
  match goal with
  | |- Forall (bucketed ?s) ?ys =>
      destruct (C6_batches_bucketed
                  [an_image "a.png" "a"; a_video "b.mp4" "b"; an_image "c.png" "c"]
                  1 2 true s [] [] s [0; 1; 2] ys
                  (snd (fst (ImageVideoSampler.__iter__ s [0; 1; 2]))) None)
        as (H & _); [reflexivity | reflexivity | reflexivity | exact H]
  end.
Defined.

Import ImageVideoDataset.

(** One video and two images: with [video_repeat = 2] the dataset has
    four entries, with the default arguments the two images. *)
Lemma C9_dataset_entries_witness :
  let cfg :=
    {| cfg_data_root := None; cfg_video_sample_stride := 4;
       cfg_video_sample_n_frames := 16; cfg_video_repeat := 2;
       cfg_text_drop_ratio := 0; cfg_enable_bucket := false;
       cfg_video_length_drop_start := 1 # 10;
       cfg_video_length_drop_end := 9 # 10; cfg_cache_dir := None |} in
  let annotations :=
    [a_video "v.mp4" "v"; an_image "a.png" "a"; an_image "b.png" "b"] in
  len (dataset (__init__ cfg annotations)) = 2 + 2 * 1
  /\ dataset (__init__ default_config annotations)
     = [an_image "a.png" "a"; an_image "b.png" "b"].
Proof.
  intros cfg annotations. split.
  - destruct (C9_dataset_entries cfg annotations) as (_ & H & _);
      [cbn; lia | exact H].
  - destruct (C9_dataset_entries default_config annotations)
      as (_ & _ & _ & _ & H); [cbn; lia|].
    destruct (H eq_refl) as [H1 _]. exact H1.
Defined.

(** A video of 100 frames read with the default arguments. *)
Lemma C10_frame_indices_in_range_witness :
  let self := __init__ default_config [] in
  exists (batch_index : list Z) (st' : state),
    batch_index_of self 100 (demo_state (fun _ => 1000%nat))
    = (Ok batch_index, st')
    /\ len batch_index = min_sample_n_frames_of self 100
    /\ Forall (fun i => 0 <= i <= Z.of_nat 100 - 1) batch_index.
Proof.
  intro self.
  apply (C10_frame_indices_in_range self 100 (demo_state (fun _ => 1000%nat)));
    vm_compute; solve [reflexivity | discriminate].
Defined.

(** A bad video followed by a cached one, in [faulty_world]: the attempt
    on index 0 raises, the error and the entry are printed, the index 1 is
    drawn, and the second attempt returns the cached sample. *)
Lemma C4_getitem_fault_tolerant_witness :
  let cfg :=
    {| cfg_data_root := Some "root"; cfg_video_sample_stride := 4;
       cfg_video_sample_n_frames := 16; cfg_video_repeat := 1;
       cfg_text_drop_ratio := 0; cfg_enable_bucket := false;
       cfg_video_length_drop_start := 1 # 10;
       cfg_video_length_drop_end := 9 # 10;
       cfg_cache_dir := Some "cache" |} in
  let self :=
    __init__ cfg [a_video "set/bad.mp4" "bad"; a_video "set/good.mp4" "good"] in
  let st := demo_state (fun _ => 1%nat) in
  let st' :=
    {| rng := fun _ => 1%nat; cursor := 1;
       printed := [PrintEntry (OSError "cannot open")
                              (a_video "set/bad.mp4" "bad")] |} in
  (forall (fuel : nat) (e : exn) st'',
      __getitem__ faulty_world self fuel 0 st <> (Propagated e, st''))
  /\ attempt faulty_world self "video" 0 st
     = (Raise (OSError "cannot open"), st)
  /\ (forall fuel : nat,
        getitem_loop faulty_world self (S fuel) "video" 0 st
        = getitem_loop faulty_world self fuel "video" 1 st')
  /\ exists sample,
       __getitem__ faulty_world self 2 0 st = (Returned sample, st')
       /\ dict_lookup sample "idx" = Some (VInt 1)
       /\ dict_lookup sample "text" = Some (VStr "good")
       /\ fault_tolerant_run faulty_world self "video" 0 st sample st'.
Proof.
  intros cfg self st st'.
  destruct (C4_getitem_fault_tolerant faulty_world cfg
              [a_video "set/bad.mp4" "bad"; a_video "set/good.mp4" "good"]
              0 st)
    as (data & Hdata & Hnever & Hiff & _ & Hfail & _); [discriminate|].
  assert (Ha : attempt faulty_world self "video" 0 st
               = (Raise (OSError "cannot open"), st))
    by (vm_compute; reflexivity).
  split; [exact Hnever|]. split; [exact Ha|]. split.
  - destruct (Hfail "video" 0 st (OSError "cannot open") st Ha)
      as (failed & idx' & Hf & Hr & _ & Hstep).
    vm_compute in Hf. injection Hf as <-.
    vm_compute in Hr. injection Hr as <-.
    exact Hstep.
  - eexists. split; [vm_compute; reflexivity|].
    split; [reflexivity|]. split; [reflexivity|].
    injection Hdata as <-.
    apply Hiff. exists 2%nat. vm_compute. reflexivity.
Defined.

(** The failing input of C5: a dataset of one image whose file opens.
    [get_batch] loads it, the attempt raises, and three iterations later
    the loop is still running, with three errors printed. *)
Lemma C5_image_entry_never_returned_witness :
  let self := __init__ default_config [an_image "cat.png" "a cat"] in
  let st := demo_state (fun n => n) in
  (exists (image : array) (caption : string) st1,
      get_batch demo_world self 0 (an_image "cat.png" "a cat") st
      = (Ok [VArray image; VStr caption; VStr "image"], st1)
      /\ attempt demo_world self "image" 0 st
         = (Raise (ValueError "not enough values to unpack (expected 8)"),
            st1))
  /\ fst (__getitem__ demo_world self 3 0 st) = Running
  /\ List.length (printed (snd (__getitem__ demo_world self 3 0 st))) = 3%nat.
Proof.
  intros self st.
  destruct (C5_image_entry_never_returned demo_world default_config
              [an_image "cat.png" "a cat"] 0 st
              (an_image "cat.png" "a cat") "cat.png" "a cat")
    as (H & _); [reflexivity | reflexivity | reflexivity | reflexivity
                | reflexivity |].
  split; [exact H|]. split; vm_compute; reflexivity.
Defined.

End DatasetExamples.

(* ===================================================================== *)
(** * Further properties of [Net2NetTransformer]                          *)
(* ===================================================================== *)

Section Net2NetMoreFacts.
Import lm_transformer Net2NetSpec dataset_image_video lm_transformer_rest.

Context {Logits : Type}.
Implicit Type self : @Net2NetTransformer Logits.

Lemma slice_drop_last (A : Type) (l : list A) :
  slice l None (Some (-1)) = removelast l.
Proof.
  unfold slice, clamp_index. cbn [Z.ltb Z.compare].
  replace (Z.to_nat (Z.max 0 (-1 + len l) - 0)) with (List.length l - 1)%nat
    by (unfold len; lia).
  cbn [Z.to_nat skipn].
  induction l as [|a l IH]; [reflexivity|].
  destruct l as [|b l]; [reflexivity|].
  cbn [List.length Nat.sub firstn removelast] in *.
  rewrite Nat.sub_0_r in IH. now rewrite IH.
Qed.

Lemma slice_from_skipn (A : Type) (l : list A) (k : Z) :
  0 <= k <= len l -> slice l (Some k) None = skipn (Z.to_nat k) l.
Proof.
  intros Hk. unfold slice, clamp_index.
  destruct (k <? 0) eqn:E; [lia|].
  rewrite Z.min_l by lia.
  apply firstn_all2. rewrite length_skipn. unfold len. lia.
Qed.

Lemma splice_prefix self d (c z : list Z) :
  exists pre,
    splice self d c z
    = (pre ++ corrupt self d (shift_z self z), len pre - 1, shift_z self z)
    /\ (c <> [] -> pre <> [])
    /\ Forall (fun t => In t (shift_c self c)
                       \/ (starts_with_sos self = true /\ t = sos_token self))
              pre.
Proof.
  assert (Hc : Forall (fun t => In t (shift_c self c)
                         \/ (starts_with_sos self = true
                             /\ t = sos_token self))
                      (shift_c self c))
    by (apply Forall_forall; auto).
  assert (Hs : starts_with_sos self = true ->
               Forall (fun t => In t (shift_c self c)
                         \/ (starts_with_sos self = true
                             /\ t = sos_token self))
                      [sos_token self])
    by (intros E; constructor; auto).
  assert (Hne : c <> [] -> shift_c self c <> []).
  { intros H E. apply H. apply (f_equal (@List.length Z)) in E.
    rewrite shift_c_length in E. now destruct c. }
  unfold splice, SOSProvider_encode.
  destruct (starts_with_sos self) eqn:Es.
  - destruct (p_drop_cond self) as [p|];
      [destruct (Qltb p (u_drop d))|].
    + destruct (class_first self).
      * exists (shift_c self c ++ [sos_token self]).
        rewrite <- app_assoc. split; [|split].
        -- do 2 f_equal. rewrite len_app. change (len [sos_token self]) with 1. lia.
        -- intros _ E. now destruct (shift_c self c).
        -- apply Forall_app; auto.
      * exists ([sos_token self] ++ shift_c self c).
        rewrite <- app_assoc. split; [|split].
        -- do 2 f_equal. rewrite len_app. change (len [sos_token self]) with 1. lia.
        -- intros _ E. discriminate.
        -- apply Forall_app; auto.
    + exists (shift_c self c). split; [|split]; auto.
    + destruct (class_first self).
      * exists (shift_c self c ++ [sos_token self]).
        rewrite <- app_assoc. split; [|split].
        -- do 2 f_equal. rewrite len_app. change (len [sos_token self]) with 1. lia.
        -- intros _ E. now destruct (shift_c self c).
        -- apply Forall_app; auto.
      * exists ([sos_token self] ++ shift_c self c).
        rewrite <- app_assoc. split; [|split].
        -- do 2 f_equal. rewrite len_app. change (len [sos_token self]) with 1. lia.
        -- intros _ E. discriminate.
        -- apply Forall_app; auto.
  - exists (shift_c self c). split; [|split]; auto.
Qed.

Lemma removelast_app_nonempty (A : Type) (l1 l2 : list A) :
  l2 <> [] -> removelast (l1 ++ l2) = l1 ++ removelast l2.
Proof. intros H. now apply removelast_app. Qed.

(** X1.  The next-token layout of [forward], in every branch: the sequence
    built from a conditioning and a visual row that are not empty is a
    prefix [pre] that is not empty, made of shifted conditioning tokens and,
    with [starts_with_sos], the sos token, followed by the visual input
    tokens [a]; the transformer runs on [pre] and all of [a] but its last
    token, and the outputs returned are those from the last prefix position
    on.  So the output paired with target 0 sits on the last token of the
    prefix, and the output paired with target j+1 on the input token a[j]:
    no output sits on the token it is to predict. *)
Theorem X1_forward_next_token_alignment self d (x c : list Z) (is_image : bool) :
  positionwise (transformer self) ->
  encode_to_c self c is_image <> [] ->
  encode_to_z self x is_image <> [] ->
  let target := shift_z self (encode_to_z self x is_image) in
  let a := corrupt self d target in
  exists pre,
    pre <> []
    /\ Forall (fun t => In t (shift_c self (encode_to_c self c is_image))
                       \/ (starts_with_sos self = true
                           /\ t = sos_token self)) pre
    /\ fst (fst (splice self d (encode_to_c self c is_image)
                       (encode_to_z self x is_image))) = pre ++ a
    /\ forward self d x c is_image
       = Ok (skipn (List.length pre - 1)
                   (run (transformer self) (pre ++ removelast a)),
             target)
    /\ forall j,
         (j < List.length target)%nat ->
         nth_error (pre ++ removelast a) (List.length pre - 1 + j)
         = match j with
           | O => nth_error pre (List.length pre - 1)
           | S j' => nth_error a j'
           end.
Proof.
  intros Hpos Hc Hz target a.
  destruct (splice_prefix self d (encode_to_c self c is_image)
              (encode_to_z self x is_image)) as (pre & Hsp & Hne & Hall).
  specialize (Hne Hc).
  assert (Ha : a <> []).
  { intros E. apply (f_equal (@List.length Z)) in E. unfold a, target in E.
    rewrite corrupt_length, shift_z_length in E.
    now destruct (encode_to_z self x is_image). }
  assert (Hla : List.length a = List.length target)
    by (unfold a; apply corrupt_length).
  assert (Hpre : (0 < List.length pre)%nat)
    by (destruct pre; [congruence | cbn; lia]).
  assert (Hapos : (0 < List.length a)%nat)
    by (destruct a; [congruence | cbn; lia]).
  exists pre. split; [exact Hne|]. split; [exact Hall|].
  split; [now rewrite Hsp|]. split.
  - unfold forward. fold target in Hsp. fold a in Hsp. rewrite Hsp.
    rewrite slice_drop_last, removelast_app_nonempty by exact Ha.
    assert (Hlr : List.length (removelast a) = (List.length a - 1)%nat).
    { destruct (exists_last Ha) as (a0 & t & E). rewrite E.
      rewrite removelast_last, length_app. cbn. lia. }
    assert (Hrun : List.length (run (transformer self) (pre ++ removelast a))
                   = (List.length pre + (List.length a - 1))%nat)
      by (rewrite Hpos, length_app, Hlr; reflexivity).
    rewrite slice_from_skipn by (unfold len; rewrite Hrun; lia).
    replace (Z.to_nat (len pre - 1)) with (List.length pre - 1)%nat
      by (unfold len; lia).
    unfold len. rewrite length_skipn, Hrun.
    replace (Z.of_nat (List.length pre + (List.length a - 1)
                       - (List.length pre - 1)))
      with (Z.of_nat (List.length target)) by lia.
    now rewrite Z.eqb_refl.
  - intros j Hj. destruct j as [|j'].
    + rewrite Nat.add_0_r. apply nth_error_app1. lia.
    + replace (List.length pre - 1 + S j')%nat with (List.length pre + j')%nat
        by lia.
      rewrite nth_error_app2 by lia.
      replace (List.length pre + j' - List.length pre)%nat with j' by lia.
      destruct (exists_last Ha) as (a0 & t & E). rewrite E.
      rewrite removelast_last. symmetry. apply nth_error_app1.
      rewrite E, length_app in Hla. cbn in Hla. lia.
Qed.


Lemma corrupt_elements self d (zs : list Z) (P : Z -> Prop) :
  Forall P zs -> (forall j, P (r_indices d j)) -> Forall P (corrupt self d zs).
Proof.
  intros Hz Hr. unfold corrupt.
  destruct (training self && Qltb (pkeep self) 1); [|exact Hz].
  apply Forall_map, Forall_forall. intros [j t] Hin. cbn [fst snd].
  apply in_combine_r in Hin.
  destruct (mask d j); cbn [Z.b2z].
  - replace (1 * t + (1 - 1) * r_indices d j) with t by lia.
    rewrite Forall_forall in Hz. auto.
  - replace (0 * t + (1 - 0) * r_indices d j) with (r_indices d j) by lia.
    apply Hr.
Qed.

Lemma init_vocab_size (enc : Encoders) (gpt_run : list Z -> list Logits)
    (args : Args) (fkey ckey : string) (keep : Q) (sos : Z) self0 :
  __init__ enc gpt_run args fkey ckey keep sos = Ok self0 ->
  forall mode : bool,
    let self := train mode self0 in
    vocab_size (transformer self)
    = first_stage_vocab_size self + cond_stage_vocab_size self
      + (if starts_with_sos self then 1 else 0)
    /\ sos_token self = sos
    /\ (be_unconditional self = true -> starts_with_sos self = false)
    /\ (cond_stage_model self = SOSProvider sos \/
        cond_stage_model self = Labelator (class_cond_dim args) \/
        cond_stage_model self = VQGAN (stft_n_codes args) \/
        cond_stage_model self = Identity)
    /\ (forall s, cond_stage_model self = SOSProvider s ->
          s = sos /\ cond_stage_vocab_size self = 0
          /\ starts_with_sos self = false
          /\ cond_stage_key self = first_stage_key self).
Proof.
  unfold __init__. intros H mode.
  destruct (init_cond_stage_from_ckpt args sos fkey ckey (unconditional args))
    as [[[[m csv] key] unc]|] eqn:E; [|discriminate].
  injection H as <-. cbn [train vocab_size transformer first_stage_vocab_size
    cond_stage_vocab_size starts_with_sos sos_token be_unconditional
    cond_stage_model cond_stage_key first_stage_key].
  unfold init_cond_stage_from_ckpt in E.
  repeat match type of E with
         | (if ?b then _ else _) = _ => destruct b eqn:?
         end;
    inversion E; subst; clear E; cbn beta iota zeta;
    destruct (unconditional args);
    destruct (match args_starts_with_sos args with
              | Some b => b | None => false end);
    (split; [lia|]); (split; [reflexivity|]);
    (split; [intros; try reflexivity; discriminate|]);
    (split; [tauto|]);
    intros s Hs; try discriminate;
    injection Hs as <-; repeat split.
Qed.

(** X2.  The vocabulary that [__init__] gives the transformer holds every
    token [forward] can feed it: its size is the two vocabulary sizes
    added, plus one with [starts_with_sos]; and when the visual codes lie in
    [0, first_stage_vocab_size), the conditioning tokens in
    [0, cond_stage_vocab_size) (or the conditioning is the sos token of an
    unconditional model), the sos token and the random replacement tokens
    in the vocabulary, then every token of the input sequence and of the
    target lies in [0, vocab_size). *)
Theorem X2_splice_tokens_within_vocabulary (enc : Encoders)
    (gpt_run : list Z -> list Logits) (args : Args) (fkey ckey : string)
    (keep : Q) (sos : Z) self0 (mode : bool) (d : Draws) (c z : list Z) :
  __init__ enc gpt_run args fkey ckey keep sos = Ok self0 ->
  let self := train mode self0 in
  let vocab := vocab_size (transformer self) in
  0 <= first_stage_vocab_size self ->
  0 <= cond_stage_vocab_size self ->
  0 <= sos < vocab ->
  Forall (fun t => 0 <= t < first_stage_vocab_size self) z ->
  (forall j, 0 <= r_indices d j < vocab) ->
  Forall (fun t => 0 <= t < cond_stage_vocab_size self) c
  \/ (cond_stage_model self = SOSProvider sos /\ c = [sos]) ->
  vocab = first_stage_vocab_size self + cond_stage_vocab_size self
          + (if starts_with_sos self then 1 else 0)
  /\ Forall (fun t => 0 <= t < vocab) (fst (fst (splice self d c z)))
  /\ Forall (fun t => 0 <= t < vocab) (snd (splice self d c z)).
Proof.
  intros Hinit self vocab Hf Hcs Hsos Hz Hr Hc.
  destruct (init_vocab_size enc gpt_run args fkey ckey keep sos self0 Hinit mode)
    as (Hv & Hs & _ & _ & Hprov).
  fold self in Hv, Hs, Hprov. fold vocab in Hv.
  assert (Hc' : Forall (fun t => 0 <= t < vocab) (shift_c self c)).
  { destruct Hc as [Hc|[Hm ->]].
    - rewrite Hv. unfold shift_c.
      destruct (starts_with_sos self).
      + apply Forall_map. eapply Forall_impl; [|exact Hc].
        cbn beta. intros t Ht. lia.
      + eapply Forall_impl; [|exact Hc]. cbn beta. intros t Ht. lia.
    - destruct (Hprov sos Hm) as (_ & _ & Hsws & _).
      unfold shift_c. rewrite Hsws. constructor; [exact Hsos | constructor]. }
  assert (Hz' : Forall (fun t => 0 <= t < vocab) (shift_z self z)).
  { rewrite Hv. unfold shift_z.
    destruct (starts_with_sos self); apply Forall_map;
      (eapply Forall_impl; [|exact Hz]); cbn beta; intros t Ht; lia. }
  split; [exact Hv|]. split.
  - destruct (splice_prefix self d c z) as (pre & -> & _ & Hpre).
    cbn [fst]. apply Forall_app. split.
    + rewrite Forall_forall in Hpre, Hc' |- *.
      intros t Ht. destruct (Hpre t Ht) as [Hin|[_ ->]]; [auto|].
      rewrite Hs. exact Hsos.
    + apply corrupt_elements; [exact Hz' | exact Hr].
  - rewrite splice_target. exact Hz'.
Qed.


(** X3.  The shifts of [forward] keep the token ranges apart: every
    shifted conditioning token is smaller than every shifted visual token,
    and with [starts_with_sos] all of them are positive, so that the token
    0, the default sos token, stands for nothing else. *)
Theorem X3_shifted_token_ranges_disjoint self (c z : list Z) :
  0 <= cond_stage_vocab_size self ->
  Forall (fun t => 0 <= t < cond_stage_vocab_size self) c ->
  Forall (fun t => 0 <= t) z ->
  (forall t u, In t (shift_c self c) -> In u (shift_z self z) -> t < u)
  /\ (starts_with_sos self = true ->
      forall t, In t (shift_c self c ++ shift_z self z) -> 0 < t).
Proof.
  intros Hcs Hc Hz. rewrite Forall_forall in Hc, Hz.
  unfold shift_c, shift_z. split.
  - intros t u Ht Hu.
    destruct (starts_with_sos self).
    + apply in_map_iff in Ht as (t0 & <- & Ht0).
      apply in_map_iff in Hu as (u0 & <- & Hu0).
      specialize (Hc _ Ht0). specialize (Hz _ Hu0). lia.
    + apply in_map_iff in Hu as (u0 & <- & Hu0).
      specialize (Hc _ Ht). specialize (Hz _ Hu0). lia.
  - intros -> t Ht. apply in_app_or in Ht as [Ht|Ht].
    + apply in_map_iff in Ht as (t0 & <- & Ht0). specialize (Hc _ Ht0). lia.
    + apply in_map_iff in Ht as (t0 & <- & Ht0). specialize (Hz _ Ht0). lia.
Qed.

Lemma map_id_on (l : list Z) (f : Z -> Z) :
  Forall (fun t => f t = t) l -> map f l = l.
Proof.
  induction 1 as [|t l Ht _ IH]; [reflexivity|].
  cbn [map]. now rewrite Ht, IH.
Qed.

(** X4.  The code indices that [log_videos] decodes undo the shift of
    [forward]: on the token of a visual code in
    [0, first_stage_vocab_size) they give the code back, with and without
    [starts_with_sos]; and whatever the tokens, the indices lie in the
    codebook when it is not empty. *)
Theorem X4_log_videos_index_inverts_shift self (z ix : list Z) :
  (Forall (fun t => 0 <= t < first_stage_vocab_size self) z ->
   log_videos_index self (shift_z self z) = z)
  /\ (1 <= first_stage_vocab_size self ->
      Forall (fun t => 0 <= t < first_stage_vocab_size self)
             (log_videos_index self ix)).
Proof.
  split.
  - intros Hz. unfold log_videos_index, shift_z, clamp.
    destruct (starts_with_sos self); cbn [negb];
      rewrite map_map; apply map_id_on;
      (eapply Forall_impl; [|exact Hz]); cbn beta; intros t Ht; lia.
  - intros Hf. unfold log_videos_index, clamp.
    apply Forall_map, Forall_forall. intros t _. lia.
Qed.

(** X5.  [log_images] subtracts [cond_stage_vocab_size] only.  Without
    [starts_with_sos] this gives back the code of a visual token; with
    [starts_with_sos], where [forward] shifts by one more, it gives the code
    plus one, capped at the last code: the codes come back right only when
    each of them is the last code of the codebook. *)
Theorem X5_log_images_index_off_by_one self (z : list Z) :
  Forall (fun t => 0 <= t < first_stage_vocab_size self) z ->
  (starts_with_sos self = false ->
   log_images_index self (shift_z self z) = z)
  /\ (starts_with_sos self = true ->
      log_images_index self (shift_z self z)
      = map (fun t => Z.min (t + 1) (first_stage_vocab_size self - 1)) z
      /\ (log_images_index self (shift_z self z) = z
          <-> Forall (fun t => t = first_stage_vocab_size self - 1) z)).
Proof.
  intros Hz. split.
  - intros Hs. unfold log_images_index, shift_z, clamp. rewrite Hs.
    rewrite map_map. apply map_id_on.
    eapply Forall_impl; [|exact Hz]. cbn beta. intros t Ht. lia.
  - intros Hs.
    assert (E : log_images_index self (shift_z self z)
                = map (fun t => Z.min (t + 1) (first_stage_vocab_size self - 1))
                      z).
    { unfold log_images_index, shift_z, clamp. rewrite Hs, map_map.
      apply map_ext_in. intros t Ht. rewrite Forall_forall in Hz.
      specialize (Hz _ Ht). cbn beta in Hz. lia. }
    split; [exact E|]. rewrite E. clear E.
    induction Hz as [|t z' Ht _ IH]; cbn [map].
    + split; [constructor | reflexivity].
    + split.
      * intros H. injection H as H1 H2. constructor; [lia | now apply IH].
      * intros H. inversion H as [|? ? H1 H2]; subst.
        f_equal; [lia | now apply IH].
Qed.


(** Lines 20-74 of [__init__], before any checkpoint is read: they fail
    exactly for a conditional model whose [cond_stage_key] is none of
    'label', 'stft' and 'text'. *)
Lemma init_raises_iff (enc : Encoders)
    (gpt_run : list Z -> list Logits) (args : Args) (fkey ckey : string)
    (keep : Q) (sos : Z) :
  (unconditional args = false /\ ckey <> "label" /\ ckey <> "stft"
   /\ ckey <> "text"
   <-> __init__ enc gpt_run args fkey ckey keep sos
       = Raise (AttributeError "cond_stage_vocab_size"))
  /\ (unconditional args = true \/ ckey = "label" \/ ckey = "stft"
      \/ ckey = "text"
      <-> exists self, __init__ enc gpt_run args fkey ckey keep sos = Ok self).
Proof.
  unfold __init__, init_cond_stage_from_ckpt.
  destruct (String.eqb_spec ckey "label") as [El|El];
    destruct (String.eqb_spec ckey "stft") as [Es|Es];
    destruct (String.eqb_spec ckey "text") as [Et|Et];
    destruct (unconditional args); cbn [andb negb];
    (split; split;
     [ intros H; try reflexivity; try tauto; try (destruct H as (? & ? & ? & ?); congruence)
     | intros H; try discriminate; try tauto; try (now repeat split)
     | intros H; try (eexists; reflexivity); try (destruct H as [?|[?|[?|?]]]; congruence)
     | intros H; try tauto; try (destruct H as [? ?]; discriminate) ]).
Qed.

(** X6.  An unconditional model reads its conditioning under
    [first_stage_key]: [get_xc] on a batch that holds that key returns its
    tensor twice, cut to the first [N] rows when [N] is given, whether the
    batch is the dict itself or a list holding just the dict; a list of
    any other length fails the assertion. *)
Theorem X6_get_xc_unconditional (Row : Type) (enc : Encoders)
    (gpt_run : list Z -> list Logits) (args : Args) (fkey ckey : string)
    (keep : Q) (sos : Z) (d : dict (list Row)) (x : list Row) (N : option Z)
    (l : list (dict (list Row))) :
  unconditional args = true ->
  ckey <> "stft" ->
  ckey <> "text" ->
  dict_lookup d fkey = Some x ->
  exists self,
    __init__ enc gpt_run args fkey ckey keep sos = Ok self
    /\ let x' := match N with
                 | Some n => slice x None (Some n)
                 | None => x
                 end in
       get_xc self (BDict d) N = Ok (x', x')
       /\ get_xc self (BList [d]) N = Ok (x', x')
       /\ (List.length l <> 1%nat ->
           get_xc self (BList l) N = Raise AssertionError).
Proof.
  intros Hu Hs Ht Hx.
  unfold __init__, init_cond_stage_from_ckpt. rewrite Hu. cbn [negb].
  rewrite andb_false_r.
  destruct (String.eqb_spec ckey "stft") as [E|_]; [contradiction|].
  destruct (String.eqb_spec ckey "text") as [E|_]; [contradiction|].
  eexists. split; [reflexivity|].
  unfold get_xc, dict_getitem. cbn [first_stage_key cond_stage_key].
  rewrite Hx. split; [|split].
  - destruct N; reflexivity.
  - destruct N; reflexivity.
  - intros Hl. destruct l as [|d0 [|d1 l']]; [reflexivity | | reflexivity].
    now contradiction Hl.
Qed.

End Net2NetMoreFacts.

Section CheckpointFacts.
Import lm_transformer dataset_image_video lm_transformer_rest.

Context {V : Type}.
Implicit Type sd : dict V.

Lemma dict_remove_length sd (k : string) (v : V) :
  dict_lookup sd k = Some v ->
  S (List.length (dict_remove sd k)) = List.length sd.
Proof.
  induction sd as [|[k' v'] sd IH]; cbn [dict_lookup dict_remove]; [discriminate|].
  destruct (String.eqb k' k); [reflexivity|].
  intros H. cbn [List.length]. now rewrite IH.
Qed.

Lemma delete_matching_no_match (attached : bool) (k : string)
    (ignore_keys : list string) sd (log : list string) :
  (forall ik, In ik ignore_keys -> String.prefix ik k = false) ->
  delete_matching attached k ignore_keys sd log = (Fine sd, log).
Proof.
  induction ignore_keys as [|ik rest IH]; intros H; [reflexivity|].
  cbn [delete_matching]. rewrite (H ik (or_introl eq_refl)).
  apply IH. intros ik' Hin. apply H. now right.
Qed.

(** The inner loop raises, or changes nothing, or makes the dict
    shorter. *)
Lemma delete_matching_cases (attached : bool) (k : string)
    (ignore_keys : list string) :
  forall sd (log : list string),
    (exists e log',
        delete_matching attached k ignore_keys sd log = (Failed e, log'))
    \/ delete_matching attached k ignore_keys sd log = (Fine sd, log)
    \/ (exists sd' log',
           delete_matching attached k ignore_keys sd log = (Fine sd', log')
           /\ (List.length sd' < List.length sd)%nat).
Proof.
  induction ignore_keys as [|ik rest IH]; intros sd log.
  - right. left. reflexivity.
  - cbn [delete_matching]. destruct (String.prefix ik k); [|apply IH].
    destruct attached; [|left; eauto].
    unfold dict_delitem. destruct (dict_lookup sd k) as [v|] eqn:E.
    + pose proof (dict_remove_length sd k v E) as Hlen.
      destruct (IH (dict_remove sd k) (log ++ [k]))
        as [(e & log' & ->)|[-> |(sd' & log' & -> & Hlt)]].
      * left. eauto.
      * right. right. do 2 eexists. split; [reflexivity|lia].
      * right. right. do 2 eexists. split; [reflexivity|lia].
    + left. eauto.
Qed.

Lemma delete_matching_match (attached : bool) (k : string)
    (ignore_keys : list string) :
  forall sd (log : list string),
    (exists ik, In ik ignore_keys /\ String.prefix ik k = true) ->
    delete_matching attached k ignore_keys sd log <> (Fine sd, log).
Proof.
  induction ignore_keys as [|ik rest IH]; intros sd log (ik0 & Hin & Hp).
  - destruct Hin.
  - cbn [delete_matching]. destruct (String.prefix ik k) eqn:E.
    + destruct attached; [|discriminate].
      unfold dict_delitem. destruct (dict_lookup sd k) as [v|] eqn:El;
        [|discriminate].
      pose proof (dict_remove_length sd k v El) as Hlen.
      destruct (delete_matching_cases true k rest (dict_remove sd k)
                  (log ++ [k]))
        as [(e & log' & ->)|[-> |(sd' & log' & -> & Hlt)]];
        [discriminate| |]; intros H; injection H as H1 H2.
      * rewrite H1 in Hlen. lia.
      * subst sd'. lia.
    + apply IH. destruct Hin as [<-|Hin]; [congruence|eauto].
Qed.

(** Without a trainer the first key that matches ends the inner loop at
    [self.print], with the state dict as it was and nothing printed. *)
Lemma delete_matching_not_attached (k : string) (ignore_keys : list string)
    sd (log : list string) :
  (exists ik, In ik ignore_keys /\ String.prefix ik k = true) ->
  exists msg,
    delete_matching false k ignore_keys sd log
    = (Failed (RuntimeError msg), log).
Proof.
  induction ignore_keys as [|ik rest IH]; intros (ik0 & Hin & Hp).
  - destruct Hin.
  - cbn [delete_matching]. destruct (String.prefix ik k) eqn:E; [eauto|].
    apply IH. destruct Hin as [<-|Hin]; [congruence|eauto].
Qed.

Lemma iterate_keys_changed (attached ordered : bool)
    (keys ignore_keys : list string) sd (log : list string) :
  keys <> [] \/ ordered = false ->
  exists e,
    iterate_keys attached ordered keys ignore_keys sd true log
    = (Failed e, log).
Proof.
  intros H. destruct keys as [|k rest]; cbn [iterate_keys].
  - destruct H as [H | ->]; [congruence|]. cbn. eauto.
  - eauto.
Qed.

Lemma iterate_keys_no_match (attached ordered : bool)
    (ignore_keys : list string) sd (log : list string) :
  forall keys,
    (forall k ik, In k keys -> In ik ignore_keys -> String.prefix ik k = false) ->
    iterate_keys attached ordered keys ignore_keys sd false log
    = (Fine sd, log).
Proof.
  induction keys as [|k rest IH]; intros H; cbn [iterate_keys].
  - now rewrite andb_false_r.
  - rewrite delete_matching_no_match
      by (intros ik Hik; apply (H k ik); [now left | exact Hik]).
    rewrite Nat.eqb_refl. cbn [negb]. apply IH.
    intros k' ik Hk Hik. apply H; [now right | exact Hik].
Qed.

Lemma iterate_keys_match_fails (attached ordered : bool)
    (ignore_keys : list string) (k : string) (post : list string) :
  (exists ik, In ik ignore_keys /\ String.prefix ik k = true) ->
  post <> [] \/ ordered = false ->
  forall (pre : list string) sd (log : list string),
  exists e log',
    iterate_keys attached ordered (pre ++ k :: post) ignore_keys sd false log
    = (Failed e, log').
Proof.
  intros Hm Hpost. induction pre as [|p pre IH]; intros sd log.
  - cbn [app iterate_keys].
    pose proof (delete_matching_match attached k ignore_keys sd log Hm) as Hne.
    destruct (delete_matching_cases attached k ignore_keys sd log)
      as [(e & log' & ->)|[E|(sd' & log' & -> & Hlt)]].
    + eauto.
    + contradiction.
    + replace (Nat.eqb (List.length sd') (List.length sd)) with false
        by (symmetry; apply Nat.eqb_neq; lia).
      cbn [negb].
      destruct (iterate_keys_changed attached ordered post ignore_keys sd'
                  log' Hpost)
        as (e & ->). eauto.
  - cbn [app iterate_keys].
    destruct (delete_matching_cases attached p ignore_keys sd log)
      as [(e & log' & ->)|[-> |(sd' & log' & -> & Hlt)]].
    + eauto.
    + rewrite Nat.eqb_refl. cbn [negb]. apply IH.
    + replace (Nat.eqb (List.length sd') (List.length sd)) with false
        by (symmetry; apply Nat.eqb_neq; lia).
      cbn [negb].
      destruct (iterate_keys_changed attached ordered (pre ++ k :: post)
                  ignore_keys sd' log') as (e & ->); [|eauto].
      left. now destruct pre.
Qed.

Lemma delete_matching_skip (attached : bool) (k : string)
    (i1 rest : list string) sd (log : list string) :
  (forall ik, In ik i1 -> String.prefix ik k = false) ->
  delete_matching attached k (i1 ++ rest) sd log
  = delete_matching attached k rest sd log.
Proof.
  induction i1 as [|ik i1 IH]; intros H; [reflexivity|].
  cbn [app delete_matching]. rewrite (H ik (or_introl eq_refl)).
  apply IH. intros ik' Hin. apply H. now right.
Qed.

Lemma iterate_keys_skip (attached ordered : bool)
    (ignore_keys rest : list string) sd (log : list string) :
  forall pre,
    (forall k ik, In k pre -> In ik ignore_keys -> String.prefix ik k = false) ->
    iterate_keys attached ordered (pre ++ rest) ignore_keys sd false log
    = iterate_keys attached ordered rest ignore_keys sd false log.
Proof.
  induction pre as [|k pre IH]; intros H; [reflexivity|].
  cbn [app iterate_keys].
  rewrite delete_matching_no_match
    by (intros ik Hik; apply (H k ik); [now left | exact Hik]).
  rewrite Nat.eqb_refl. cbn [negb]. apply IH.
  intros k' ik Hk Hik. apply H; [now right | exact Hik].
Qed.

Lemma dict_lookup_last (pre : dict V) (k : string) (v : V) :
  ~ In k (map fst pre) ->
  dict_lookup (pre ++ [(k, v)]) k = Some v
  /\ dict_remove (pre ++ [(k, v)]) k = pre.
Proof.
  induction pre as [|[k' v'] pre IH]; intros Hn; cbn [app dict_lookup dict_remove].
  - now rewrite String.eqb_refl.
  - destruct (String.eqb_spec k' k) as [->|Hne].
    + exfalso. apply Hn. now left.
    + destruct IH as [-> ->]; [|now split].
      intros Hin. apply Hn. now right.
Qed.

(** Without a trainer, as in [__init__]: the first key of the state dict
    that starts with an ignore key ends the call at [self.print]. *)
Lemma init_from_ckpt_not_attached (ordered : bool) sd
    (ignore_keys : list string) (k ik : string) :
  In k (map fst sd) ->
  In ik ignore_keys ->
  String.prefix ik k = true ->
  exists msg,
    init_from_ckpt false ordered sd ignore_keys
    = (Failed (RuntimeError msg), []).
Proof.
  intros Hk Hik Hp. unfold init_from_ckpt.
  generalize (@nil string) as log. generalize sd at 2 as sd0.
  induction (map fst sd) as [|k0 keys IH]; intros sd0 log; [destruct Hk|].
  cbn [iterate_keys].
  destruct (existsb (fun ik' => String.prefix ik' k0) ignore_keys) eqn:E.
  - apply existsb_exists in E.
    destruct (delete_matching_not_attached k0 ignore_keys sd0 log E)
      as (msg & ->). eauto.
  - rewrite delete_matching_no_match.
    + rewrite Nat.eqb_refl. cbn [negb].
      destruct Hk as [->|Hk]; [|now apply IH].
      exfalso. assert (Ht : existsb (fun ik' => String.prefix ik' k) ignore_keys
                            = true)
        by (apply existsb_exists; eauto).
      congruence.
    + intros ik' Hin.
      destruct (String.prefix ik' k0) eqn:Ep; [|reflexivity].
      assert (Ht : existsb (fun ik' => String.prefix ik' k0) ignore_keys = true)
        by (apply existsb_exists; eauto).
      congruence.
Qed.

(** X7.  [init_from_ckpt] prints and deletes while iterating over the keys
    of the state dict.  When no key starts with an ignore key, the state
    dict goes to [load_state_dict] unchanged and nothing is printed.  When
    some key does and the module is attached to no trainer, as in
    [__init__], the only caller, the call raises RuntimeError at
    [self.print]: nothing is printed, deleted or loaded.  With a trainer
    attached, a key that is not the last one and starts with an ignore
    key, or any such key of a plain dict, makes the call raise, and the
    one deletion that goes through is that of the last key of an
    OrderedDict, matched by exactly one ignore key. *)
Theorem X7_init_from_ckpt_ignore_keys (attached ordered : bool) sd
    (ignore_keys : list string) :
  ((forall k ik, In k (map fst sd) -> In ik ignore_keys ->
                 String.prefix ik k = false) ->
   init_from_ckpt attached ordered sd ignore_keys = (Fine sd, []))
  /\ (forall (k ik : string),
        attached = false ->
        In k (map fst sd) ->
        In ik ignore_keys ->
        String.prefix ik k = true ->
        exists msg,
          init_from_ckpt attached ordered sd ignore_keys
          = (Failed (RuntimeError msg), []))
  /\ (forall (pre post : dict V) (k ik : string) (v : V),
        sd = pre ++ (k, v) :: post ->
        In ik ignore_keys ->
        String.prefix ik k = true ->
        post <> [] \/ ordered = false ->
        exists e log,
          init_from_ckpt attached ordered sd ignore_keys = (Failed e, log))
  /\ (forall (pre : dict V) (k ik : string) (v : V) (i1 i2 : list string),
        sd = pre ++ [(k, v)] ->
        ~ In k (map fst pre) ->
        ignore_keys = i1 ++ ik :: i2 ->
        String.prefix ik k = true ->
        (forall ik', In ik' (i1 ++ i2) -> String.prefix ik' k = false) ->
        (forall k' ik', In k' (map fst pre) -> In ik' ignore_keys ->
                        String.prefix ik' k' = false) ->
        attached = true ->
        ordered = true ->
        init_from_ckpt attached ordered sd ignore_keys = (Fine pre, [k])).
Proof.
  split; [|split; [|split]].
  - apply iterate_keys_no_match.
  - intros k ik -> Hk Hik Hp. eapply init_from_ckpt_not_attached; eauto.
  - unfold init_from_ckpt. intros pre post k ik v -> Hik Hp Hpost.
    rewrite map_app. cbn [map fst].
    apply iterate_keys_match_fails; [eauto|].
    destruct Hpost as [H|H]; [left|now right].
    now destruct post.
  - unfold init_from_ckpt. intros pre k ik v i1 i2 -> Hk -> Hp Hrest Hpre -> ->.
    rewrite map_app. cbn [map fst].
    rewrite iterate_keys_skip by exact Hpre.
    cbn [iterate_keys].
    rewrite delete_matching_skip
      by (intros ik' Hin; apply (Hrest ik'); apply in_or_app; now left).
    cbn [delete_matching]. rewrite Hp. unfold dict_delitem.
    destruct (dict_lookup_last pre k v Hk) as [-> ->].
    rewrite delete_matching_no_match
      by (intros ik' Hin; apply (Hrest ik'); apply in_or_app; now right).
    rewrite length_app. cbn [List.length app].
    replace (Nat.eqb (List.length pre) (List.length pre + 1)) with false
      by (symmetry; apply Nat.eqb_neq; lia).
    reflexivity.
Qed.

End CheckpointFacts.

Section ConstructorFacts.
Import lm_transformer dataset_image_video lm_transformer_rest.

Context {V Logits : Type}.

(** X9.  [__init__] raises AttributeError whenever the model is
    conditional and [cond_stage_key] is none of 'label', 'stft' and 'text',
    whatever the checkpoint: no branch of [init_cond_stage_from_ckpt] sets
    [cond_stage_vocab_size] then (the ValueError of the last branch is
    built, not raised), and line 63 reads it.  Without a checkpoint
    ([ckpt_path] is [None]) this is the only failure, and a model is
    returned in every other case.  With a checkpoint, in those other
    cases, a key of the state dict that starts with an ignore key makes
    [__init__] raise RuntimeError at the [self.print] of [init_from_ckpt];
    when no key does, the state dict goes to [load_state_dict] unchanged
    and the model is returned unless that call raises. *)
Theorem X9_init_fails_without_cond_stage (enc : Encoders)
    (gpt_run : list Z -> list Logits) (args : Args)
    (ckpt : option (bool * dict V))
    (load_state_dict : dict V -> option error) (ignore_keys : list string)
    (fkey ckey : string) (keep : Q) (sos : Z) :
  let built :=
    init_with_ckpt enc gpt_run args ckpt load_state_dict ignore_keys
                   fkey ckey keep sos in
  let unknown_key :=
    unconditional args = false /\ ckey <> "label" /\ ckey <> "stft"
    /\ ckey <> "text" in
  (unknown_key ->
   built = Failed (Exn (AttributeError "cond_stage_vocab_size")))
  /\ (ckpt = None ->
      (unknown_key
       <-> built = Failed (Exn (AttributeError "cond_stage_vocab_size")))
      /\ (~ unknown_key <-> exists self, built = Fine self))
  /\ (~ unknown_key ->
      exists self,
        __init__ enc gpt_run args fkey ckey keep sos = Ok self
        /\ forall (ordered : bool) (sd : dict V),
             ckpt = Some (ordered, sd) ->
             ((exists k ik, In k (map fst sd) /\ In ik ignore_keys
                            /\ String.prefix ik k = true) ->
              exists msg, built = Failed (RuntimeError msg))
             /\ ((forall k ik, In k (map fst sd) -> In ik ignore_keys ->
                               String.prefix ik k = false) ->
                 built = match load_state_dict sd with
                         | Some e => Failed e
                         | None => Fine self
                         end)).
Proof.
  intros built unknown_key.
  destruct (init_raises_iff enc gpt_run args fkey ckey keep sos)
    as [Hbad Hgood].
  assert (Hdec : unknown_key \/ ~ unknown_key).
  { unfold unknown_key. destruct (unconditional args).
    - right. intros [H _]. discriminate.
    - destruct (String.eqb_spec ckey "label"); [right; tauto|].
      destruct (String.eqb_spec ckey "stft"); [right; tauto|].
      destruct (String.eqb_spec ckey "text"); [right; tauto|].
      left. tauto. }
  assert (Hok : ~ unknown_key ->
                exists self, __init__ enc gpt_run args fkey ckey keep sos
                             = Ok self).
  { intro Hn. apply Hgood. unfold unknown_key in Hn.
    destruct (unconditional args); [now left|].
    destruct (String.eqb_spec ckey "label"); [tauto|].
    destruct (String.eqb_spec ckey "stft"); [tauto|].
    destruct (String.eqb_spec ckey "text"); [tauto|].
    exfalso. apply Hn. tauto. }
  assert (Hraise : unknown_key ->
                   built = Failed (Exn (AttributeError "cond_stage_vocab_size"))).
  { intro Hu. unfold built, init_with_ckpt.
    now rewrite (proj1 Hbad Hu). }
  split; [exact Hraise|]. split.
  - intros ->. split; [split; [exact Hraise|] | split].
    + intro Hb. destruct Hdec as [Hu|Hn]; [exact Hu|].
      destruct (Hok Hn) as (self & Hs).
      unfold built, init_with_ckpt in Hb. rewrite Hs in Hb. discriminate.
    + intro Hn. destruct (Hok Hn) as (self & Hs). exists self.
      unfold built, init_with_ckpt. now rewrite Hs.
    + intros (self & Hs) Hu. rewrite (Hraise Hu) in Hs. discriminate.
  - intro Hn. destruct (Hok Hn) as (self & Hs). exists self.
    split; [exact Hs|]. intros ordered sd ->. split.
    + intros (k & ik & Hk & Hik & Hp).
      destruct (init_from_ckpt_not_attached ordered sd ignore_keys k ik
                  Hk Hik Hp) as (msg & Hf).
      exists msg. unfold built, init_with_ckpt. now rewrite Hs, Hf.
    + intro Hno. unfold built, init_with_ckpt. rewrite Hs.
      unfold init_from_ckpt. now rewrite iterate_keys_no_match.
Qed.

End ConstructorFacts.

Section TopKFacts.
Import lm_transformer lm_transformer_rest MoreSpec.

Lemma score_leb_refl (a : score) : score_leb a a = true.
Proof. destruct a as [|q]; [reflexivity|]. apply Qle_bool_iff, Qle_refl. Qed.

Lemma score_leb_total (a b : score) :
  score_leb a b = true \/ score_leb b a = true.
Proof.
  destruct a as [|x], b as [|y]; cbn [score_leb]; auto.
  destruct (Qlt_le_dec y x) as [H|H].
  - right. apply Qle_bool_iff, Qlt_le_weak, H.
  - left. now apply Qle_bool_iff.
Qed.

Lemma score_leb_trans (a b c : score) :
  score_leb a b = true -> score_leb b c = true -> score_leb a c = true.
Proof.
  destruct a as [|x], b as [|y], c as [|z]; cbn [score_leb]; auto;
    try discriminate.
  rewrite !Qle_bool_iff. apply Qle_trans.
Qed.

Lemma insert_desc_perm (a : score) (l : list score) :
  Permutation (insert_desc a l) (a :: l).
Proof.
  induction l as [|b t IH]; cbn [insert_desc]; [reflexivity|].
  destruct (score_leb b a); [reflexivity|].
  rewrite IH. apply perm_swap.
Qed.

Lemma sort_desc_perm (l : list score) : Permutation (sort_desc l) l.
Proof.
  induction l as [|a t IH]; cbn [sort_desc]; [reflexivity|].
  rewrite insert_desc_perm. now constructor.
Qed.

Lemma insert_desc_sorted (a : score) (l : list score) :
  StronglySorted score_ge l -> StronglySorted score_ge (insert_desc a l).
Proof.
  induction 1 as [|b t Ht IH Hb]; cbn [insert_desc].
  - repeat constructor.
  - destruct (score_leb b a) eqn:E.
    + constructor; [now constructor|].
      constructor; [exact E|].
      eapply Forall_impl; [|exact Hb]. intros c Hc.
      unfold score_ge in *. eapply score_leb_trans; eauto.
    + constructor; [exact IH|].
      eapply Permutation_Forall; [symmetry; apply insert_desc_perm|].
      constructor; [|exact Hb].
      unfold score_ge. destruct (score_leb_total a b) as [H|H]; congruence.
Qed.

Lemma sort_desc_sorted (l : list score) : StronglySorted score_ge (sort_desc l).
Proof.
  induction l as [|a t IH]; cbn [sort_desc]; [constructor|].
  now apply insert_desc_sorted.
Qed.

Lemma sorted_split (l1 l2 : list score) (m : score) :
  StronglySorted score_ge (l1 ++ m :: l2) ->
  Forall (fun a => score_leb m a = true) l1
  /\ Forall (fun b => score_leb b m = true) l2.
Proof.
  induction l1 as [|a l1 IH]; cbn [app]; intros H;
    apply StronglySorted_inv in H as [Hs Hf].
  - split; [constructor | exact Hf].
  - destruct (IH Hs) as [H1 H2]. split; [|exact H2].
    constructor; [|exact H1].
    rewrite Forall_forall in Hf. apply Hf, in_or_app. right. now left.
Qed.

Lemma count_perm (p : score -> bool) (l l' : list score) :
  Permutation l l' -> count p l = count p l'.
Proof.
  intros H. unfold count, len. f_equal.
  induction H; cbn [filter].
  - reflexivity.
  - destruct (p x); cbn [List.length]; now rewrite IHPermutation.
  - destruct (p x), (p y); reflexivity.
  - congruence.
Qed.

Lemma count_all (p : score -> bool) (l : list score) :
  Forall (fun a => p a = true) l -> count p l = len l.
Proof.
  intros H. unfold count. f_equal.
  induction H as [|a l Ha _ IH]; cbn [filter]; [reflexivity|].
  now rewrite Ha, IH.
Qed.

Lemma count_none (p : score -> bool) (l : list score) :
  Forall (fun a => p a = false) l -> count p l = 0.
Proof.
  intros H. unfold count.
  induction H as [|a l Ha _ IH]; cbn [filter]; [reflexivity|].
  now rewrite Ha.
Qed.

Lemma count_app (p : score -> bool) (l1 l2 : list score) :
  count p (l1 ++ l2) = count p l1 + count p l2.
Proof. unfold count. rewrite filter_app. apply len_app. Qed.

Lemma count_bounds (p : score -> bool) (l : list score) :
  0 <= count p l <= len l.
Proof.
  unfold count, len. pose proof (filter_length_le p l). lia.
Qed.

(** X8.  [top_k_logits] on a row, for [1 <= k <= len(logits)]: the
    threshold is a score of the row with at least [k] scores not below it
    and fewer than [k] scores above it, i.e. the [k]-th largest; every
    score not below the threshold is kept as it is and every other score
    becomes minus infinity.  For [k] negative or above the length of the
    row [torch.topk] raises RuntimeError; for [k = 0] the index -1 into
    the empty values raises IndexError. *)
Theorem X8_top_k_logits_keeps_k_largest (logits : list score) (k : Z) :
  (1 <= k <= len logits ->
   exists kth,
     In kth logits
     /\ top_k_logits logits k
        = Fine (map (fun s => if score_leb kth s then s else NegInf) logits)
     /\ k <= count (score_leb kth) logits
     /\ count (score_ltb kth) logits < k)
  /\ (k < 0 \/ len logits < k ->
      exists msg, top_k_logits logits k = Failed (RuntimeError msg))
  /\ (k = 0 -> exists msg, top_k_logits logits k = Failed (Exn (IndexError msg))).
Proof.
  split; [|split].
  - intros Hk.
    assert (Hlen : List.length (sort_desc logits) = List.length logits)
      by (apply Permutation_length, sort_desc_perm).
    destruct (nth_error (sort_desc logits) (Z.to_nat (k - 1))) as [kth|] eqn:En.
    2:{ apply nth_error_None in En. unfold len in Hk. lia. }
    apply nth_error_split in En as (l1 & l2 & Es & Hl1).
    exists kth.
    assert (Hin : In kth logits).
    { eapply Permutation_in; [apply sort_desc_perm|].
      rewrite Es. apply in_or_app. right. now left. }
    pose proof (sort_desc_sorted logits) as Hs. rewrite Es in Hs.
    apply sorted_split in Hs as [H1 H2].
    split; [exact Hin|]. split; [|split].
    + unfold top_k_logits, topk_values.
      replace ((k <? 0) || (len logits <? k)) with false
        by (symmetry; apply orb_false_iff; split; apply Z.ltb_ge; lia).
      rewrite Es.
      replace (Z.to_nat k) with (List.length l1 + 1)%nat by lia.
      rewrite firstn_app.
      replace (List.length l1 + 1 - List.length l1)%nat with 1%nat by lia.
      rewrite firstn_all2 by lia. cbn [firstn].
      rewrite last_item_app. f_equal. apply map_ext. intros s.
      unfold score_ltb. destruct (score_leb kth s); reflexivity.
    + rewrite <- (count_perm _ _ _ (sort_desc_perm logits)), Es.
      rewrite count_app, (count_all _ l1 H1).
      change (kth :: l2) with ([kth] ++ l2). rewrite count_app.
      rewrite (count_all _ [kth]) by (constructor; [apply score_leb_refl|constructor]).
      pose proof (count_bounds (score_leb kth) l2).
      unfold len. cbn [List.length]. lia.
    + rewrite <- (count_perm _ _ _ (sort_desc_perm logits)), Es.
      change (kth :: l2) with ([kth] ++ l2). rewrite !count_app.
      rewrite (count_none _ [kth])
        by (constructor; [unfold score_ltb; now rewrite score_leb_refl
                         | constructor]).
      rewrite (count_none _ l2)
        by (eapply Forall_impl; [|exact H2]; intros b Hb; unfold score_ltb;
            now rewrite Hb).
      pose proof (count_bounds (score_ltb kth) l1). unfold len in *. lia.
  - intros Hk. unfold top_k_logits, topk_values.
    replace ((k <? 0) || (len logits <? k)) with true; [eauto|].
    symmetry. apply orb_true_iff. destruct Hk; [left|right]; now apply Z.ltb_lt.
  - intros ->. unfold top_k_logits, topk_values.
    replace (len logits <? 0) with false
      by (symmetry; apply Z.ltb_ge; unfold len; lia).
    cbn. eauto.
Qed.

End TopKFacts.

(* ===================================================================== *)
(** * Further properties of [ImageVideoDataset]                           *)
(* ===================================================================== *)

Section ClipFacts.
Import dataset_image_video DatasetSpec ImageVideoDataset.

Implicit Types (w : World) (self : ImageVideoDataset.t) (st : state).

Lemma linspace_length (start stop num : Z) (l : list Z) :
  linspace start stop num = Ok l -> 0 <= num /\ len l = num.
Proof.
  unfold linspace. destruct (num <? 0) eqn:E; [discriminate|].
  intros H. injection H as <-. apply Z.ltb_ge in E. split; [exact E|].
  unfold len. rewrite length_map, range_length. lia.
Qed.

Lemma batch_index_of_length self (n : nat) st (batch_index : list Z) st' :
  batch_index_of self n st = (Ok batch_index, st') ->
  len batch_index = min_sample_n_frames_of self n
  /\ st' = {| rng := rng st; cursor := S (cursor st); printed := printed st |}.
Proof.
  unfold batch_index_of, clip_window.
  cbv beta iota zeta delta [bind lift ret raise randint next_raw].
  destruct (min_sample_n_frames_of self n =? 0); [discriminate|].
  destruct ((video_length_of self n <? clip_length_of self n)
            || (video_length_of self n <? video_sample_n_frames self));
    [discriminate|].
  destruct (randint_of_raw _ _ _) as [start|e]; [|discriminate].
  intro H. injection H as H1 <-.
  apply linspace_length in H1 as [_ H1]. now split.
Qed.


(** [np.linspace] over a span that is a multiple of the number of steps:
    the values are equally spaced integers. *)
Lemma linspace_stride (start stride m : Z) :
  1 <= m ->
  linspace start (start + ((m - 1) * stride + 1) - 1) m
  = Ok (map (fun i => start + i * stride) (range m)).
Proof.
  intro Hm. unfold linspace.
  destruct (m <? 0) eqn:E; [apply Z.ltb_lt in E; lia|].
  f_equal. apply map_ext_in. intros i Hi.
  replace (start + ((m - 1) * stride + 1) - 1 - start) with ((m - 1) * stride)
    by lia.
  assert (Hq : (inject_Z start
                + inject_Z i * (inject_Z ((m - 1) * stride) / inject_Z (m - 1))
                == inject_Z (start + i * stride))%Q).
  { destruct (Z.eq_dec m 1) as [->|Hne].
    - unfold range in Hi. cbn in Hi. destruct Hi as [<-|[]].
      cbn. unfold Qeq. cbn. lia.
    - rewrite !inject_Z_plus, !inject_Z_mult. field.
      intro H. apply (inject_Z_injective (m - 1) 0) in H. lia. }
  rewrite (Qfloor_comp _ _ Hq). apply Qfloor_Z.
Qed.

(** X13.  When the clip of [min_sample_n_frames] frames, taken every
    [video_sample_stride] frames, fits in the usable part of the video,
    the frame indices of [get_batch] are exactly
    [start_idx + i * video_sample_stride] for [i] from 0 to
    [min_sample_n_frames - 1], where [start_idx] is the value drawn by
    [random.randint]. *)
Theorem X13_batch_index_stride self (n : nat) st (batch_index : list Z) st' :
  batch_index_of self n st = (Ok batch_index, st') ->
  (min_sample_n_frames_of self n - 1) * video_sample_stride self + 1
  <= video_length_of self n ->
  exists start_idx,
    randint_of_raw
      (int_of_float (video_length_drop_start self
                     * inject_Z (video_length_of self n))%Q)
      (Z.max (int_of_float (video_length_drop_start self
                            * inject_Z (video_length_of self n))%Q)
             (video_length_of self n - clip_length_of self n))
      (rng st (cursor st)) = Ok start_idx
    /\ batch_index
       = map (fun i => start_idx + i * video_sample_stride self)
             (range (min_sample_n_frames_of self n))
    /\ len batch_index = min_sample_n_frames_of self n.
Proof.
  intros Hrun Hfit.
  destruct (batch_index_of_length self n st batch_index st' Hrun) as [Hlen _].
  revert Hrun. unfold batch_index_of, clip_window.
  cbv beta iota zeta delta [bind lift ret raise randint next_raw].
  destruct (min_sample_n_frames_of self n =? 0) eqn:E0; [discriminate|].
  destruct ((video_length_of self n <? clip_length_of self n)
            || (video_length_of self n <? video_sample_n_frames self));
    [discriminate|].
  destruct (randint_of_raw _ _ _) as [start|e]; [|discriminate].
  intro H. injection H as H1 _. exists start. split; [reflexivity|].
  split; [|exact Hlen].
  apply linspace_length in H1 as Hm. destruct Hm as [Hm _].
  apply Z.eqb_neq in E0.
  assert (Hclip : clip_length_of self n
                  = (min_sample_n_frames_of self n - 1)
                    * video_sample_stride self + 1)
    by (unfold clip_length_of; lia).
  rewrite Hclip, linspace_stride in H1 by lia. now injection H1 as <-.
Qed.

End ClipFacts.

Section GetitemMoreFacts.
Import dataset_image_video DatasetSpec ImageVideoDataset.

Implicit Types (w : World) (self : ImageVideoDataset.t) (st : state).

Lemma attempt_without_cache_raises w self (data_type : string) (idx : Z) st :
  cache_dir self = None ->
  exists e st', attempt w self data_type idx st = (Raise e, st').
Proof.
  intro Hc.
  destruct (String.eqb_spec data_type "video") as [->|Hty];
    [|now apply attempt_not_video_raises].
  unfold attempt. cbv beta iota zeta delta [bind lift ret raise].
  destruct (py_mod idx (len (dataset self))) as [i|e]; [|eauto].
  destruct (list_getitem (dataset self) i) as [data|e]; [|eauto].
  destruct (String.eqb_spec (content_type_of data) "video") as [E|E];
    cbn [negb]; [|eauto].
  unfold get_batch. rewrite E, Hc. cbn [String.eqb Ascii.eqb Bool.eqb].
  cbv beta iota zeta delta [bind lift ret raise].
  destruct (dict_getitem data "file_path") as [video_id|e]; [|eauto].
  destruct (dict_getitem data "text") as [text|e]; [|eauto].
  destruct (read_video_without_cache_raises w self idx
              (match data_root self with
               | Some root => os_path_join root video_id
               | None => video_id
               end) text st) as (e & st1 & ->).
  eauto.
Qed.

Lemma getitem_loop_all_attempts_raise w self (data_type : string) :
  (forall (idx : Z) st,
      exists e st', attempt w self data_type idx st = (Raise e, st')) ->
  forall (fuel : nat) (idx : Z) st (sample : dict pyval) st',
    getitem_loop w self fuel data_type idx st <> (Returned sample, st').
Proof.
  intro Hall. induction fuel as [|fuel IH]; intros idx st sample st';
    cbn [getitem_loop]; [discriminate|].
  destruct (Hall idx st) as (e & st1 & ->).
  match goal with
  | |- context [match ?h with _ => _ end] => destruct h as [[idx'|e'] st2]
  end; [apply IH | discriminate].
Qed.

(** X11.  Without [cache_dir] (the default) [__getitem__] never returns a
    sample, whatever the dataset, the index and the files: on a video the
    [return] of line 237 reads [vid_cache_path], which is bound only when
    [cache_dir] is set, and on any other entry three values are unpacked
    into eight names; both errors are caught and the loop draws another
    index. *)
Theorem X11_getitem_without_cache_dir_never_returns w self (fuel : nat) (idx : Z)
    st (sample : dict pyval) st' :
  cache_dir self = None ->
  __getitem__ w self fuel idx st <> (Returned sample, st').
Proof.
  intro Hc. unfold __getitem__.
  match goal with
  | |- context [match ?h with _ => _ end] => destruct h as [[data|e] st1]
  end; [|discriminate].
  apply getitem_loop_all_attempts_raise.
  intros idx0 st0. now apply attempt_without_cache_raises.
Qed.

(** [cache_paths] draws and prints nothing. *)
Lemma cache_paths_state w self (cache_dir video_id video_dir : string) st :
  cache_paths w self cache_dir video_id video_dir st
  = (fst (cache_paths w self cache_dir video_id video_dir st), st).
Proof.
  unfold cache_paths. cbv beta iota zeta delta [bind lift ret raise].
  destruct (data_root self) as [root|].
  - destruct (makedirs w _); reflexivity.
  - destruct (list_setitem _ _ _) as [parts|e]; [|reflexivity].
    destruct (makedirs w _); reflexivity.
Qed.

(** What the video branch of [get_batch] returns. *)
Lemma get_batch_video_returns w self (idx : Z) (data : entry) st
    (tuple : list pyval) st' :
  content_type_of data = "video" ->
  get_batch w self idx data st = (Ok tuple, st') ->
  exists (text vid txt : string),
    dict_lookup data "text" = Some text
    /\ cache_dir self <> None
    /\ ((exists latent_idx text_embedding text_emb_masks,
            tuple = [VNone; VStr text; VStr "video"; VStr vid; VStr txt;
                     latent_idx; text_embedding; text_emb_masks]
            /\ st' = st)
        \/ (exists (a : array),
               tuple = [VArray a;
                        VStr (if Qltb (random_of_raw (rng st (S (cursor st))))
                                      (text_drop_ratio self)
                              then "" else text);
                        VStr "video"; VStr vid; VStr txt; VNone; VNone; VNone]
               /\ shape0 a = video_sample_n_frames self
               /\ st' = {| rng := rng st; cursor := S (S (cursor st));
                           printed := printed st |})).
Proof.
  intros Hty. unfold get_batch. rewrite Hty.
  cbn [String.eqb Ascii.eqb Bool.eqb].
  unfold dict_getitem.
  cbv beta iota zeta delta [bind lift ret raise].
  destruct (dict_lookup data "file_path") as [video_id|]; [|discriminate].
  destruct (dict_lookup data "text") as [text|]; [|discriminate].
  destruct (cache_dir self) as [cd|] eqn:Ec.
  2:{ intro H.
      destruct (read_video_without_cache_raises w self idx
                  (match data_root self with
                   | Some root => os_path_join root video_id
                   | None => video_id
                   end) text st) as (e & st1 & E).
      rewrite E in H. discriminate. }
  destruct (cache_paths w self cd video_id _ st) as [[[vid txt]|e] st1] eqn:Ecp;
    [|discriminate].
  rewrite cache_paths_state in Ecp. injection Ecp as Ecp <-. intro H. exists text, vid, txt.
  split; [reflexivity|]. split; [discriminate|].
  destruct (isfile w vid && isfile w txt).
  - left.
    repeat (break_match H; try discriminate).
    injection H as <- <-. eauto.
  - right. unfold read_video in H.
    cbv beta iota zeta delta [bind lift ret raise print random next_raw] in H.
    destruct (video_reader_len w _) as [n|e]; [|discriminate].
    destruct (batch_index_of self n st) as [[bi|e] st2] eqn:Eb; [|discriminate].
    apply batch_index_of_length in Eb as [Hlen ->].
    destruct (read_frames w _ bi); [|discriminate|discriminate].
    match type of H with
    | context [shape0 ?a <? _] =>
        destruct (shape0 a <? video_sample_n_frames self) eqn:Es;
        [discriminate|];
        assert (Hsh : shape0 a = len bi)
          by (destruct (negb (enable_bucket self)); reflexivity);
        exists a
    end.
    cbn [rng cursor printed] in H. injection H as <- <-.
    split; [reflexivity|]. split; [|reflexivity].
    apply Z.ltb_ge in Es. rewrite Hsh, Hlen in *.
    unfold min_sample_n_frames_of in *. lia.
Qed.

Lemma dict_lookup_setitem_same {V : Type} (d : dict V) (k : string) (v : V) :
  dict_lookup (dict_setitem d k v) k = Some v.
Proof.
  induction d as [|[k' v'] d IH]; cbn [dict_setitem dict_lookup].
  - now rewrite String.eqb_refl.
  - destruct (String.eqb k' k) eqn:E; cbn [dict_lookup].
    + now rewrite String.eqb_refl.
    + now rewrite E.
Qed.

Lemma dict_lookup_setitem_other {V : Type} (d : dict V) (k k' : string)
    (v : V) :
  k <> k' -> dict_lookup (dict_setitem d k v) k' = dict_lookup d k'.
Proof.
  intro Hne. induction d as [|[k0 v0] d IH]; cbn [dict_setitem dict_lookup].
  - destruct (String.eqb_spec k k'); [contradiction | reflexivity].
  - destruct (String.eqb_spec k0 k) as [->|E]; cbn [dict_lookup].
    + destruct (String.eqb_spec k k'); [contradiction | reflexivity].
    + now rewrite IH.
Qed.

(** A sample handed back by an attempt was made from a video entry. *)
Lemma attempt_returns_video w self (data_type : string) (idx : Z) st
    (sample : dict pyval) (ty : pyval) st' :
  attempt w self data_type idx st = (Ok (sample, ty), st') ->
  exists (data : entry) (text : string),
    list_getitem (dataset self) (idx mod len (dataset self)) = Ok data
    /\ data_type = "video"
    /\ content_type_of data = "video"
    /\ dict_lookup data "text" = Some text
    /\ cache_dir self <> None
    /\ ty = VStr "video"
    /\ dict_lookup sample "idx" = Some (VInt idx)
    /\ dict_lookup sample "data_type" = Some (VStr "video")
    /\ ((dict_lookup sample "pixel_values" = Some VNone
         /\ dict_lookup sample "text" = Some (VStr text))
        \/ (exists a : array,
               dict_lookup sample "pixel_values" = Some (VArray a)
               /\ shape0 a = video_sample_n_frames self
               /\ dict_lookup sample "text"
                  = Some (VStr (if Qltb (random_of_raw (rng st (S (cursor st))))
                                        (text_drop_ratio self)
                                then "" else text)))).
Proof.
  intro H.
  destruct (String.eqb_spec data_type "video") as [->|Hty].
  2:{ destruct (attempt_not_video_raises w self data_type idx st Hty)
        as (e & st1 & E). rewrite E in H. discriminate. }
  unfold attempt in H.
  cbv beta iota zeta delta [bind lift ret raise] in H.
  unfold py_mod in H.
  destruct (len (dataset self) =? 0); [discriminate|].
  destruct (list_getitem (dataset self) (idx mod len (dataset self)))
    as [data|e] eqn:Ed; [|discriminate].
  destruct (String.eqb_spec (content_type_of data) "video") as [E|E];
    cbn [negb] in H; [|discriminate].
  destruct (get_batch w self idx data st) as [[tuple|e] st1] eqn:Eg;
    [|discriminate].
  destruct (get_batch_video_returns w self idx data st tuple st1 E Eg)
    as (text & vid & txt & Htext & Hcd & Hcases).
  exists data, text.
  assert (Hfin :
    forall pv name,
      tuple = [pv; VStr name; VStr "video"; VStr vid; VStr txt] ++
              skipn 5 tuple ->
      List.length tuple = 8%nat ->
      ty = VStr "video"
      /\ dict_lookup sample "idx" = Some (VInt idx)
      /\ dict_lookup sample "data_type" = Some (VStr "video")
      /\ dict_lookup sample "pixel_values" = Some pv
      /\ dict_lookup sample "text" = Some (VStr name)).
  { intros pv name Et Hl.
    destruct tuple as [|t0 [|t1 [|t2 [|t3 [|t4 [|t5 [|t6 [|t7 [|t8 tl]]]]]]]]];
      try discriminate.
    cbn [skipn app] in Et. injection Et as -> -> -> -> ->.
    cbn [unpack8] in H.
    destruct (dict_lookup data "label") as [label|].
    - destruct (int_of_str w label) as [z|e]; [|discriminate].
      injection H as <- <- _. repeat split; reflexivity.
    - injection H as <- <- _. repeat split; reflexivity. }
  destruct Hcases as [(l1 & l2 & l3 & -> & ->)|(a & -> & Hsh & ->)].
  - destruct (Hfin VNone text eq_refl eq_refl) as (H1 & H2 & H3 & H4 & H5).
    repeat (split; [assumption || reflexivity|]). left. now split.
  - destruct (Hfin (VArray a) _ eq_refl eq_refl) as (H1 & H2 & H3 & H4 & H5).
    repeat (split; [assumption || reflexivity|]). right. eauto.
Qed.

(** The loop returns the sample of an attempt on the index asked for or
    on an index drawn in [0, self.length - 1]. *)
Lemma getitem_loop_returned w self (data_type : string) :
  forall (fuel : nat) (idx : Z) st (sample : dict pyval) st',
    getitem_loop w self fuel data_type idx st = (Returned sample, st') ->
    exists (idx' : Z) st0 (ty : pyval),
      (idx' = idx \/ 0 <= idx' <= length self - 1)
      /\ attempt w self data_type idx' st0 = (Ok (sample, ty), st').
Proof.
  induction fuel as [|fuel IH]; intros idx st sample st' Hrun;
    cbn [getitem_loop] in Hrun; [discriminate|].
  destruct (attempt w self data_type idx st) as [[[s ty]|e1] st1] eqn:Ha.
  - rewrite (attempt_sample_nonempty _ _ _ _ _ _ _ _ Ha) in Hrun.
    injection Hrun as <- <-. exists idx, st, ty. split; [now left | exact Ha].
  - match type of Hrun with
    | context [match ?h with _ => _ end] =>
        destruct h as [[idx1|e'] st2] eqn:Eh
    end; [|discriminate].
    destruct (IH idx1 st2 sample st' Hrun) as (idx' & st0 & ty & Hr & Hat).
    exists idx', st0, ty. split; [|exact Hat].
    destruct Hr as [->|Hr]; [|now right]. right.
    cbv beta iota zeta delta [bind lift ret raise print randint next_raw] in Eh.
    destruct (py_mod idx (len (dataset self))); [|discriminate].
    destruct (list_getitem (dataset self) _); [|discriminate].
    unfold randint_of_raw in Eh.
    destruct (length self - 1 <? 0) eqn:El; [discriminate|].
    injection Eh as <- _. apply Z.ltb_ge in El.
    pose proof (Z.mod_pos_bound
                  (Z.of_nat (rng st1 (cursor st1))) (length self - 1 - 0 + 1)).
    cbn [rng cursor]. lia.
Qed.

(** A sample that [__getitem__] returns is the sample of an attempt,
    made for 'video' on the index asked for or on an index drawn in
    [0, len(self.dataset) - 1]; the entry asked for is a video. *)
Lemma getitem_returned_attempt w (cfg : Config) (annotations : list entry)
    (fuel : nat) (idx : Z) st (sample : dict pyval) st' :
  let self := __init__ cfg annotations in
  __getitem__ w self fuel idx st = (Returned sample, st') ->
  exists (idx' : Z) (data0 : entry) st0 (ty : pyval),
    list_getitem (dataset self) (idx mod len (dataset self)) = Ok data0
    /\ content_type_of data0 = "video"
    /\ (idx' = idx \/ 0 <= idx' < len (dataset self))
    /\ attempt w self "video" idx' st0 = (Ok (sample, ty), st').
Proof.
  intros self Hrun. unfold __getitem__ in Hrun.
  cbv beta iota zeta delta [bind lift ret raise] in Hrun.
  unfold py_mod in Hrun.
  destruct (len (dataset self) =? 0); [discriminate|].
  destruct (list_getitem (dataset self) (idx mod len (dataset self)))
    as [data0|e] eqn:Ed0; [|discriminate].
  apply getitem_loop_returned in Hrun as (idx' & st0 & ty & Hr & Hat).
  destruct (attempt_returns_video _ _ _ _ _ _ _ _ Hat)
    as (_ & _ & _ & Hty & _).
  exists idx', data0, st0, ty. split; [reflexivity|]. split; [exact Hty|].
  rewrite <- Hty. split; [|exact Hat].
  destruct Hr as [->|Hr]; [now left|]. right.
  change (length self) with (len (dataset self)) in Hr. lia.
Qed.

(** X12.  What a sample returned by [__getitem__] is.  The entry asked for
    is a video; the sample was made from a video entry, at the index asked
    for or at an index of [0, len(self.dataset) - 1]; its 'idx' is that
    index and its 'data_type' is 'video'; [cache_dir] is set; and its
    'pixel_values' is [None] (the cached case) or a clip of exactly
    [video_sample_n_frames] frames. *)
Theorem X12_getitem_returns_video_sample w (cfg : Config)
    (annotations : list entry) (fuel : nat) (idx : Z) st
    (sample : dict pyval) st' :
  let self := __init__ cfg annotations in
  __getitem__ w self fuel idx st = (Returned sample, st') ->
  exists (idx' : Z) (data0 data : entry),
    list_getitem (dataset self) (idx mod len (dataset self)) = Ok data0
    /\ content_type_of data0 = "video"
    /\ (idx' = idx \/ 0 <= idx' < len (dataset self))
    /\ list_getitem (dataset self) (idx' mod len (dataset self)) = Ok data
    /\ content_type_of data = "video"
    /\ cache_dir self <> None
    /\ dict_lookup sample "idx" = Some (VInt idx')
    /\ dict_lookup sample "data_type" = Some (VStr "video")
    /\ (dict_lookup sample "pixel_values" = Some VNone
        \/ exists a : array,
             dict_lookup sample "pixel_values" = Some (VArray a)
             /\ shape0 a = video_sample_n_frames self).
Proof.
  intros self Hrun.
  apply getitem_returned_attempt in Hrun
    as (idx' & data0 & st0 & ty & Hd0 & Hty0 & Hr & Hat).
  apply attempt_returns_video in Hat
    as (data & text & Hd & _ & Hv & Htext & Hcd & _ & Hi & Hdt & Hpv).
  exists idx', data0, data.
  repeat (split; [assumption|]).
  destruct Hpv as [[Hpv _]|(a & Ha & Hs & _)]; [now left|].
  right. exists a. now split.
Qed.

Lemma random_of_raw_range (raw : nat) :
  (0 <= random_of_raw raw)%Q /\ (random_of_raw raw < 1)%Q.
Proof.
  unfold random_of_raw, Qle, Qlt. cbn [Qnum Qden].
  pose proof (Z.mod_pos_bound (Z.of_nat raw) (2 ^ 53) ltac:(lia)).
  change (Z.pos (2 ^ 53)) with (2 ^ 53). lia.
Qed.

(** X16.  The caption of a returned sample is the 'text' of its entry or
    the empty string.  It is the text of the entry whenever the sample
    comes from the cache, whatever [text_drop_ratio], and whenever
    [text_drop_ratio <= 0]; it is empty whenever [text_drop_ratio >= 1]
    and the frames were decoded. *)
Theorem X16_getitem_text_drop w (cfg : Config) (annotations : list entry)
    (fuel : nat) (idx : Z) st (sample : dict pyval) st' :
  let self := __init__ cfg annotations in
  __getitem__ w self fuel idx st = (Returned sample, st') ->
  exists (idx' : Z) (data : entry) (text : string),
    dict_lookup sample "idx" = Some (VInt idx')
    /\ list_getitem (dataset self) (idx' mod len (dataset self)) = Ok data
    /\ dict_lookup data "text" = Some text
    /\ (dict_lookup sample "text" = Some (VStr text)
        \/ dict_lookup sample "text" = Some (VStr ""))
    /\ (dict_lookup sample "pixel_values" = Some VNone ->
        dict_lookup sample "text" = Some (VStr text))
    /\ ((text_drop_ratio self <= 0)%Q ->
        dict_lookup sample "text" = Some (VStr text))
    /\ ((1 <= text_drop_ratio self)%Q ->
        dict_lookup sample "pixel_values" <> Some VNone ->
        dict_lookup sample "text" = Some (VStr "")).
Proof.
  intros self Hrun.
  apply getitem_returned_attempt in Hrun
    as (idx' & data0 & st0 & ty & _ & _ & _ & Hat).
  apply attempt_returns_video in Hat
    as (data & text & Hd & _ & _ & Htext & _ & _ & Hi & _ & Hpv).
  exists idx', data, text.
  split; [exact Hi|]. split; [exact Hd|]. split; [exact Htext|].
  destruct Hpv as [[Hpv Ht]|(a & Ha & _ & Ht)].
  - split; [now left|]. split; [auto|]. split; [auto|].
    intros _ Hn. contradiction.
  - destruct (random_of_raw_range (rng st0 (S (cursor st0)))) as [H0 H1].
    subst self.
    destruct (Qltb _ _) eqn:Eq in Ht.
    + apply Qltb_lt in Eq.
      split; [now right|]. split; [rewrite Ha; discriminate|].
      split; [intro Hr; exfalso; lra | auto].
    + split; [now left|]. split; [auto|]. split; [auto|].
      intros Hr _. exfalso.
      assert (Hlt : (random_of_raw (rng st0 (S (cursor st0)))
                     < text_drop_ratio (__init__ cfg annotations))%Q) by lra.
      apply Qltb_lt in Hlt. congruence.
Qed.

Lemma list_getitem_nonempty {A : Type} (l : list A) (i : Z) (a : A) :
  list_getitem l i = Ok a -> l <> [].
Proof.
  intros H ->. unfold list_getitem in H.
  destruct (_ || _); [discriminate|].
  now destruct (Z.to_nat _).
Qed.

(** X10.  A cache hit: for a video entry without 'label' whose two cache
    files exist and hold the three cached values, [__getitem__] returns at
    its first attempt, for the index asked for, a sample whose
    'pixel_values' is [None], whose 'text' is the caption of the entry,
    and which carries the two cache paths and the three cached values; no
    random number is drawn and nothing is printed. *)
Theorem X10_getitem_cache_hit w (cfg : Config) (annotations : list entry)
    (fuel : nat) (idx : Z) st (data : entry)
    (video_id text cache vid txt : string) (d1 d2 : dict pyval)
    (latent_idx text_embedding text_emb_masks : pyval) :
  let self := __init__ cfg annotations in
  list_getitem (dataset self) (idx mod len (dataset self)) = Ok data ->
  content_type_of data = "video" ->
  dict_lookup data "file_path" = Some video_id ->
  dict_lookup data "text" = Some text ->
  dict_lookup data "label" = None ->
  cache_dir self = Some cache ->
  fst (cache_paths w self cache video_id
         (match data_root self with
          | None => video_id
          | Some root => os_path_join root video_id
          end) st) = Ok (vid, txt) ->
  isfile w vid = true ->
  isfile w txt = true ->
  pickle_load w vid = Ok d1 ->
  dict_lookup d1 "latent_idx" = Some latent_idx ->
  pickle_load w txt = Ok d2 ->
  dict_lookup d2 "text_embedding" = Some text_embedding ->
  dict_lookup d2 "text_emb_masks" = Some text_emb_masks ->
  __getitem__ w self (S fuel) idx st
  = (Returned [("pixel_values", VNone); ("text", VStr text);
               ("data_type", VStr "video"); ("idx", VInt idx);
               ("vid_cache_path", VStr vid); ("text_cache_path", VStr txt);
               ("latent_idx", latent_idx);
               ("text_embedding", text_embedding);
               ("text_emb_masks", text_emb_masks)], st).
Proof.
  intros self Hd Hty Hpath Htext Hlabel Hcd Hcp Hf1 Hf2 Hl1 Hk1 Hl2 Hk2 Hk3.
  assert (Hlen : (len (dataset self) =? 0) = false).
  { apply Z.eqb_neq. intro E. apply len_nil_iff in E.
    apply (list_getitem_nonempty _ _ _ Hd E). }
  assert (Hget : get_batch w self idx data st
                 = (Ok [VNone; VStr text; VStr "video"; VStr vid; VStr txt;
                        latent_idx; text_embedding; text_emb_masks], st)).
  { unfold get_batch. rewrite Hty. cbn [String.eqb Ascii.eqb Bool.eqb].
    unfold dict_getitem. rewrite Hpath, Htext, Hcd.
    cbv beta iota zeta delta [bind lift ret raise].
    rewrite cache_paths_state, Hcp, Hf1, Hf2, Hl1, Hl2. cbn [andb].
    now rewrite Hk1, Hk2, Hk3. }
  assert (Hat : attempt w self "video" idx st
                = (Ok ([("pixel_values", VNone); ("text", VStr text);
                        ("data_type", VStr "video"); ("idx", VInt idx);
                        ("vid_cache_path", VStr vid);
                        ("text_cache_path", VStr txt);
                        ("latent_idx", latent_idx);
                        ("text_embedding", text_embedding);
                        ("text_emb_masks", text_emb_masks)], VStr "video"),
                   st)).
  { unfold attempt, py_mod. rewrite Hlen.
    cbv beta iota zeta delta [bind lift ret raise].
    rewrite Hd, Hty. cbn [String.eqb Ascii.eqb Bool.eqb negb].
    rewrite Hget. cbn [unpack8]. rewrite Hlabel. reflexivity. }
  unfold __getitem__, py_mod. rewrite Hlen.
  cbv beta iota zeta delta [bind lift ret raise].
  rewrite Hd, Hty. cbn [getitem_loop]. rewrite Hat. reflexivity.
Qed.

(** X17.  With [cache_dir] set and no [data_root], the cache path is made
    by replacing the third component from the end of the video path: for a
    video path of fewer than three components the assignment
    [cache_path[-3] = self.cache_dir] raises IndexError, and the attempt
    of [__getitem__] on such an entry fails before any file is read. *)
Theorem X17_attempt_short_path_raises w self (idx : Z) st (data : entry)
    (video_id text cache : string) :
  list_getitem (dataset self) (idx mod len (dataset self)) = Ok data ->
  content_type_of data = "video" ->
  dict_lookup data "file_path" = Some video_id ->
  dict_lookup data "text" = Some text ->
  data_root self = None ->
  cache_dir self = Some cache ->
  len (str_split slash video_id) < 3 ->
  attempt w self "video" idx st
  = (Raise (IndexError "list assignment index out of range"), st).
Proof.
  intros Hd Hty Hpath Htext Hroot Hcd Hshort.
  destruct (entry_of_idx self idx (list_getitem_nonempty _ _ _ Hd))
    as (data' & Hmod & _).
  unfold attempt. rewrite Hmod.
  cbv beta iota zeta delta [bind lift ret raise].
  rewrite Hd, Hty. cbn [String.eqb Ascii.eqb Bool.eqb negb].
  unfold get_batch. rewrite Hty. cbn [String.eqb Ascii.eqb Bool.eqb].
  unfold dict_getitem. rewrite Hpath, Htext, Hcd, Hroot.
  cbv beta iota zeta delta [bind lift ret raise].
  unfold cache_paths. rewrite Hroot.
  cbv beta iota zeta delta [bind lift ret raise].
  unfold list_setitem. cbn [Z.ltb Z.compare].
  replace ((-3 + len (str_split slash video_id) <? 0)
           || (len (str_split slash video_id)
               <=? -3 + len (str_split slash video_id))) with true;
    [reflexivity|].
  symmetry. apply orb_true_iff. left. apply Z.ltb_lt. lia.
Qed.

End GetitemMoreFacts.

Section CachePathFacts.
Import dataset_image_video DatasetSpec ImageVideoDataset MoreSpec.

Implicit Types (w : World) (self : ImageVideoDataset.t) (st : state).

Lemma str_split_nonempty (s : string) : str_split slash s <> [].
Proof.
  destruct s as [|ch s']; cbn [str_split]; [discriminate|].
  destruct (Ascii.eqb ch slash); [discriminate|].
  destruct (str_split slash s'); discriminate.
Qed.

Lemma str_split_component (a rest : string) :
  no_slash a = true ->
  str_split slash (a +s+ String.String slash rest) = a :: str_split slash rest.
Proof.
  unfold str_add. induction a as [|ch a IH]; cbn [no_slash String.append str_split].
  - intros _. now rewrite Ascii.eqb_refl.
  - intro H. apply andb_true_iff in H as [Hch Ha].
    apply negb_true_iff in Hch. rewrite Hch, (IH Ha). reflexivity.
Qed.

Lemma str_split_no_slash (a : string) :
  no_slash a = true -> str_split slash a = [a].
Proof.
  induction a as [|ch a IH]; cbn [no_slash str_split]; [reflexivity|].
  intro H. apply andb_true_iff in H as [Hch Ha].
  apply negb_true_iff in Hch. now rewrite Hch, (IH Ha).
Qed.

Lemma str_join_split (s : string) : str_join "/" (str_split slash s) = s.
Proof.
  unfold str_join. induction s as [|ch s IH]; cbn [str_split]; [reflexivity|].
  destruct (Ascii.eqb_spec ch slash) as [->|Hne].
  - pose proof (str_split_nonempty s) as Hn.
    destruct (str_split slash s) as [|h t]; [contradiction|].
    change (String.concat "/" ("" :: h :: t))
      with (String.append "" (String.append "/" (String.concat "/" (h :: t)))).
    rewrite IH. reflexivity.
  - pose proof (str_split_nonempty s) as Hn.
    destruct (str_split slash s) as [|h t]; [contradiction|].
    destruct t as [|h' t'].
    + cbn [String.concat] in *. now rewrite IH.
    + change (String.concat "/" (String.String ch h :: h' :: t'))
        with (String.String ch
                (String.append h
                   (String.append "/" (String.concat "/" (h' :: t'))))).
      change (String.concat "/" (h :: h' :: t'))
        with (String.append h
                (String.append "/" (String.concat "/" (h' :: t')))) in IH.
      now rewrite IH.
Qed.

Lemma slice_tail {A : Type} (a : A) (l : list A) :
  slice (a :: l) (Some 1) None = l.
Proof.
  change (a :: l) with ([a] ++ l). apply (slice_from_app [a] l).
Qed.

(** X18.  With [data_root] set, the cache files of a video do not depend
    on the first directory of its path: for the path [a/rest] they are
    [data_root/cache_dir/rest] with its last four characters replaced by
    '_vid.pkl' and '_txt.pkl'.  For a path without a directory they are
    made from [data_root/cache_dir/] alone, the same for every such
    video. *)
Theorem X18_cache_paths_drop_first_directory w self (root cache_dir a rest : string)
    (video_dir : string) st :
  data_root self = Some root ->
  no_slash a = true ->
  let cache_path := root +s+ "/" +s+ cache_dir +s+ "/" +s+ rest in
  cache_paths w self cache_dir (a +s+ "/" +s+ rest) video_dir st
  = (match makedirs w (os_path_dirname cache_path) with
     | Some e => Raise e
     | None => Ok (str_slice_to cache_path (-4) +s+ "_vid.pkl",
                   str_slice_to cache_path (-4) +s+ "_txt.pkl")
     end, st)
  /\ cache_paths w self cache_dir a video_dir st
     = (match makedirs w (os_path_dirname (root +s+ "/" +s+ cache_dir +s+ "/"))
        with
        | Some e => Raise e
        | None =>
            Ok (str_slice_to (root +s+ "/" +s+ cache_dir +s+ "/") (-4)
                +s+ "_vid.pkl",
                str_slice_to (root +s+ "/" +s+ cache_dir +s+ "/") (-4)
                +s+ "_txt.pkl")
        end, st).
Proof.
  intros Hroot Ha cache_path. unfold cache_paths. rewrite Hroot.
  cbv beta iota zeta delta [bind lift ret raise].
  change ("/" +s+ rest) with (String.String slash rest).
  rewrite (str_split_component a rest Ha), slice_tail, str_join_split.
  rewrite (str_split_no_slash a Ha), slice_tail.
  change (str_join "/" []) with "".
  fold cache_path. split.
  - now destruct (makedirs w (os_path_dirname cache_path)).
  - now destruct (makedirs w _).
Qed.

End CachePathFacts.

(* ===================================================================== *)
(** * Further properties of [ImageVideoSampler]                           *)
(* ===================================================================== *)

Section SamplerMoreFacts.
Import dataset_image_video DatasetSpec ImageVideoSampler MoreSpec.

Lemma of_type_all (ds : list entry) (ty : string) (l : list Z) :
  Forall (refers_to ds ty) l -> of_type ds ty l = l.
Proof.
  induction 1 as [|idx l (data & Hd & Ht) _ IH]; [reflexivity|].
  unfold of_type in *. cbn [filter]. rewrite Hd, Ht, String.eqb_refl.
  now rewrite IH.
Qed.

Lemma of_type_none (ds : list entry) (ty ty' : string) (l : list Z) :
  ty <> ty' -> Forall (refers_to ds ty) l -> of_type ds ty' l = [].
Proof.
  intros Hne. induction 1 as [|idx l (data & Hd & Ht) _ IH]; [reflexivity|].
  unfold of_type in *. cbn [filter]. rewrite Hd, Ht.
  destruct (String.eqb_spec ty ty'); [contradiction | exact IH].
Qed.

Lemma of_type_app (ds : list entry) (ty : string) (l1 l2 : list Z) :
  of_type ds ty (l1 ++ l2) = of_type ds ty l1 ++ of_type ds ty l2.
Proof. apply filter_app. Qed.

(** One step of the loop on a sampler whose buckets are not full. *)
Lemma iter_step_ordered self idx (y : option (list Z)) self' :
  sampler_inv self ->
  buckets_below_size self ->
  iter_step self idx = Ok (y, self') ->
  buckets_below_size self'
  /\ (forall b, y = Some b -> b <> [])
  /\ forall ty, ty = "image" \/ ty = "video" ->
       of_type (dataset self) ty (match y with Some b => b | None => [] end)
       ++ dict_get (bucket self') ty []
       = dict_get (bucket self) ty [] ++ of_type (dataset self) ty [idx].
Proof.
  intros (image & video & Hb & Himg & Hvid) [Hsi Hsv] Hstep.
  unfold iter_step in Hstep.
  destruct (list_getitem (dataset self) idx) as [data|e] eqn:Hdata;
    [|discriminate].
  assert (Hidx : refers_to (dataset self) (content_type_of data) idx)
    by (exists data; split; [exact Hdata | reflexivity]).
  unfold buckets_below_size, dict_getitem, dict_get in *.
  rewrite Hb in *. cbn [dict_lookup String.eqb Ascii.eqb Bool.eqb] in Hsi, Hsv.
  cbn [dict_lookup] in Hstep.
  assert (Hone : forall ty, of_type (dataset self) ty [idx]
                            = if String.eqb (content_type_of data) ty
                              then [idx] else []).
  { intros ty. unfold of_type. cbn [filter]. rewrite Hdata.
    now destruct (String.eqb (content_type_of data) ty). }
  destruct (String.eqb_spec "image" (content_type_of data)) as [Ei|Ei].
  - (* an image index *)
    rewrite <- Ei in *. cbn in Hstep.
    assert (Hf : (len video =? batch_size self) = false)
      by (apply Z.eqb_neq; lia).
    rewrite Hf in Hstep.
    assert (Hall : Forall (refers_to (dataset self) "image") (image ++ [idx]))
      by (apply Forall_app; split; [exact Himg | now constructor]).
    destruct (len (image ++ [idx]) =? image_batch_size self) eqn:Em.
    + injection Hstep as <- <-. cbn [bucket set_bucket image_batch_size
        batch_size dict_setitem dict_lookup String.eqb Ascii.eqb Bool.eqb].
      apply Z.eqb_eq in Em. rewrite len_app in Em.
      change (len [idx]) with 1 in Em. pose proof (len_nonneg image).
      split; [split; [change (len (@nil Z)) with 0; lia | exact Hsv]|].
      split; [intros b [= <-]; now destruct image|].
      intros ty [-> | ->]; rewrite Hone;
        cbn [dict_lookup String.eqb Ascii.eqb Bool.eqb].
      * rewrite (of_type_all _ _ _ Hall). now rewrite app_nil_r.
      * rewrite (of_type_none _ "image" "video" _ ltac:(discriminate) Hall).
        now rewrite app_nil_r.
    + injection Hstep as <- <-. cbn [bucket set_bucket image_batch_size
        batch_size dict_setitem dict_lookup String.eqb Ascii.eqb Bool.eqb].
      apply Z.eqb_neq in Em. rewrite len_app in *.
      change (len [idx]) with 1 in *.
      split; [split; [lia | exact Hsv]|].
      split; [discriminate|].
      intros ty [-> | ->]; rewrite Hone;
        cbn [dict_lookup String.eqb Ascii.eqb Bool.eqb of_type filter app];
        [reflexivity | now rewrite app_nil_r].
  - destruct (String.eqb_spec "video" (content_type_of data)) as [Ev|Ev];
      [|discriminate].
    (* a video index *)
    rewrite <- Ev in *. cbn in Hstep.
    assert (Hall : Forall (refers_to (dataset self) "video") (video ++ [idx]))
      by (apply Forall_app; split; [exact Hvid | now constructor]).
    destruct (len (video ++ [idx]) =? batch_size self) eqn:Eb.
    + injection Hstep as <- <-. cbn [bucket set_bucket image_batch_size
        batch_size dict_setitem dict_lookup String.eqb Ascii.eqb Bool.eqb].
      apply Z.eqb_eq in Eb. rewrite len_app in Eb.
      change (len [idx]) with 1 in Eb. pose proof (len_nonneg video).
      split; [split; [exact Hsi | change (len (@nil Z)) with 0; lia]|].
      split; [intros b [= <-]; now destruct video|].
      intros ty [-> | ->]; rewrite Hone;
        cbn [dict_lookup String.eqb Ascii.eqb Bool.eqb].
      * rewrite (of_type_none _ "video" "image" _ ltac:(discriminate) Hall).
        now rewrite app_nil_r.
      * rewrite (of_type_all _ _ _ Hall). now rewrite app_nil_r.
    + assert (Hf : (len image =? image_batch_size self) = false)
        by (apply Z.eqb_neq; lia).
      rewrite Hf in Hstep.
      injection Hstep as <- <-. cbn [bucket set_bucket image_batch_size
        batch_size dict_setitem dict_lookup String.eqb Ascii.eqb Bool.eqb].
      apply Z.eqb_neq in Eb. rewrite len_app in *.
      change (len [idx]) with 1 in *.
      split; [split; [exact Hsi | lia]|].
      split; [discriminate|].
      intros ty [-> | ->]; rewrite Hone;
        cbn [dict_lookup String.eqb Ascii.eqb Bool.eqb of_type filter app];
        [now rewrite app_nil_r | reflexivity].
Qed.

(** A whole run of [__iter__] on a sampler whose buckets are not full. *)
Lemma iter_ordered (sampler : list Z) :
  forall self (ys : list (list Z)) self' (e : option exn),
    sampler_inv self ->
    buckets_below_size self ->
    __iter__ self sampler = (ys, self', e) ->
    buckets_below_size self'
    /\ Forall (fun b => b <> []) ys
    /\ (e = None ->
        forall ty, ty = "image" \/ ty = "video" ->
          of_type (dataset self) ty (concat ys) ++ dict_get (bucket self') ty []
          = dict_get (bucket self) ty [] ++ of_type (dataset self) ty sampler).
Proof.
  induction sampler as [|idx rest IH]; intros self ys self' e Hinv Hsz Hrun.
  - injection Hrun as <- <- <-. split; [exact Hsz|]. split; [constructor|].
    intros _ ty _. cbn [concat of_type filter app]. now rewrite app_nil_r.
  - cbn [__iter__] in Hrun.
    destruct (iter_step self idx) as [[y self1]|e1] eqn:Hstep.
    + destruct (__iter__ self1 rest) as [[ys1 self2] e2] eqn:Hrest.
      injection Hrun as <- <- <-.
      destruct (iter_step_spec self idx y self1 Hinv Hstep)
        as (Hinv1 & (Hds & _) & _ & _).
      destruct (iter_step_ordered self idx y self1 Hinv Hsz Hstep)
        as (Hsz1 & Hy & Hord1).
      destruct (IH self1 ys1 self2 e2 Hinv1 Hsz1 Hrest)
        as (Hsz2 & Hys & Hord2).
      split; [exact Hsz2|]. split.
      * destruct y as [b|]; [constructor; auto | exact Hys].
      * intros He ty Hty. specialize (Hord2 He ty Hty).
        specialize (Hord1 ty Hty). rewrite Hds in Hord2.
        change (idx :: rest) with ([idx] ++ rest).
        rewrite of_type_app, app_assoc, <- Hord1, <- app_assoc, <- Hord2.
        rewrite app_assoc. f_equal.
        destruct y as [b|]; cbn [concat];
          [now rewrite of_type_app | reflexivity].
    + injection Hrun as <- <- <-. split; [exact Hsz|]. split; [constructor|].
      discriminate.
Qed.

Lemma epochs_below_size (samplers : list (list Z)) :
  forall self (yss : list (list (list Z))) self',
    sampler_inv self ->
    buckets_below_size self ->
    epochs self samplers = (yss, self') ->
    sampler_inv self' /\ buckets_below_size self' /\ same_settings self self'.
Proof.
  induction samplers as [|s rest IH]; intros self yss self' Hinv Hsz Hrun.
  - injection Hrun as <- <-.
    split; [exact Hinv|]. split; [exact Hsz|]. apply same_settings_refl.
  - cbn [epochs] in Hrun.
    destruct (__iter__ self s) as [[ys self1] e] eqn:Hs.
    destruct (epochs self1 rest) as [yss1 self2] eqn:Hr.
    injection Hrun as <- <-.
    destruct (iter_spec s self ys self1 e Hinv Hs) as (Hinv1 & Hset1 & _).
    destruct (iter_ordered s self ys self1 e Hinv Hsz Hs) as (Hsz1 & _).
    destruct (IH self1 yss1 self2 Hinv1 Hsz1 Hr) as (Hinv2 & Hsz2 & Hset2).
    split; [exact Hinv2|]. split; [exact Hsz2|].
    exact (same_settings_trans _ _ _ Hset1 Hset2).
Qed.

Lemma init_below_size (ds : list entry) (bs ibs : Z) (dl : bool) self0 :
  ImageVideoSampler.__init__ ds bs ibs dl = Ok self0 ->
  1 <= ibs ->
  buckets_below_size self0
  /\ dataset self0 = ds /\ batch_size self0 = bs
  /\ image_batch_size self0 = ibs.
Proof.
  unfold ImageVideoSampler.__init__. destruct (bs <=? 0) eqn:E; [discriminate|].
  intros H Hibs. injection H as <-. apply Z.leb_gt in E.
  unfold buckets_below_size. cbn. repeat split; lia.
Qed.

(** X14.  For a sampler made with [image_batch_size >= 1], at the end of a
    pass, when every pass before was consumed to the end of its base
    sampler (a generator left at a [yield] has not run the [del] that
    follows, and its batch stays in the bucket): no batch yielded is
    empty, the image bucket holds fewer than [image_batch_size] indices
    and the video bucket fewer than [batch_size]; so a pass that ends
    normally yields all the indices of its base sampler but at most
    [batch_size + image_batch_size - 2]. *)
Theorem X14_sampler_withholds_less_than_a_batch (ds : list entry) (bs ibs : Z)
    (dl : bool) self0 (earlier : list (list Z))
    (before : list (list (list Z))) self (sampler : list Z)
    (ys : list (list Z)) self' (e : option exn) :
  ImageVideoSampler.__init__ ds bs ibs dl = Ok self0 ->
  1 <= ibs ->
  epochs self0 earlier = (before, self) ->
  __iter__ self sampler = (ys, self', e) ->
  Forall (fun b => b <> []) ys
  /\ len (dict_get (bucket self') "image" []) < ibs
  /\ len (dict_get (bucket self') "video" []) < bs
  /\ (e = None -> len sampler - (bs + ibs - 2) <= len (concat ys)).
Proof.
  intros Hinit Hibs Hep Hrun.
  destruct (init_inv ds bs ibs dl self0 Hinit) as (Hinv0 & _ & _).
  destruct (init_below_size ds bs ibs dl self0 Hinit Hibs)
    as (Hsz0 & Hds & Hbs & Hib).
  destruct (epochs_below_size earlier self0 before self Hinv0 Hsz0 Hep)
    as (Hinv & Hsz & (_ & Hbs1 & Hib1 & _)).
  destruct (iter_spec sampler self ys self' e Hinv Hrun)
    as (_ & (_ & Hbs2 & Hib2 & _) & _ & Hperm).
  destruct (iter_ordered sampler self ys self' e Hinv Hsz Hrun)
    as ([Hi Hv] & Hne & _).
  rewrite Hib2, Hib1, Hib in Hi. rewrite Hbs2, Hbs1, Hbs in Hv.
  split; [exact Hne|]. split; [exact Hi|]. split; [exact Hv|].
  intros He. specialize (Hperm He).
  apply Permutation_length in Hperm. rewrite !length_app in Hperm.
  unfold leftover in Hperm. rewrite !length_app in Hperm.
  unfold len in *. lia.
Qed.

(** X20.  Within each content type the sampler keeps the order of the base
    sampler: for 'image' and for 'video', the indices of that type in the
    batches of a pass, in order, followed by the bucket at the end of the
    pass, are the bucket at its start followed by the indices of that type
    of the base sampler, in order.  The bucket at the start of the first
    pass is empty. *)
Theorem X20_sampler_keeps_order_within_type (ds : list entry) (bs ibs : Z)
    (dl : bool) self0 (earlier : list (list Z))
    (before : list (list (list Z))) self (sampler : list Z)
    (ys : list (list Z)) self' (ty : string) :
  ImageVideoSampler.__init__ ds bs ibs dl = Ok self0 ->
  1 <= ibs ->
  epochs self0 earlier = (before, self) ->
  __iter__ self sampler = (ys, self', None) ->
  ty = "image" \/ ty = "video" ->
  of_type ds ty (concat ys) ++ dict_get (bucket self') ty []
  = dict_get (bucket self) ty [] ++ of_type ds ty sampler
  /\ (earlier = [] -> dict_get (bucket self) ty [] = []).
Proof.
  intros Hinit Hibs Hep Hrun Hty.
  destruct (init_inv ds bs ibs dl self0 Hinit) as (Hinv0 & _ & _).
  destruct (init_below_size ds bs ibs dl self0 Hinit Hibs)
    as (Hsz0 & Hds & _ & _).
  destruct (epochs_below_size earlier self0 before self Hinv0 Hsz0 Hep)
    as (Hinv & Hsz & (Hds1 & _)).
  destruct (iter_ordered sampler self ys self' None Hinv Hsz Hrun)
    as (_ & _ & Hord).
  split.
  - rewrite <- Hds, <- Hds1. now apply Hord.
  - intros ->. cbn [epochs] in Hep. injection Hep as _ <-.
    unfold ImageVideoSampler.__init__ in Hinit.
    destruct (bs <=? 0); [discriminate|]. injection Hinit as <-.
    destruct Hty as [-> | ->]; reflexivity.
Qed.

Lemma iter_app (pre post : list Z) :
  forall self,
    __iter__ self (pre ++ post)
    = let '(ys, self1, e) := __iter__ self pre in
      match e with
      | Some _ => (ys, self1, e)
      | None =>
          let '(ys2, self2, e2) := __iter__ self1 post in
          (ys ++ ys2, self2, e2)
      end.
Proof.
  induction pre as [|idx pre IH]; intros self; cbn [app __iter__].
  - now destruct (__iter__ self post) as [[ys2 self2] e2].
  - destruct (iter_step self idx) as [[y self1]|e1]; [|reflexivity].
    rewrite IH. destruct (__iter__ self1 pre) as [[ys1 self2] [e|]].
    + reflexivity.
    + destruct (__iter__ self2 post) as [[ys2 self3] e2].
      now destruct y.
Qed.

(** X15.  [ImageVideoDataset.__init__] keeps an annotation of a content
    type that is neither 'image' nor 'video', and the sampler has no bucket
    for it: at the index of such an entry [self.bucket[content_type]]
    raises KeyError, in whatever pass and after whatever indices, and the
    pass ends there, with the batches yielded before. *)
Theorem X15_sampler_unknown_type_ends_the_pass (cfg : ImageVideoDataset.Config)
    (annotations : list entry) (data : entry) (bs ibs : Z) (dl : bool) :
  In data annotations ->
  content_type_of data <> "image" ->
  content_type_of data <> "video" ->
  0 < bs ->
  exists idx self0,
    list_getitem
      (ImageVideoDataset.dataset (ImageVideoDataset.__init__ cfg annotations))
      idx = Ok data
    /\ ImageVideoSampler.__init__
         (ImageVideoDataset.dataset (ImageVideoDataset.__init__ cfg annotations))
         bs ibs dl = Ok self0
    /\ forall (earlier : list (list Z)) (before : list (list (list Z))) self
              (pre post : list Z),
         epochs self0 earlier = (before, self) ->
         iter_step (snd (fst (__iter__ self pre))) idx
         = Raise (KeyError (content_type_of data))
         /\ exists e,
              __iter__ self (pre ++ idx :: post)
              = (fst (fst (__iter__ self pre)), snd (fst (__iter__ self pre)),
                 Some e).
Proof.
  intros Hin Hi Hv Hbs.
  set (ds := ImageVideoDataset.dataset (ImageVideoDataset.__init__ cfg annotations)).
  assert (Hin' : In data ds).
  { unfold ds. cbn [ImageVideoDataset.dataset ImageVideoDataset.__init__].
    rewrite build_dataset_eq. apply in_or_app. left.
    unfold non_video. apply filter_In. split; [exact Hin|].
    now apply negb_true_iff, String.eqb_neq. }
  apply In_nth_error in Hin' as (n & Hn).
  assert (Hlt : (n < List.length ds)%nat)
    by (apply nth_error_Some; congruence).
  assert (Hget : list_getitem ds (Z.of_nat n) = Ok data).
  { unfold list_getitem.
    destruct (Z.of_nat n <? 0) eqn:E1; [apply Z.ltb_lt in E1; lia|].
    rewrite E1. cbn [orb].
    destruct (len ds <=? Z.of_nat n) eqn:E2;
      [apply Z.leb_le in E2; unfold len in E2; lia|].
    now rewrite Nat2Z.id, Hn. }
  exists (Z.of_nat n).
  unfold ImageVideoSampler.__init__.
  destruct (bs <=? 0) eqn:E; [apply Z.leb_le in E; lia|].
  eexists. split; [exact Hget|]. split; [reflexivity|].
  intros earlier before self pre post Hep.
  match type of Hep with
  | epochs ?s0 _ = _ =>
      assert (Hinv0 : sampler_inv s0)
        by (exists [], []; repeat split; constructor);
      destruct (epochs_inv earlier s0 before self Hinv0 Hep)
        as (Hinv & (Hds & _) & _)
  end.
  cbn [dataset] in Hds.
  destruct (__iter__ self pre) as [[ys1 self1] e1] eqn:Hpre.
  destruct (iter_spec pre self ys1 self1 e1 Hinv Hpre)
    as ((image & video & Hb & _) & (Hds1 & _) & _).
  cbn [fst snd].
  assert (Hstep : iter_step self1 (Z.of_nat n)
                  = Raise (KeyError (content_type_of data))).
  { unfold iter_step. rewrite Hds1, Hds. fold ds. rewrite Hget.
    unfold dict_getitem. rewrite Hb. cbn [dict_lookup].
    destruct (String.eqb_spec "image" (content_type_of data)); [congruence|].
    destruct (String.eqb_spec "video" (content_type_of data)); [congruence|].
    reflexivity. }
  split; [exact Hstep|].
  rewrite iter_app, Hpre. destruct e1 as [e1|]; [eauto|].
  cbn [__iter__]. rewrite Hstep. rewrite app_nil_r. eauto.
Qed.

(** X19.  [image_batch_size] is not checked by [__init__].  With the value
    0, as long as the image bucket is empty, a video index that does not
    complete a video batch makes the sampler yield an empty batch: the
    test of line 69 compares the length 0 of the image bucket with 0. *)
Theorem X19_sampler_zero_image_batch_size self (idx : Z) (video : list Z) :
  bucket self = [("image", []); ("video", video)] ->
  image_batch_size self = 0 ->
  refers_to (dataset self) "video" idx ->
  len video + 1 <> batch_size self ->
  iter_step self idx
  = Ok (Some [], set_bucket self [("image", []); ("video", video ++ [idx])]).
Proof.
  intros Hb Hibs (data & Hd & Hty) Hbs.
  unfold iter_step. rewrite Hd, Hty, Hb. unfold dict_getitem.
  cbn [dict_lookup String.eqb Ascii.eqb Bool.eqb bucket set_bucket
       dict_setitem batch_size image_batch_size].
  rewrite len_app. change (len [idx]) with 1.
  destruct (len video + 1 =? batch_size self) eqn:E;
    [apply Z.eqb_eq in E; contradiction|].
  rewrite Hibs. reflexivity.
Qed.

End SamplerMoreFacts.

(* ===================================================================== *)
(** * Examples of the further properties                                  *)
(* ===================================================================== *)

Section Net2NetMoreExamples.
Import lm_transformer Net2NetSpec dataset_image_video lm_transformer_rest
       MoreSpec.

(** X1 on a class-conditional model with [starts_with_sos]. *)
Lemma X1_forward_next_token_alignment_witness :
  exists self0 : @Net2NetTransformer Z,
    __init__ demo_encoders demo_run (demo_args false (Some true) None)
             "video" "label" 1 0 = Ok self0
    /\ exists pre,
         pre <> []
         /\ forward self0
                    {| u_drop := 0; mask := fun _ => true;
                       r_indices := fun _ => 0 |} [3; 4] [2] false
            = Ok (skipn (List.length pre - 1)
                        (run (transformer self0) (pre ++ removelast [14; 15])),
                  [14; 15]).
Proof.
  eexists. split; [reflexivity|].
  match goal with
  | |- exists pre, _ /\ forward ?s ?d ?x ?c ?i = _ =>
      destruct (X1_forward_next_token_alignment s d x c i)
        as (pre & Hne & _ & _ & Hf & _);
        [intro xs; reflexivity | discriminate | discriminate |]
  end.
  exists pre. split; [exact Hne | exact Hf].
Defined.

(** X2 on the same model. *)
Lemma X2_splice_tokens_within_vocabulary_witness :
  exists self0 : @Net2NetTransformer Z,
    __init__ demo_encoders demo_run (demo_args false (Some true) None)
             "video" "label" (1 # 2)%Q 0 = Ok self0
    /\ vocab_size (transformer self0) = 16384 + 10 + 1
    /\ Forall (fun t => 0 <= t < vocab_size (transformer (train true self0)))
              (fst (fst (splice (train true self0)
                                {| u_drop := 0; mask := fun j => Nat.even j;
                                   r_indices := fun _ => 7 |} [2] [3; 4]))).
Proof.
  eexists. split; [reflexivity|]. split; [reflexivity|].
  match goal with
  | |- Forall _ (fst (fst (splice (train ?m ?s0) ?d ?c ?z))) =>
      destruct (X2_splice_tokens_within_vocabulary
                  demo_encoders demo_run (demo_args false (Some true) None)
                  "video" "label" (1 # 2)%Q 0 s0 m d c z)
        as (_ & H & _)
  end.
  - reflexivity.
  - vm_compute. discriminate.
  - vm_compute. discriminate.
  - vm_compute. split; [discriminate | reflexivity].
  - repeat constructor; vm_compute; discriminate.
  - intro j. vm_compute. split; [discriminate | reflexivity].
  - left. repeat constructor; vm_compute; discriminate.
  - exact H.
Defined.

(** X3 on the same model. *)
Lemma X3_shifted_token_ranges_disjoint_witness :
  exists self0 : @Net2NetTransformer Z,
    __init__ demo_encoders demo_run (demo_args false (Some true) None)
             "video" "label" 1 0 = Ok self0
    /\ (forall t u, In t (shift_c self0 [2; 9]) ->
                    In u (shift_z self0 [0; 4]) -> t < u)
    /\ forall t, In t (shift_c self0 [2; 9] ++ shift_z self0 [0; 4]) ->
                 sos_token self0 < t.
Proof.
  eexists. split; [reflexivity|].
  match goal with
  | |- (forall t u, In t (shift_c ?s ?c) -> In u (shift_z ?s ?z) -> _) /\ _ =>
      destruct (X3_shifted_token_ranges_disjoint s c z) as (H1 & H2)
  end.
  - vm_compute. discriminate.
  - repeat constructor; vm_compute; discriminate.
  - repeat constructor; vm_compute; discriminate.
  - split; [exact H1 | exact (H2 eq_refl)].
Defined.

(** X4 on the same model. *)
Lemma X4_log_videos_index_inverts_shift_witness :
  exists self0 : @Net2NetTransformer Z,
    __init__ demo_encoders demo_run (demo_args false (Some true) None)
             "video" "label" 1 0 = Ok self0
    /\ shift_z self0 [0; 4; 16383] = [11; 15; 16394]
    /\ log_videos_index self0 (shift_z self0 [0; 4; 16383]) = [0; 4; 16383].
Proof.
  eexists. split; [reflexivity|]. split; [reflexivity|].
  match goal with
  | |- log_videos_index ?s (shift_z ?s ?z) = _ =>
      apply (proj1 (X4_log_videos_index_inverts_shift s z []))
  end.
  repeat constructor; vm_compute; discriminate.
Defined.

(** X5 on the same model: the codes come back one too high. *)
Lemma X5_log_images_index_off_by_one_witness :
  exists self0 : @Net2NetTransformer Z,
    __init__ demo_encoders demo_run (demo_args false (Some true) None)
             "video" "label" 1 0 = Ok self0
    /\ log_images_index self0 (shift_z self0 [0; 4; 16383])
       = map (fun t => Z.min (t + 1) (first_stage_vocab_size self0 - 1))
             [0; 4; 16383]
    /\ log_images_index self0 (shift_z self0 [0; 4; 16383]) = [1; 5; 16383].
Proof.
  eexists. split; [reflexivity|].
  match goal with
  | |- log_images_index ?s (shift_z ?s ?z) = _ /\ _ =>
      destruct (X5_log_images_index_off_by_one s z) as (_ & H);
        [repeat constructor; vm_compute; discriminate|];
        destruct (H eq_refl) as (H1 & _)
  end.
  split; [exact H1 | reflexivity].
Defined.

(** X6 on an unconditional model and a batch of two rows without a
    'label' entry. *)
Lemma X6_get_xc_unconditional_witness :
  exists self : @Net2NetTransformer Z,
    __init__ demo_encoders demo_run (demo_args true None None)
             "video" "label" 1 0 = Ok self
    /\ get_xc self (BDict [("video", [[1; 2]; [3; 4]])]) (Some 1)
       = Ok ([[1; 2]], [[1; 2]]).
Proof.
  destruct (X6_get_xc_unconditional (list Z) demo_encoders demo_run
              (demo_args true None None) "video" "label" 1 0
              [("video", [[1; 2]; [3; 4]])] [[1; 2]; [3; 4]] (Some 1) [])
    as (self & Hinit & Hd & _);
    [reflexivity | discriminate | discriminate | reflexivity |].
  exists self. split; [exact Hinit | exact Hd].
Defined.

(** X7 on a state dict of two keys: without a trainer any match raises at
    [self.print]; with a trainer a match on the first key raises and a
    match on the last key of an OrderedDict deletes it. *)
Lemma X7_init_from_ckpt_ignore_keys_witness :
  let sd := [("first_stage_model.w", 1); ("transformer.w", 2)] in
  (exists msg,
      init_from_ckpt false true sd ["transformer"]
      = (Failed (RuntimeError msg), []))
  /\ (exists e log,
         init_from_ckpt true true sd ["first_stage_model"] = (Failed e, log))
  /\ init_from_ckpt true true sd ["transformer"]
     = (Fine [("first_stage_model.w", 1)], ["transformer.w"])
  /\ init_from_ckpt false false sd ["loss"] = (Fine sd, []).
Proof.
  intro sd. split; [|split; [|split]].
  - apply (proj1 (proj2 (X7_init_from_ckpt_ignore_keys
                           false true sd ["transformer"]))
             "transformer.w" "transformer");
      [reflexivity | right; left; reflexivity | now left | reflexivity].
  - apply (proj1 (proj2 (proj2 (X7_init_from_ckpt_ignore_keys
                                  true true sd ["first_stage_model"])))
             [] [("transformer.w", 2)] "first_stage_model.w"
             "first_stage_model" 1);
      [reflexivity | now left | reflexivity | left; discriminate].
  - apply (proj2 (proj2 (proj2 (X7_init_from_ckpt_ignore_keys
                                  true true sd ["transformer"])))
             [("first_stage_model.w", 1)] "transformer.w" "transformer" 2
             [] []);
      [reflexivity | intros [H|[]]; discriminate | reflexivity | reflexivity
      | intros ik' [] | | reflexivity | reflexivity].
    intros k' ik' [<-|[]] [<-|[]]. reflexivity.
  - apply (proj1 (X7_init_from_ckpt_ignore_keys false false sd ["loss"])).
    intros k ik [<-|[<-|[]]] [<-|[]]; reflexivity.
Defined.

(** X8 on a row of four scores, for [k = 2]. *)
Lemma X8_top_k_logits_keeps_k_largest_witness :
  let logits := [Fin 1; Fin 3; NegInf; Fin 2] in
  1 <= 2 <= len logits
  /\ top_k_logits logits 2 = Fine [NegInf; Fin 3; NegInf; Fin 2]
  /\ exists kth,
       In kth logits
       /\ 2 <= count (score_leb kth) logits
       /\ count (score_ltb kth) logits < 2.
Proof.
  intro logits.
  assert (Hk : 1 <= 2 <= len logits) by (vm_compute; split; discriminate).
  split; [exact Hk|]. split; [reflexivity|].
  destruct (proj1 (X8_top_k_logits_keeps_k_largest logits 2) Hk)
    as (kth & Hin & _ & H1 & H2).
  exists kth. split; [exact Hin|]. split; [exact H1 | exact H2].
Defined.

(** X9: a conditional model keyed by 'image'; one keyed by 'text',
    without a checkpoint; and the latter with a checkpoint and an ignore
    key that matches. *)
Lemma X9_init_fails_without_cond_stage_witness :
  let sd := [("first_stage_model.w", 1); ("transformer.w", 2)] in
  @init_with_ckpt Z Z demo_encoders demo_run (demo_args false None None)
                  (Some (true, sd)) (fun _ => None) [] "video" "image" 1 0
  = Failed (Exn (AttributeError "cond_stage_vocab_size"))
  /\ (exists self,
         @init_with_ckpt Z Z demo_encoders demo_run
                         (demo_args false None None) None (fun _ => None) []
                         "video" "text" 1 0 = Fine self)
  /\ exists msg,
       @init_with_ckpt Z Z demo_encoders demo_run (demo_args false None None)
                       (Some (true, sd)) (fun _ => None) ["transformer"]
                       "video" "text" 1 0 = Failed (RuntimeError msg).
Proof.
  intro sd. split; [|split].
  - apply (proj1 (X9_init_fails_without_cond_stage
                    demo_encoders demo_run (demo_args false None None)
                    (Some (true, sd)) (fun _ => None) [] "video" "image" 1 0)).
    repeat split; discriminate.
  - apply (proj2 (proj1 (proj2 (X9_init_fails_without_cond_stage
                                  demo_encoders demo_run
                                  (demo_args false None None)
                                  None (fun _ => None) [] "video" "text" 1 0))
                        eq_refl)).
    intros (_ & _ & _ & H). now apply H.
  - destruct (proj2 (proj2 (X9_init_fails_without_cond_stage
                              demo_encoders demo_run
                              (demo_args false None None)
                              (Some (true, sd)) (fun _ => None)
                              ["transformer"] "video" "text" 1 0)))
      as (self & _ & H).
    + intros (_ & _ & _ & H). now apply H.
    + apply (proj1 (H true sd eq_refl)).
      exists "transformer.w", "transformer".
      split; [right; left; reflexivity|]. split; [now left | reflexivity].
Defined.

End Net2NetMoreExamples.

Section DatasetMoreExamples.
Import dataset_image_video DatasetSpec MoreSpec.
Import ImageVideoDataset.

(** X10 in [demo_world], where the cache files of every video exist. *)
Lemma X10_getitem_cache_hit_witness :
  let self :=
    __init__ cached_config [an_image "a.png" "cat"; a_video "set/v.mp4" "dog"] in
  let st := demo_state (fun n => n) in
  __getitem__ demo_world self 1 1 st
  = (Returned [("pixel_values", VNone); ("text", VStr "dog");
               ("data_type", VStr "video"); ("idx", VInt 1);
               ("vid_cache_path", VStr "root/cache/v_vid.pkl");
               ("text_cache_path", VStr "root/cache/v_txt.pkl");
               ("latent_idx", VObj "latent_idx");
               ("text_embedding", VObj "text_embedding");
               ("text_emb_masks", VObj "text_emb_masks")], st).
Proof.
  intros self st.
  apply (X10_getitem_cache_hit demo_world cached_config
           [an_image "a.png" "cat"; a_video "set/v.mp4" "dog"] 0 1 st
           (a_video "set/v.mp4" "dog") "set/v.mp4" "dog" "cache"
           "root/cache/v_vid.pkl" "root/cache/v_txt.pkl"
           [("latent_idx", VObj "latent_idx");
            ("text_embedding", VObj "text_embedding");
            ("text_emb_masks", VObj "text_emb_masks")]
           [("latent_idx", VObj "latent_idx");
            ("text_embedding", VObj "text_embedding");
            ("text_emb_masks", VObj "text_emb_masks")]);
    reflexivity.
Defined.

(** X11 on the default configuration. *)
Lemma X11_getitem_without_cache_dir_never_returns_witness :
  let self := __init__ default_config [a_video "set/v.mp4" "dog"] in
  cache_dir self = None
  /\ forall (fuel : nat) (idx : Z) st (sample : dict pyval) st',
       __getitem__ demo_world self fuel idx st <> (Returned sample, st').
Proof.
  intro self. split; [reflexivity|].
  intros fuel idx st sample st'.
  apply (X11_getitem_without_cache_dir_never_returns
           demo_world self fuel idx st sample st').
  reflexivity.
Defined.

(** X12 on the run of the example of X10. *)
Lemma X12_getitem_returns_video_sample_witness :
  let self :=
    __init__ cached_config [an_image "a.png" "cat"; a_video "set/v.mp4" "dog"] in
  let st := demo_state (fun n => n) in
  exists (sample : dict pyval),
    __getitem__ demo_world self 1 1 st = (Returned sample, st)
    /\ dict_lookup sample "idx" = Some (VInt 1)
    /\ exists (idx' : Z) (data0 data : entry),
         list_getitem (dataset self) (1 mod len (dataset self)) = Ok data0
         /\ content_type_of data0 = "video"
         /\ (idx' = 1 \/ 0 <= idx' < len (dataset self))
         /\ list_getitem (dataset self) (idx' mod len (dataset self)) = Ok data
         /\ content_type_of data = "video"
         /\ cache_dir self <> None
         /\ dict_lookup sample "idx" = Some (VInt idx')
         /\ dict_lookup sample "data_type" = Some (VStr "video")
         /\ (dict_lookup sample "pixel_values" = Some VNone
             \/ exists a : array,
                  dict_lookup sample "pixel_values" = Some (VArray a)
                  /\ shape0 a = video_sample_n_frames self).
Proof.
  intros self st. eexists. split; [vm_compute; reflexivity|].
  split; [reflexivity|].
  apply (X12_getitem_returns_video_sample demo_world cached_config
           [an_image "a.png" "cat"; a_video "set/v.mp4" "dog"] 1 1 st _ st).
  vm_compute. reflexivity.
Defined.

(** X13 on a video of 100 frames with the default configuration. *)
Lemma X13_batch_index_stride_witness :
  let self := __init__ default_config [] in
  exists (batch_index : list Z) (st' : state) (start_idx : Z),
    batch_index_of self 100 (demo_state (fun _ => 1000%nat))
    = (Ok batch_index, st')
    /\ batch_index = map (fun i => start_idx + i * 4) (range 16)
    /\ len batch_index = 16.
Proof.
  intro self.
  destruct (batch_index_of self 100 (demo_state (fun _ => 1000%nat)))
    as [[batch_index|e] st'] eqn:E; [|vm_compute in E; discriminate].
  destruct (X13_batch_index_stride self 100 (demo_state (fun _ => 1000%nat))
              batch_index st' E)
    as (start_idx & _ & H1 & H2); [vm_compute; discriminate|].
  exists batch_index, st', start_idx.
  split; [reflexivity|]. split; [exact H1 | exact H2].
Defined.

(** X16 on the run of the example of X10. *)
Lemma X16_getitem_text_drop_witness :
  let self :=
    __init__ cached_config [an_image "a.png" "cat"; a_video "set/v.mp4" "dog"] in
  let st := demo_state (fun n => n) in
  exists (sample : dict pyval),
    __getitem__ demo_world self 1 1 st = (Returned sample, st)
    /\ dict_lookup sample "text" = Some (VStr "dog")
    /\ exists (idx' : Z) (data : entry) (text : string),
         dict_lookup sample "idx" = Some (VInt idx')
         /\ list_getitem (dataset self) (idx' mod len (dataset self)) = Ok data
         /\ dict_lookup data "text" = Some text
         /\ (dict_lookup sample "pixel_values" = Some VNone ->
             dict_lookup sample "text" = Some (VStr text)).
Proof.
  intros self st. eexists. split; [vm_compute; reflexivity|].
  split; [reflexivity|].
  match goal with
  | |- exists idx' data text, dict_lookup ?sample _ = _ /\ _ =>
      destruct (X16_getitem_text_drop demo_world cached_config
                  [an_image "a.png" "cat"; a_video "set/v.mp4" "dog"]
                  1 1 st sample st)
        as (idx' & data & text & H1 & H2 & H3 & _ & H4 & _);
        [vm_compute; reflexivity|]
  end.
  exists idx', data, text. repeat split; assumption.
Defined.

(** X17 on a video path of one component. *)
Lemma X17_attempt_short_path_raises_witness :
  let self :=
    __init__ {| cfg_data_root := None; cfg_video_sample_stride := 4;
                cfg_video_sample_n_frames := 16; cfg_video_repeat := 1;
                cfg_text_drop_ratio := 0; cfg_enable_bucket := false;
                cfg_video_length_drop_start := 1 # 10;
                cfg_video_length_drop_end := 9 # 10;
                cfg_cache_dir := Some "cache" |}
             [a_video "v.mp4" "dog"] in
  let st := demo_state (fun n => n) in
  len (str_split slash "v.mp4") < 3
  /\ attempt demo_world self "video" 0 st
     = (Raise (IndexError "list assignment index out of range"), st).
Proof.
  intros self st. split; [reflexivity|].
  apply (X17_attempt_short_path_raises demo_world self 0 st
           (a_video "v.mp4" "dog") "v.mp4" "dog" "cache"); reflexivity.
Defined.

(** X18: two videos of the same name in two directories, and a video
    without a directory. *)
Lemma X18_cache_paths_drop_first_directory_witness :
  let self := __init__ cached_config [] in
  let st := demo_state (fun n => n) in
  cache_paths demo_world self "cache" "cats/v.mp4" "root/cats/v.mp4" st
  = (Ok ("root/cache/v_vid.pkl", "root/cache/v_txt.pkl"), st)
  /\ cache_paths demo_world self "cache" "dogs/v.mp4" "root/dogs/v.mp4" st
     = (Ok ("root/cache/v_vid.pkl", "root/cache/v_txt.pkl"), st)
  /\ cache_paths demo_world self "cache" "v.mp4" "root/v.mp4" st
     = (Ok ("root/ca_vid.pkl", "root/ca_txt.pkl"), st).
Proof.
  intros self st. split; [|split].
  - apply (proj1 (X18_cache_paths_drop_first_directory
                    demo_world self "root" "cache" "cats" "v.mp4"
                    "root/cats/v.mp4" st eq_refl eq_refl)).
  - apply (proj1 (X18_cache_paths_drop_first_directory
                    demo_world self "root" "cache" "dogs" "v.mp4"
                    "root/dogs/v.mp4" st eq_refl eq_refl)).
  - apply (proj2 (X18_cache_paths_drop_first_directory
                    demo_world self "root" "cache" "v.mp4" ""
                    "root/v.mp4" st eq_refl eq_refl)).
Defined.

(** X14 and X20 on a pass over two images and three videos. *)
Lemma X14_sampler_withholds_less_than_a_batch_witness :
  exists self0 ys self',
    ImageVideoSampler.__init__
      [an_image "a.png" "a"; a_video "b.mp4" "b"; an_image "c.png" "c";
       a_video "d.mp4" "d"; a_video "e.mp4" "e"]
      2 2 false = Ok self0
    /\ ImageVideoSampler.__iter__ self0 [0; 1; 3; 4; 2] = (ys, self', None)
    /\ Forall (fun b => b <> []) ys
    /\ len [0; 1; 3; 4; 2] - (2 + 2 - 2) <= len (concat ys).
Proof.
  eexists. eexists. eexists.
  split; [reflexivity|]. split; [reflexivity|].
  match goal with
  | |- Forall _ ?ys /\ _ =>
      destruct (X14_sampler_withholds_less_than_a_batch
                  [an_image "a.png" "a"; a_video "b.mp4" "b";
                   an_image "c.png" "c"; a_video "d.mp4" "d";
                   a_video "e.mp4" "e"]
                  2 2 false _ [] [] _ [0; 1; 3; 4; 2] ys _ None
                  eq_refl ltac:(discriminate) eq_refl eq_refl)
        as (H1 & _ & _ & H2)
  end.
  split; [exact H1 | exact (H2 eq_refl)].
Defined.

Lemma X20_sampler_keeps_order_within_type_witness :
  exists self0 ys self',
    ImageVideoSampler.__init__
      [an_image "a.png" "a"; a_video "b.mp4" "b"; an_image "c.png" "c";
       a_video "d.mp4" "d"; a_video "e.mp4" "e"]
      2 2 false = Ok self0
    /\ ImageVideoSampler.__iter__ self0 [4; 0; 3; 2; 1] = (ys, self', None)
    /\ ys = [[4; 3]; [0; 2]]
    /\ of_type (ImageVideoSampler.dataset self0) "video" (concat ys)
       ++ dict_get (ImageVideoSampler.bucket self') "video" []
       = dict_get (ImageVideoSampler.bucket self0) "video" []
         ++ of_type (ImageVideoSampler.dataset self0) "video" [4; 0; 3; 2; 1].
Proof.
  eexists. eexists. eexists.
  split; [reflexivity|]. split; [reflexivity|]. split; [reflexivity|].
  exact (proj1 (X20_sampler_keeps_order_within_type
                  [an_image "a.png" "a"; a_video "b.mp4" "b";
                   an_image "c.png" "c"; a_video "d.mp4" "d";
                   a_video "e.mp4" "e"]
                  2 2 false _ [] [] _ [4; 0; 3; 2; 1] _ _ "video"
                  eq_refl ltac:(discriminate) eq_refl eq_refl
                  (or_intror eq_refl))).
Defined.

(** X15 on annotations that hold an audio entry. *)
Lemma X15_sampler_unknown_type_ends_the_pass_witness :
  let annotations :=
    [an_image "a.png" "a"; an_audio "b.wav" "b"; an_image "c.png" "c"] in
  content_type_of (an_audio "b.wav" "b") = "audio"
  /\ exists idx self0,
       list_getitem (dataset (__init__ default_config annotations)) idx
       = Ok (an_audio "b.wav" "b")
       /\ ImageVideoSampler.__init__
            (dataset (__init__ default_config annotations)) 2 2 false
          = Ok self0
       /\ ImageVideoSampler.iter_step
            (snd (fst (ImageVideoSampler.__iter__ self0 [0]))) idx
          = Raise (KeyError "audio").
Proof.
  intro annotations. split; [reflexivity|].
  destruct (X15_sampler_unknown_type_ends_the_pass
              default_config annotations (an_audio "b.wav" "b") 2 2 false)
    as (idx & self0 & Hget & Hinit & Hrun);
    [right; left; reflexivity | discriminate | discriminate | reflexivity |].
  exists idx, self0. split; [exact Hget|]. split; [exact Hinit|].
  exact (proj1 (Hrun [] [] self0 [0] [] eq_refl)).
Defined.

(** X19 on a new sampler with [image_batch_size = 0]. *)
Lemma X19_sampler_zero_image_batch_size_witness :
  exists self0,
    ImageVideoSampler.__init__
      [a_video "a.mp4" "a"; a_video "b.mp4" "b"; a_video "c.mp4" "c"]
      3 0 false = Ok self0
    /\ ImageVideoSampler.iter_step self0 1
       = Ok (Some [],
             ImageVideoSampler.set_bucket self0 [("image", []); ("video", [1])]).
Proof.
  eexists. split; [reflexivity|].
  match goal with
  | |- ImageVideoSampler.iter_step ?s ?i = _ =>
      apply (X19_sampler_zero_image_batch_size s i [])
  end.
  - reflexivity.
  - reflexivity.
  - eexists. split; reflexivity.
  - discriminate.
Defined.

End DatasetMoreExamples.

(* ===================================================================== *)
(** * Which videos can be decoded, and the empty dataset                  *)
(* ===================================================================== *)

Section DecodeFacts.
Import dataset_image_video DatasetSpec ImageVideoDataset.

Implicit Types (w : World) (self : ImageVideoDataset.t) (st : state).

(** The three lengths derived from the number of frames, with the default
    drop ratios. *)
Lemma default_lengths self (n : nat) :
  video_length_drop_start self = (1 # 10)%Q ->
  video_length_drop_end self = (9 # 10)%Q ->
  min_sample_n_frames_of self n
  = Z.min (video_sample_n_frames self) ((Z.of_nat n * 80) ÷ 100)
  /\ video_length_of self n = (9 * Z.of_nat n) ÷ 10
  /\ (Z.of_nat n * 80) ÷ 100 <= (9 * Z.of_nat n) ÷ 10
  /\ clip_length_of self n <= video_length_of self n.
Proof.
  intros Hstart Hend.
  unfold clip_length_of, video_length_of, min_sample_n_frames_of.
  rewrite Hstart, Hend, int_drop_span, int_drop_end.
  split; [reflexivity|]. split; [reflexivity|]. split; [|lia].
  rewrite !Z.quot_div_nonneg by lia.
  Z.to_euclidean_division_equations. lia.
Qed.

(** X22.  Which videos [get_batch] can decode, with the default drop
    ratios 0.1 and 0.9, when the reader opens the file and hands over the
    frames it is asked for: the frames are decoded and returned exactly
    when [1 <= video_sample_n_frames <= int(0.8 * len(video_reader))]; a
    shorter video raises ValueError at one of the checks.  The first half
    of the check of line 203, [video_length < clip_length], never
    decides: [clip_length] is a minimum with [video_length]. *)
Theorem X22_read_video_needs_enough_frames w self (idx : Z)
    (video_dir text vid txt : string) (n : nat) st :
  video_length_drop_start self = (1 # 10)%Q ->
  video_length_drop_end self = (9 # 10)%Q ->
  video_reader_len w video_dir = Ok n ->
  (forall batch_index, read_frames w video_dir batch_index = ReadOk) ->
  ((exists tuple st',
       read_video w self idx video_dir text (Some vid) (Some txt) st
       = (Ok tuple, st'))
   <-> 1 <= video_sample_n_frames self <= (Z.of_nat n * 80) ÷ 100)
  /\ (forall e st',
        read_video w self idx video_dir text (Some vid) (Some txt) st
        = (Raise e, st') -> exists msg, e = ValueError msg)
  /\ clip_length_of self n <= video_length_of self n.
Proof.
  intros Hstart Hend Hn Hread.
  destruct (default_lengths self n Hstart Hend) as (Hm & Hvl & Hle & Hcl).
  split; [|split; [|exact Hcl]].
  - unfold read_video. rewrite Hn.
    cbv beta iota zeta delta [batch_index_of clip_window bind randint next_raw
                                lift ret raise print random].
    rewrite Hstart, int_drop_start.
    set (m := min_sample_n_frames_of self n) in *.
    set (VL := video_length_of self n) in *.
    set (CL := clip_length_of self n) in *.
    set (N := video_sample_n_frames self) in *.
    split.
    + intros (tuple & st' & H).
      destruct (m =? 0) eqn:Em; [discriminate|]. apply Z.eqb_neq in Em.
      destruct ((VL <? CL) || (VL <? N)) eqn:Echk; [discriminate|].
      destruct (randint_of_raw _ _ _) as [start_idx|e]; [|discriminate].
      cbv beta iota in H.
      destruct (linspace start_idx (start_idx + CL - 1) m) as [l|e] eqn:El;
        [|discriminate].
      apply linspace_length in El as [Hm0 Hl].
      rewrite Hread in H.
      match type of H with
      | context [shape0 ?a <? N] =>
          assert (Hsh : shape0 a = len l)
            by (destruct (negb (enable_bucket self)); reflexivity);
          destruct (shape0 a <? N) eqn:Es; [discriminate|]
      end.
      apply Z.ltb_ge in Es. rewrite Hsh, Hl in Es. lia.
    + intros [H1 HN].
      assert (Hmn : m = N) by lia.
      destruct (m =? 0) eqn:Em; [apply Z.eqb_eq in Em; lia|].
      destruct ((VL <? CL) || (VL <? N)) eqn:Echk.
      { apply orb_true_iff in Echk. destruct Echk as [E|E];
          apply Z.ltb_lt in E; lia. }
      destruct (randint_of_raw_range (VL ÷ 10) (Z.max (VL ÷ 10) (VL - CL))
                  (rng st (cursor st))) as (start_idx & -> & _); [lia|].
      cbv beta iota.
      destruct (linspace start_idx (start_idx + CL - 1) m) as [l|e] eqn:El.
      2:{ unfold linspace in El. destruct (m <? 0) eqn:E; [|discriminate].
          apply Z.ltb_lt in E. lia. }
      apply linspace_length in El as [_ Hl].
      rewrite Hread.
      match goal with
      | |- context [shape0 ?a <? N] =>
          assert (Hsh : shape0 a = len l)
            by (destruct (negb (enable_bucket self)); reflexivity);
          destruct (shape0 a <? N) eqn:Es;
          [apply Z.ltb_lt in Es; rewrite Hsh, Hl in Es; lia|]
      end.
      eauto.
  - intros e st'. unfold read_video. rewrite Hn.
    cbv beta iota zeta delta [batch_index_of clip_window bind randint next_raw
                                lift ret raise print random].
    rewrite Hstart, int_drop_start.
    set (m := min_sample_n_frames_of self n) in *.
    set (VL := video_length_of self n) in *.
    set (CL := clip_length_of self n) in *.
    set (N := video_sample_n_frames self) in *.
    destruct (m =? 0); [intros [= <- _]; eauto|].
    destruct ((VL <? CL) || (VL <? N)); [intros [= <- _]; eauto|].
    destruct (randint_of_raw_range (VL ÷ 10) (Z.max (VL ÷ 10) (VL - CL))
                (rng st (cursor st))) as (start_idx & -> & _); [lia|].
    cbv beta iota.
    unfold linspace. destruct (m <? 0); [intros [= <- _]; eauto|].
    rewrite Hread.
    match goal with
    | |- context [shape0 ?a <? N] => destruct (shape0 a <? N)
    end; [intros [= <- _]; eauto | discriminate].
Qed.

(** X21.  With [video_repeat <= 0] (the default is 0) annotations that
    hold videos only give an empty dataset, and then [__getitem__] raises
    ZeroDivisionError at once, for every index: the first
    [idx % len(self.dataset)] is outside the [try]. *)
Theorem X21_getitem_empty_dataset w (cfg : Config) (annotations : list entry)
    (fuel : nat) (idx : Z) st :
  cfg_video_repeat cfg <= 0 ->
  Forall (fun data => content_type_of data = "video") annotations ->
  let self := __init__ cfg annotations in
  dataset self = []
  /\ __len__ self = 0
  /\ __getitem__ w self fuel idx st = (Propagated ZeroDivisionError, st).
Proof.
  intros Hrep Hall self.
  assert (Hds : dataset self = []).
  { unfold self. cbn [dataset __init__]. rewrite build_dataset_eq.
    replace (Z.to_nat (cfg_video_repeat cfg)) with 0%nat by lia.
    cbn [repeat concat]. rewrite app_nil_r. unfold non_video.
    induction Hall as [|data l Hd _ IH]; [reflexivity|].
    cbn [filter]. rewrite Hd. exact IH. }
  split; [exact Hds|]. split.
  - unfold __len__, self. cbn [length __init__]. fold self.
    change (build_dataset (cfg_video_repeat cfg) annotations)
      with (dataset self). now rewrite Hds.
  - unfold __getitem__. rewrite Hds. reflexivity.
Qed.

End DecodeFacts.

Section DecodeExamples.
Import dataset_image_video DatasetSpec MoreSpec.
Import ImageVideoDataset.

(** X22 for the default 16 frames: a video of 20 frames is decoded, one
    of 19 frames is not. *)
Lemma X22_read_video_needs_enough_frames_witness :
  let self := __init__ cached_config [] in
  let w (n : nat) :=
    {| makedirs := fun _ => None; isfile := fun _ => false;
       pickle_load := fun _ => Raise (OSError "no file");
       video_reader_len := fun _ => Ok n;
       read_frames := fun _ _ => ReadOk;
       image_open := fun _ => None;
       int_of_str := fun _ => Ok 0 |} in
  let st := demo_state (fun i => i) in
  (exists tuple st',
      read_video (w 20%nat) self 0 "v.mp4" "dog" (Some "v_vid.pkl")
                 (Some "v_txt.pkl") st = (Ok tuple, st'))
  /\ ~ (exists tuple st',
           read_video (w 19%nat) self 0 "v.mp4" "dog" (Some "v_vid.pkl")
                      (Some "v_txt.pkl") st = (Ok tuple, st')).
Proof.
  intros self w st. split.
  - apply (proj1 (X22_read_video_needs_enough_frames
                    (w 20%nat) self 0 "v.mp4" "dog" "v_vid.pkl" "v_txt.pkl"
                    20 st eq_refl eq_refl eq_refl (fun _ => eq_refl))).
    vm_compute. split; discriminate.
  - intro H.
    apply (proj1 (X22_read_video_needs_enough_frames
                    (w 19%nat) self 0 "v.mp4" "dog" "v_vid.pkl" "v_txt.pkl"
                    19 st eq_refl eq_refl eq_refl (fun _ => eq_refl))) in H.
    vm_compute in H. destruct H as [_ H]. now apply H.
Defined.

(** X21 on the default configuration and two videos. *)
Lemma X21_getitem_empty_dataset_witness :
  let annotations := [a_video "a.mp4" "a"; a_video "b.mp4" "b"] in
  let self := __init__ default_config annotations in
  __len__ self = 0
  /\ __getitem__ demo_world self 3 0 (demo_state (fun n => n))
     = (Propagated ZeroDivisionError, demo_state (fun n => n)).
Proof.
  intros annotations self.
  destruct (X21_getitem_empty_dataset demo_world default_config annotations
              3 0 (demo_state (fun n => n)))
    as (_ & H1 & H2).
  - vm_compute. discriminate.
  - repeat constructor.
  - split; [exact H1 | exact H2].
Defined.

End DecodeExamples.
